(** * PaddyPress admin console: master-data pages

    A shallow embedding of the location master-data pages
    (States / Districts / Mandals / Villages / IKP centers) of the admin
    console, and the properties of their cascading selectors, submit
    buttons, mutation handlers and payloads.

    Conventions of the embedding.
    - A React component is a record of its state plus one pure function per
      event handler (explicit state passing); what a handler sends to the
      outside (a toast, a remote call, a cache invalidation) is returned
      next to the new state.
    - A JavaScript string is a [string]; its characters are read as the code
      units U+0000..U+00FF.  [null]/[undefined] is [None].
    - A react-hook-form form is its current values together with the default
      values of the last [reset]; [isDirty] compares the two.  [isValid] is
      the outcome of the last run of the resolver (the zod schema of the
      component).  The dialogs of the IKP pages and the district dialog of
      the Locations pages change values through [field.onChange] and
      registered inputs only (or through [setValue] with [shouldValidate]),
      which run the resolver: there [isValid] is the schema on the current
      values.  The village, mandal and IKP-center dialogs of the Locations
      pages also write values with a plain [setValue], which does not run
      the resolver: their form carries the flag as a field of its own. *)

From Stdlib Require Import Ascii String Bool Arith Lia List.
From stdpp Require Import base option strings list gmap.
Import ListNotations.

#[local] Open Scope string_scope.

(** ** JavaScript primitives used by the pages *)

Module Js.

(** Truthiness of a string: only the empty string is falsy. *)
Definition truthy (s : string) : bool :=
  match s with
  | EmptyString => false
  | String _ _ => true
  end.

(** Truthiness of [string | undefined]. *)
Definition truthy_opt (o : option string) : bool :=
  match o with
  | None => false
  | Some s => truthy s
  end.

(** [v ?? ""]. *)
Definition orEmpty (v : option string) : string :=
  match v with
  | None => ""
  | Some s => s
  end.

(** [a === b] on strings. *)
Definition strictEq (a b : string) : bool := String.eqb a b.

(** WhiteSpace and LineTerminator code units below U+0100:
    TAB, LF, VT, FF, CR, SP and NBSP. *)
Definition isWhiteSpace (c : ascii) : bool :=
  let n := nat_of_ascii c in
  ((9 <=? n)%nat && (n <=? 13)%nat) || (n =? 32)%nat || (n =? 160)%nat.

Fixpoint trimStart (s : string) : string :=
  match s with
  | EmptyString => EmptyString
  | String c r => if isWhiteSpace c then trimStart r else s
  end.

Fixpoint trimEnd (s : string) : string :=
  match s with
  | EmptyString => EmptyString
  | String c r =>
      match trimEnd r with
      | EmptyString => if isWhiteSpace c then EmptyString else String c EmptyString
      | r' => String c r'
      end
  end.

(** [String.prototype.trim]. *)
Definition trim (s : string) : string := trimEnd (trimStart s).

(** Every character of the string is white space. *)
Fixpoint blank (s : string) : bool :=
  match s with
  | EmptyString => true
  | String c r => isWhiteSpace c && blank r
  end.

(** [s.substring(start, end)]: the characters at the indices
    [min start end .. max start end - 1], as far as the string goes. *)
Definition substring (start end_ : nat) (s : string) : string :=
  let lo := Nat.min start end_ in
  let hi := Nat.max start end_ in
  String.substring lo (hi - lo) s.

(** [toUpperCase] on one code unit: the letters a-z.  The pages apply it
    to digits of [Number.prototype.toString(36)] only, which are 0-9 and
    a-z. *)
Definition upperChar (c : ascii) : ascii :=
  let n := nat_of_ascii c in
  if (97 <=? n)%nat && (n <=? 122)%nat then ascii_of_nat (n - 32) else c.

Fixpoint toUpperCase (s : string) : string :=
  match s with
  | EmptyString => EmptyString
  | String c r => String (upperChar c) (toUpperCase r)
  end.

(** [toLowerCase] on one code unit below U+0100: the letters A-Z, and the
    Latin-1 capitals U+00C0..U+00DE other than the multiplication sign. *)
Definition lowerChar (c : ascii) : ascii :=
  let n := nat_of_ascii c in
  if ((65 <=? n)%nat && (n <=? 90)%nat)
     || ((192 <=? n)%nat && (n <=? 222)%nat && negb (n =? 215)%nat)
  then ascii_of_nat (n + 32) else c.

Fixpoint toLowerCase (s : string) : string :=
  match s with
  | EmptyString => EmptyString
  | String c r => String (lowerChar c) (toLowerCase r)
  end.

(** [s.startsWith(p)]. *)
Definition startsWith (p s : string) : bool := String.prefix p s.

(** [Boolean(s && s.trim())]: [s && t] is [s] when [s] is falsy and [t]
    otherwise. *)
Definition nonBlank (s : string) : bool := truthy s && truthy (trim s).

(** [s || undefined]. *)
Definition orUndefined (s : string) : option string :=
  if truthy s then Some s else None.

(** [v || ""] on [string | undefined]. *)
Definition orEmptyString (v : option string) : string :=
  if truthy_opt v then orEmpty v else "".

(** [Number.MAX_SAFE_INTEGER], 2^53 - 1: up to it every integer is a
    number of its own. *)
Definition MAX_SAFE_INTEGER : Z := 9007199254740991.

(** A value that a rejected promise carries: an [Error] with its message,
    or anything else. *)
Inductive thrown :=
| ThrownError (message : string)
| ThrownOther.

(** [err instanceof Error ? err.message : fallback]. *)
Definition messageOr (fallback : string) (err : thrown) : string :=
  match err with
  | ThrownError m => m
  | ThrownOther => fallback
  end.

(** Field values of an object literal sent to the remote API. *)
Inductive value :=
| VString (s : string)
| VBool (b : bool)
| VUndefined.

End Js.

(** ** URLSearchParams

  The query string as the platform object holds it: the name-value pairs in
  order; a name may occur more than once. *)

Module URLSearchParams.

Definition t := list (string * string).

Definition named (name : string) (p : string * string) : bool := Js.strictEq (fst p) name.

(** [sp.get(name)]: the value of the first pair with that name, or [null]. *)
Definition get (name : string) (sp : t) : option string :=
  option_map snd (List.find (named name) sp).

(** [sp.set(name, value)]: when pairs with that name exist, the first takes
    the value and the others are removed; otherwise the pair is appended. *)
Fixpoint set (name value : string) (sp : t) : t :=
  match sp with
  | [] => [(name, value)]
  | p :: rest =>
      if named name p
      then (name, value) :: List.filter (fun q => negb (named name q)) rest
      else p :: set name value rest
  end.

(** [sp.getAll(name)] *)
Definition getAll (name : string) (sp : t) : list string :=
  List.map snd (List.filter (named name) sp).

End URLSearchParams.

(** ** Entities (types/adminLocations, types/adminIkpLocations)

  The type declarations are imported by the pages; the fields are the ones
  the pages read. *)

Module AdminState.
Record t := { id : string; name : string; code : string; isActive : bool }.
End AdminState.

Module AdminDistrict.
Record t := { id : string; stateId : string; name : string;
              code : option string; isActive : bool }.
End AdminDistrict.

Module AdminMandal.
Record t := { id : string; districtId : string; name : string;
              code : option string; isActive : bool }.
End AdminMandal.

Module AdminVillage.
Record t := { id : string; mandalId : string; name : string;
              code : option string; pincode : option string; isActive : bool }.
End AdminVillage.

(** ** components/ui/grouped-combobox: the option groups a page hands over *)

Module GroupedComboboxGroup.
Record option_ := { value : string; label : string }.
Record t := { groupLabel : string; options : list option_ }.
End GroupedComboboxGroup.

(** The values a combobox offers: the [value] of every option of its
    groups, in order.  Picking the [i]-th offered option hands that value to
    [onValueChange]. *)
Definition offeredValues (groups : list GroupedComboboxGroup.t) : list string :=
  flat_map (fun g => List.map GroupedComboboxGroup.value (GroupedComboboxGroup.options g))
    groups.

(** [list.find(x => key(x) === k)]: the first element with that key. *)
Definition findByKey {A : Type} (key : A -> string) (k : string) (l : list A) : option A :=
  List.find (fun x => Js.strictEq (key x) k) l.

(** ** zod string checks *)

Module Zod.
(** [z.string().min(n)] *)
Definition min (n : nat) (s : string) : bool := (n <=? String.length s)%nat.
(** [z.string().max(n)] *)
Definition max (n : nat) (s : string) : bool := (String.length s <=? n)%nat.
End Zod.

Module AdminIkpState.
Record t := { id : string; code : string; name : string; isActive : bool }.
End AdminIkpState.

Module AdminIkpDistrict.
Record t := { id : string; stateId : string; name : string; isActive : bool }.
End AdminIkpDistrict.

Module AdminIkpMandal.
Record t := { id : string; districtId : string; name : string; isActive : bool }.
End AdminIkpMandal.

Module AdminIkpVillage.
Record t := { id : string; mandalId : string; name : string; isActive : bool }.
End AdminIkpVillage.

Module AdminIkpCenter.
Record t := {
  id : string;
  stateId : string;
  districtId : string;
  mandalId : string;
  villageId : string;
  name : string;
  notes : option string;
  isActive : bool }.
End AdminIkpCenter.

(** What a page sends out of a handler. *)
Inductive ToastKind := success | error.

Inductive Effect :=
| ShowToast (message : string) (kind : ToastKind)
| InvalidateQueries (queryKey : string).

(** The outcome of a mutation: the promise of the remote call is fulfilled
    with a response (its optional [message]) or rejected with a thrown
    value. *)
Inductive Settled :=
| Fulfilled (res_message : option string)
| Rejected (err : Js.thrown).

(** ** locations-villages/LocationsVillageDialog.tsx *)

Module LocationsVillageDialog.

Record VillageFormData := {
  stateId : string;
  districtId : string;
  mandalId : string;
  name : string;
  code : option string;
  pincode : option string;
  isActive : bool }.

#[global] Instance VillageFormData_eq_dec : EqDecision VillageFormData.
Proof. solve_decision. Defined.

(** [villageSchema]: the optional strings and the boolean accept every value
    of their type. *)
Definition villageSchema (d : VillageFormData) : bool :=
  Zod.min 1 (stateId d) && Zod.min 1 (districtId d) && Zod.min 1 (mandalId d)
  && Zod.min 1 (name d).

(** [useForm]: the current values, the defaults of the last [reset], and
    [formState.isValid], the outcome of the last run of the resolver.  The
    resolver runs when a field reports a change ([field.onChange] of a
    [Controller], the [onChange] of a registered input) and after a
    [reset]; [setValue(field, v)] without [shouldValidate] writes the value
    and leaves the flag as it is. *)
Record form := {
  values : VillageFormData;
  defaultValues : VillageFormData;
  isValid : bool }.

(** The value of a registered input ([register("code")],
    [register("pincode")]) after [reset(initialValues)]: the value given by
    [initialValues], or, when the field is absent there, the text the input
    shows (the empty text for an input nobody typed in). *)
Definition registered (shown initial : option string) : option string :=
  match initial with
  | Some v => Some v
  | None => Some (Js.orEmpty shown)
  end.

(** [reset(initialValues)] while the Code and Pincode inputs show
    [shownCode] and [shownPincode]; the resolver runs on the new values. *)
Definition resetOver (shownCode shownPincode : option string)
    (initialValues : VillageFormData) : form :=
  let v := {| stateId := stateId initialValues; districtId := districtId initialValues;
              mandalId := mandalId initialValues; name := name initialValues;
              code := registered shownCode (code initialValues);
              pincode := registered shownPincode (pincode initialValues);
              isActive := isActive initialValues |} in
  {| values := v; defaultValues := initialValues; isValid := villageSchema v |}.

(** [reset(initialValues)] on inputs nobody typed in. *)
Definition reset (initialValues : VillageFormData) : form :=
  resetOver None None initialValues.

(** The fields written by [setValue(field, v)] and [field.onChange(v)]. *)
Definition set_stateId (v : string) (d : VillageFormData) : VillageFormData :=
  {| stateId := v; districtId := districtId d; mandalId := mandalId d;
     name := name d; code := code d; pincode := pincode d; isActive := isActive d |}.

Definition set_districtId (v : string) (d : VillageFormData) : VillageFormData :=
  {| stateId := stateId d; districtId := v; mandalId := mandalId d;
     name := name d; code := code d; pincode := pincode d; isActive := isActive d |}.

Definition set_mandalId (v : string) (d : VillageFormData) : VillageFormData :=
  {| stateId := stateId d; districtId := districtId d; mandalId := v;
     name := name d; code := code d; pincode := pincode d; isActive := isActive d |}.

(** [setValue(field, v)]: the value is written, the resolver does not run. *)
Definition on_values (g : VillageFormData -> VillageFormData) (f : form) : form :=
  {| values := g (values f); defaultValues := defaultValues f; isValid := isValid f |}.

(** [field.onChange(v)] and the [onChange] of a registered input: the value
    is written and the resolver runs on the values as they then are. *)
Definition field_onChange (g : VillageFormData -> VillageFormData) (f : form) : form :=
  {| values := g (values f); defaultValues := defaultValues f;
     isValid := villageSchema (g (values f)) |}.

(** [watch("stateId")], [watch("districtId")]. *)
Definition selectedStateId (f : form) : string := stateId (values f).
Definition selectedDistrictId (f : form) : string := districtId (values f).

Definition filteredDistricts (districts : list AdminDistrict.t)
    (selectedStateId : string) : list AdminDistrict.t :=
  if negb (Js.truthy selectedStateId) then []
  else List.filter (fun d => Js.strictEq (AdminDistrict.stateId d) selectedStateId) districts.

Definition filteredMandals (mandals : list AdminMandal.t)
    (selectedDistrictId : string) : list AdminMandal.t :=
  if negb (Js.truthy selectedDistrictId) then []
  else List.filter (fun m => Js.strictEq (AdminMandal.districtId m) selectedDistrictId) mandals.

Definition districtGroups (filteredDistricts : list AdminDistrict.t)
    : list GroupedComboboxGroup.t :=
  [ {| GroupedComboboxGroup.groupLabel := "Districts";
       GroupedComboboxGroup.options :=
         List.map (fun d => {| GroupedComboboxGroup.value := AdminDistrict.id d;
                               GroupedComboboxGroup.label := AdminDistrict.name d |})
                  filteredDistricts |} ].

Definition mandalGroups (filteredMandals : list AdminMandal.t)
    : list GroupedComboboxGroup.t :=
  [ {| GroupedComboboxGroup.groupLabel := "Mandals";
       GroupedComboboxGroup.options :=
         List.map (fun m => {| GroupedComboboxGroup.value := AdminMandal.id m;
                               GroupedComboboxGroup.label := AdminMandal.name m |})
                  filteredMandals |} ].

(** State selector: [field.onChange(v); setValue("districtId", "");
    setValue("mandalId", "")]. *)
Definition onStateChange (v : string) (f : form) : form :=
  on_values (set_mandalId "")
    (on_values (set_districtId "") (field_onChange (set_stateId v) f)).

(** District selector: [field.onChange(v); setValue("mandalId", "")]. *)
Definition onDistrictChange (v : string) (f : form) : form :=
  on_values (set_mandalId "") (field_onChange (set_districtId v) f).

(** Mandal selector: [field.onChange]. *)
Definition onMandalChange (v : string) (f : form) : form :=
  field_onChange (set_mandalId v) f.

(** The selectors below State are [disabled] while their parent is unset. *)
Definition districtDisabled (f : form) : bool := negb (Js.truthy (selectedStateId f)).
Definition mandalDisabled (f : form) : bool := negb (Js.truthy (selectedDistrictId f)).

(** Submit button: [disabled={isSaving || !isValid}]. *)
Definition submitDisabled (isSaving : bool) (f : form) : bool :=
  isSaving || negb (isValid f).

(** *** The dialog in use *)

Definition stateGroups (states : list AdminState.t) : list GroupedComboboxGroup.t :=
  [ {| GroupedComboboxGroup.groupLabel := "States";
       GroupedComboboxGroup.options :=
         List.map (fun s => {| GroupedComboboxGroup.value := AdminState.id s;
                               GroupedComboboxGroup.label := AdminState.name s |}) states |} ].

(** The inputs bound with [register] and the checkbox. *)
Definition set_name (v : string) (d : VillageFormData) : VillageFormData :=
  {| stateId := stateId d; districtId := districtId d; mandalId := mandalId d;
     name := v; code := code d; pincode := pincode d; isActive := isActive d |}.

Definition set_code (v : option string) (d : VillageFormData) : VillageFormData :=
  {| stateId := stateId d; districtId := districtId d; mandalId := mandalId d;
     name := name d; code := v; pincode := pincode d; isActive := isActive d |}.

Definition set_pincode (v : option string) (d : VillageFormData) : VillageFormData :=
  {| stateId := stateId d; districtId := districtId d; mandalId := mandalId d;
     name := name d; code := code d; pincode := v; isActive := isActive d |}.

Definition set_isActive (v : bool) (d : VillageFormData) : VillageFormData :=
  {| stateId := stateId d; districtId := districtId d; mandalId := mandalId d;
     name := name d; code := code d; pincode := pincode d; isActive := v |}.

(** What can happen to the open dialog: the user picks the [i]-th option a
    combobox offers or clears a combobox, types in an input, ticks the
    checkbox; or the page renders again with a fresh [initialValues] object,
    which makes the effect call [reset(initialValues)]. *)
Inductive event :=
| StatePicked (i : nat)
| DistrictPicked (i : nat)
| MandalPicked (i : nat)
| StateCleared
| DistrictCleared
| MandalCleared
| NameTyped (text : string)
| PincodeTyped (text : string)
| CodeTyped (text : string)
| ActiveChecked (checked : bool)
| PageRendered.

(** The District and Mandal comboboxes are [disabled={!selectedStateId}] and
    [disabled={!selectedDistrictId}]; a disabled combobox calls no handler,
    and neither does a pick beyond the offered options. *)
Definition step (states : list AdminState.t) (districts : list AdminDistrict.t)
    (mandals : list AdminMandal.t) (initialValues : VillageFormData)
    (e : event) (f : form) : form :=
  match e with
  | StatePicked i =>
      match nth_error (offeredValues (stateGroups states)) i with
      | Some v => onStateChange v f
      | None => f
      end
  | DistrictPicked i =>
      if districtDisabled f then f
      else match nth_error
                   (offeredValues
                      (districtGroups (filteredDistricts districts (selectedStateId f)))) i with
           | Some v => onDistrictChange v f
           | None => f
           end
  | MandalPicked i =>
      if mandalDisabled f then f
      else match nth_error
                   (offeredValues
                      (mandalGroups (filteredMandals mandals (selectedDistrictId f)))) i with
           | Some v => onMandalChange v f
           | None => f
           end
  | StateCleared => onStateChange "" f
  | DistrictCleared => if districtDisabled f then f else onDistrictChange "" f
  | MandalCleared => if mandalDisabled f then f else onMandalChange "" f
  | NameTyped text => field_onChange (set_name text) f
  | PincodeTyped text => field_onChange (set_pincode (Some text)) f
  | CodeTyped text => field_onChange (set_code (Some text)) f
  | ActiveChecked checked => field_onChange (set_isActive checked) f
  | PageRendered => resetOver (code (values f)) (pincode (values f)) initialValues
  end.

(** The dialog opens with [reset(initialValues)]. *)
Definition run (states : list AdminState.t) (districts : list AdminDistrict.t)
    (mandals : list AdminMandal.t) (initialValues : VillageFormData)
    (es : list event) : form :=
  fold_left (fun f e => step states districts mandals initialValues e f) es
    (reset initialValues).

(** A click on the submit button, which is
    [disabled={isSaving || !isValid}]: [handleSubmit(onSave)] runs the
    resolver on the current values and hands them to [onSave] only when it
    accepts them. *)
Definition submit (isSaving : bool) (f : form) : option VillageFormData :=
  if submitDisabled isSaving f then None
  else if villageSchema (values f) then Some (values f) else None.

End LocationsVillageDialog.

(** ** LocationsMandalDialog.tsx *)

Module LocationsMandalDialog.

Record MandalFormData := {
  stateId : string;
  districtId : string;
  name : string;
  code : option string;
  isActive : bool }.

#[global] Instance MandalFormData_eq_dec : EqDecision MandalFormData.
Proof. solve_decision. Defined.

Definition mandalSchema (d : MandalFormData) : bool :=
  Zod.min 1 (stateId d) && Zod.min 1 (districtId d) && Zod.min 1 (name d).

(** [useForm]: the current values, the defaults of the last [reset], and
    [formState.isValid], the outcome of the last run of the resolver:
    refreshed when a field reports a change and after a [reset], left as it
    is by [setValue(field, v)] without [shouldValidate]. *)
Record form := {
  values : MandalFormData;
  defaultValues : MandalFormData;
  isValid : bool }.

(** The value of the registered Code input after [reset(initialValues)]:
    the value given by [initialValues], or, when the field is absent there,
    the text the input shows (the empty text for an input nobody typed
    in). *)
Definition registered (shown initial : option string) : option string :=
  match initial with
  | Some v => Some v
  | None => Some (Js.orEmpty shown)
  end.

(** [reset(initialValues)] while the Code input shows [shownCode]; the
    resolver runs on the new values. *)
Definition resetOver (shownCode : option string) (initialValues : MandalFormData) : form :=
  let v := {| stateId := stateId initialValues; districtId := districtId initialValues;
              name := name initialValues;
              code := registered shownCode (code initialValues);
              isActive := isActive initialValues |} in
  {| values := v; defaultValues := initialValues; isValid := mandalSchema v |}.

(** [reset(initialValues)] on inputs nobody typed in. *)
Definition reset (initialValues : MandalFormData) : form :=
  resetOver None initialValues.

Definition set_stateId (v : string) (d : MandalFormData) : MandalFormData :=
  {| stateId := v; districtId := districtId d; name := name d; code := code d;
     isActive := isActive d |}.

Definition set_districtId (v : string) (d : MandalFormData) : MandalFormData :=
  {| stateId := stateId d; districtId := v; name := name d; code := code d;
     isActive := isActive d |}.

Definition set_code (v : option string) (d : MandalFormData) : MandalFormData :=
  {| stateId := stateId d; districtId := districtId d; name := name d; code := v;
     isActive := isActive d |}.

(** [setValue(field, v)]: the value is written, the resolver does not run. *)
Definition on_values (g : MandalFormData -> MandalFormData) (f : form) : form :=
  {| values := g (values f); defaultValues := defaultValues f; isValid := isValid f |}.

(** [field.onChange(v)] and the [onChange] of a registered input: the value
    is written and the resolver runs on the values as they then are. *)
Definition field_onChange (g : MandalFormData -> MandalFormData) (f : form) : form :=
  {| values := g (values f); defaultValues := defaultValues f;
     isValid := mandalSchema (g (values f)) |}.

Definition selectedStateId (f : form) : string := stateId (values f).

Definition filteredDistricts (districts : list AdminDistrict.t)
    (selectedStateId : string) : list AdminDistrict.t :=
  if negb (Js.truthy selectedStateId) then []
  else List.filter (fun d => Js.strictEq (AdminDistrict.stateId d) selectedStateId) districts.

(** State selector: [field.onChange(v); setValue("districtId", "")]. *)
Definition onStateChange (v : string) (f : form) : form :=
  on_values (set_districtId "") (field_onChange (set_stateId v) f).

(** Submit button: [disabled={isSaving || !isValid}]. *)
Definition submitDisabled (isSaving : bool) (f : form) : bool :=
  isSaving || negb (isValid f).

(** *** The dialog in use *)

Definition stateGroups (states : list AdminState.t) : list GroupedComboboxGroup.t :=
  [ {| GroupedComboboxGroup.groupLabel := "States";
       GroupedComboboxGroup.options :=
         List.map (fun s => {| GroupedComboboxGroup.value := AdminState.id s;
                               GroupedComboboxGroup.label := AdminState.name s |}) states |} ].

Definition districtGroups (filteredDistricts : list AdminDistrict.t)
    : list GroupedComboboxGroup.t :=
  [ {| GroupedComboboxGroup.groupLabel := "Districts";
       GroupedComboboxGroup.options :=
         List.map (fun d => {| GroupedComboboxGroup.value := AdminDistrict.id d;
                               GroupedComboboxGroup.label := AdminDistrict.name d |})
                  filteredDistricts |} ].

Definition set_name (v : string) (d : MandalFormData) : MandalFormData :=
  {| stateId := stateId d; districtId := districtId d; name := v; code := code d;
     isActive := isActive d |}.

Definition set_isActive (v : bool) (d : MandalFormData) : MandalFormData :=
  {| stateId := stateId d; districtId := districtId d; name := name d; code := code d;
     isActive := v |}.

(** District selector: [field.onChange]. *)
Definition onDistrictChange (v : string) (f : form) : form :=
  field_onChange (set_districtId v) f.

(** The District combobox is [disabled={!selectedStateId}]. *)
Definition districtDisabled (f : form) : bool := negb (Js.truthy (selectedStateId f)).

(** What can happen to the open dialog: the user picks the [i]-th option a
    combobox offers or clears a combobox, types in an input, ticks the
    checkbox; or the page renders again with a fresh [initialValues] object,
    which makes the effect call [reset(initialValues)]. *)
Inductive event :=
| StatePicked (i : nat)
| DistrictPicked (i : nat)
| StateCleared
| DistrictCleared
| NameTyped (text : string)
| CodeTyped (text : string)
| ActiveChecked (checked : bool)
| PageRendered.

(** A disabled combobox calls no handler, and neither does a pick beyond
    the offered options. *)
Definition step (states : list AdminState.t) (districts : list AdminDistrict.t)
    (initialValues : MandalFormData) (e : event) (f : form) : form :=
  match e with
  | StatePicked i =>
      match nth_error (offeredValues (stateGroups states)) i with
      | Some v => onStateChange v f
      | None => f
      end
  | DistrictPicked i =>
      if districtDisabled f then f
      else match nth_error
                   (offeredValues
                      (districtGroups (filteredDistricts districts (selectedStateId f)))) i with
           | Some v => onDistrictChange v f
           | None => f
           end
  | StateCleared => onStateChange "" f
  | DistrictCleared => if districtDisabled f then f else onDistrictChange "" f
  | NameTyped text => field_onChange (set_name text) f
  | CodeTyped text => field_onChange (set_code (Some text)) f
  | ActiveChecked checked => field_onChange (set_isActive checked) f
  | PageRendered => resetOver (code (values f)) initialValues
  end.

(** The dialog opens with [reset(initialValues)]. *)
Definition run (states : list AdminState.t) (districts : list AdminDistrict.t)
    (initialValues : MandalFormData) (es : list event) : form :=
  fold_left (fun f e => step states districts initialValues e f) es (reset initialValues).

(** A click on the submit button, which is
    [disabled={isSaving || !isValid}]: [handleSubmit(onSave)] runs the
    resolver on the current values and hands them to [onSave] only when it
    accepts them. *)
Definition submit (isSaving : bool) (f : form) : option MandalFormData :=
  if submitDisabled isSaving f then None
  else if mandalSchema (values f) then Some (values f) else None.

End LocationsMandalDialog.

(** ** locations-districts/LocationsDistrictDialog.tsx *)

Module LocationsDistrictDialog.

Record DistrictFormData := {
  stateId : string;
  name : string;
  code : option string;
  isActive : bool }.

Definition districtSchema (d : DistrictFormData) : bool :=
  Zod.min 1 (stateId d) && Zod.min 1 (name d).

(** [useForm]: values change through [field.onChange] and the registered
    inputs only, which run the resolver, so [isValid] is the schema on the
    current values. *)
Record form := { values : DistrictFormData; defaultValues : DistrictFormData }.

Definition isValid (f : form) : bool := districtSchema (values f).

(** Submit button: [disabled={isSaving || !isValid}]. *)
Definition submitDisabled (isSaving : bool) (f : form) : bool :=
  isSaving || negb (isValid f).

End LocationsDistrictDialog.

(** ** IkpCenterDialog.tsx of the Locations pages (client-side narrowing) *)

Module LocationsIkpCenterDialog.

Record IkpCenterFormData := {
  stateId : string;
  districtId : string;
  mandalId : string;
  villageId : string;
  name : string;
  notes : option string;
  isActive : bool }.

#[global] Instance IkpCenterFormData_eq_dec : EqDecision IkpCenterFormData.
Proof. solve_decision. Defined.

Definition ikpCenterSchema (d : IkpCenterFormData) : bool :=
  Zod.min 1 (stateId d) && Zod.min 1 (districtId d) && Zod.min 1 (mandalId d)
  && Zod.min 1 (villageId d) && Zod.min 1 (name d).

(** [useForm]: the current values, the defaults of the last [reset], and
    [formState.isValid], the outcome of the last run of the resolver:
    refreshed when a field reports a change and after a [reset], left as it
    is by [setValue(field, v)] without [shouldValidate]. *)
Record form := {
  values : IkpCenterFormData;
  defaultValues : IkpCenterFormData;
  isValid : bool }.

Definition reset (initialValues : IkpCenterFormData) : form :=
  {| values := initialValues; defaultValues := initialValues;
     isValid := ikpCenterSchema initialValues |}.

Definition isDirty (f : form) : bool := bool_decide (values f <> defaultValues f).

Definition set_stateId (v : string) (d : IkpCenterFormData) : IkpCenterFormData :=
  {| stateId := v; districtId := districtId d; mandalId := mandalId d;
     villageId := villageId d; name := name d; notes := notes d;
     isActive := isActive d |}.

Definition set_districtId (v : string) (d : IkpCenterFormData) : IkpCenterFormData :=
  {| stateId := stateId d; districtId := v; mandalId := mandalId d;
     villageId := villageId d; name := name d; notes := notes d;
     isActive := isActive d |}.

Definition set_mandalId (v : string) (d : IkpCenterFormData) : IkpCenterFormData :=
  {| stateId := stateId d; districtId := districtId d; mandalId := v;
     villageId := villageId d; name := name d; notes := notes d;
     isActive := isActive d |}.

Definition set_villageId (v : string) (d : IkpCenterFormData) : IkpCenterFormData :=
  {| stateId := stateId d; districtId := districtId d; mandalId := mandalId d;
     villageId := v; name := name d; notes := notes d; isActive := isActive d |}.

(** [setValue(field, v)]: the value is written, the resolver does not run. *)
Definition on_values (g : IkpCenterFormData -> IkpCenterFormData) (f : form) : form :=
  {| values := g (values f); defaultValues := defaultValues f; isValid := isValid f |}.

(** [field.onChange(v)]: the value is written and the resolver runs on the
    values as they then are. *)
Definition field_onChange (g : IkpCenterFormData -> IkpCenterFormData) (f : form) : form :=
  {| values := g (values f); defaultValues := defaultValues f;
     isValid := ikpCenterSchema (g (values f)) |}.

Definition selectedStateId (f : form) : string := stateId (values f).
Definition selectedDistrictId (f : form) : string := districtId (values f).
Definition selectedMandalId (f : form) : string := mandalId (values f).

Definition filteredDistricts (districts : list AdminDistrict.t)
    (selectedStateId : string) : list AdminDistrict.t :=
  if negb (Js.truthy selectedStateId) then []
  else List.filter (fun d => Js.strictEq (AdminDistrict.stateId d) selectedStateId) districts.

Definition filteredMandals (mandals : list AdminMandal.t)
    (selectedDistrictId : string) : list AdminMandal.t :=
  if negb (Js.truthy selectedDistrictId) then []
  else List.filter (fun m => Js.strictEq (AdminMandal.districtId m) selectedDistrictId) mandals.

Definition filteredVillages (villages : list AdminVillage.t)
    (selectedMandalId : string) : list AdminVillage.t :=
  if negb (Js.truthy selectedMandalId) then []
  else List.filter (fun v => Js.strictEq (AdminVillage.mandalId v) selectedMandalId) villages.

(** State selector: [field.onChange(v)] and the three [setValue(_, "")]. *)
Definition onStateChange (v : string) (f : form) : form :=
  on_values (set_villageId "")
    (on_values (set_mandalId "")
       (on_values (set_districtId "") (field_onChange (set_stateId v) f))).

(** District selector: [field.onChange(v); setValue("mandalId", "");
    setValue("villageId", "")]. *)
Definition onDistrictChange (v : string) (f : form) : form :=
  on_values (set_villageId "")
    (on_values (set_mandalId "") (field_onChange (set_districtId v) f)).

(** Mandal selector: [field.onChange(v); setValue("villageId", "")]. *)
Definition onMandalChange (v : string) (f : form) : form :=
  on_values (set_villageId "") (field_onChange (set_mandalId v) f).

(** Village selector: [field.onChange]. *)
Definition onVillageChange (v : string) (f : form) : form :=
  field_onChange (set_villageId v) f.

(** [isSaving || !isValid || (title.startsWith("Edit") ? !isDirty : false)] *)
Definition submitDisabled (title : string) (isSaving : bool) (f : form) : bool :=
  isSaving || negb (isValid f)
  || (if Js.startsWith "Edit" title then negb (isDirty f) else false).

End LocationsIkpCenterDialog.

(** ** pages/master-data/IkpCentersPage.tsx *)

Module IkpCentersPage.

(** *** IkpCenterDialog (server-side narrowing) *)

Module IkpCenterDialog.

Record IkpCenterFormData := {
  stateId : string;
  districtId : string;
  mandalId : string;
  villageId : string;
  name : string;
  notes : option string;
  isActive : bool }.

#[global] Instance IkpCenterFormData_eq_dec : EqDecision IkpCenterFormData.
Proof. solve_decision. Defined.

Definition ikpCenterSchema (d : IkpCenterFormData) : bool :=
  Zod.min 1 (stateId d) && Zod.min 1 (districtId d) && Zod.min 1 (mandalId d)
  && Zod.min 1 (villageId d) && Zod.min 1 (name d).

(** [useForm] with [mode: "onChange"]: every write of a value runs the
    resolver (the [setValue] calls of the dialog pass
    [shouldValidate: true]), so [isValid] is the schema on the current
    values. *)
Record form := { values : IkpCenterFormData; defaultValues : IkpCenterFormData }.

Definition isValid (f : form) : bool := ikpCenterSchema (values f).
Definition isDirty (f : form) : bool := bool_decide (values f <> defaultValues f).

(** [watch("stateId")], [watch("districtId")], [watch("mandalId")]. *)
Definition stateIdValue (f : form) : string := stateId (values f).
Definition districtIdValue (f : form) : string := districtId (values f).
Definition mandalIdValue (f : form) : string := mandalId (values f).

(** The [enabled] flag of the three option queries of the dialog. *)
Definition districtsQuery_enabled (f : form) : bool := Js.nonBlank (stateIdValue f).
Definition mandalsQuery_enabled (f : form) : bool := Js.nonBlank (districtIdValue f).
Definition villagesQuery_enabled (f : form) : bool := Js.nonBlank (mandalIdValue f).

Definition submitDisabled (title : string) (isSaving : bool) (f : form) : bool :=
  isSaving || negb (isValid f)
  || (if Js.startsWith "Edit" title then negb (isDirty f) else false).

End IkpCenterDialog.

(** *** The page: its filter bar and option queries *)

Record Filters := {
  search : string;
  stateId : string;
  districtId : string;
  mandalId : string;
  villageId : string;
  includeInactive : bool }.

Definition initialFilters : Filters :=
  {| search := ""; stateId := ""; districtId := ""; mandalId := "";
     villageId := ""; includeInactive := true |}.

(** State filter: [setFilters(p => ({...p, stateId: v ?? "", districtId: "",
    mandalId: "", villageId: ""}))]. *)
Definition onStateFilterChange (v : option string) (p : Filters) : Filters :=
  {| search := search p; stateId := Js.orEmpty v; districtId := "";
     mandalId := ""; villageId := ""; includeInactive := includeInactive p |}.

Definition onDistrictFilterChange (v : option string) (p : Filters) : Filters :=
  {| search := search p; stateId := stateId p; districtId := Js.orEmpty v;
     mandalId := ""; villageId := ""; includeInactive := includeInactive p |}.

Definition onMandalFilterChange (v : option string) (p : Filters) : Filters :=
  {| search := search p; stateId := stateId p; districtId := districtId p;
     mandalId := Js.orEmpty v; villageId := ""; includeInactive := includeInactive p |}.

Definition onVillageFilterChange (v : option string) (p : Filters) : Filters :=
  {| search := search p; stateId := stateId p; districtId := districtId p;
     mandalId := mandalId p; villageId := Js.orEmpty v;
     includeInactive := includeInactive p |}.

Definition districtsQuery_enabled (p : Filters) : bool := Js.nonBlank (stateId p).
Definition mandalsQuery_enabled (p : Filters) : bool := Js.nonBlank (districtId p).
Definition villagesQuery_enabled (p : Filters) : bool := Js.nonBlank (mandalId p).

(** Search box: [setFilters(p => ({...p, search: e.target.value}))]. *)
Definition onSearchChange (s : string) (p : Filters) : Filters :=
  {| search := s; stateId := stateId p; districtId := districtId p;
     mandalId := mandalId p; villageId := villageId p;
     includeInactive := includeInactive p |}.

(** Include-inactive checkbox:
    [setFilters(p => ({...p, includeInactive: Boolean(v)}))]. *)
Definition onIncludeInactiveChange (b : bool) (p : Filters) : Filters :=
  {| search := search p; stateId := stateId p; districtId := districtId p;
     mandalId := mandalId p; villageId := villageId p; includeInactive := b |}.

(** What the user can do in the filter bar. *)
Inductive filterEvent :=
| SearchTyped (s : string)
| StateFilterPicked (v : option string)
| DistrictFilterPicked (v : option string)
| MandalFilterPicked (v : option string)
| VillageFilterPicked (v : option string)
| IncludeInactiveChecked (b : bool).

(** The District, Mandal and Village selects are [disabled={!filters.stateId}],
    [disabled={!filters.districtId}] and [disabled={!filters.mandalId}]: a
    disabled select calls no handler. *)
Definition filterStep (e : filterEvent) (p : Filters) : Filters :=
  match e with
  | SearchTyped s => onSearchChange s p
  | StateFilterPicked v => onStateFilterChange v p
  | DistrictFilterPicked v =>
      if negb (Js.truthy (stateId p)) then p else onDistrictFilterChange v p
  | MandalFilterPicked v =>
      if negb (Js.truthy (districtId p)) then p else onMandalFilterChange v p
  | VillageFilterPicked v =>
      if negb (Js.truthy (mandalId p)) then p else onVillageFilterChange v p
  | IncludeInactiveChecked b => onIncludeInactiveChange b p
  end.

(** The filter bar after the user did [es], oldest first, on the page as
    mounted. *)
Definition filterRun (es : list filterEvent) : Filters :=
  fold_left (fun p e => filterStep e p) es initialFilters.

(** The remote calls of the save callbacks and of the confirmation. *)
Inductive RemoteCall :=
| createAdminIkpCenter (payload : gmap string Js.value)
| updateAdminIkpCenter (id : string) (payload : gmap string Js.value)
| deactivateAdminIkpCenter (id : string).

(** [notes: data.notes], a [string | undefined]. *)
Definition notesValue (notes : option string) : Js.value :=
  match notes with
  | Some s => Js.VString s
  | None => Js.VUndefined
  end.

(** The object literal both save callbacks build:
    [{villageId: data.villageId, name: data.name, notes: data.notes,
      isActive: data.isActive}]. *)
Definition savePayload (data : IkpCenterDialog.IkpCenterFormData)
    : gmap string Js.value :=
  {[ "villageId" := Js.VString (IkpCenterDialog.villageId data);
     "name" := Js.VString (IkpCenterDialog.name data);
     "notes" := notesValue (IkpCenterDialog.notes data);
     "isActive" := Js.VBool (IkpCenterDialog.isActive data) ]}.

(** [onSave] of the create dialog: [createMutation.mutate({...})]. *)
Definition create_onSave (data : IkpCenterDialog.IkpCenterFormData)
    : option RemoteCall :=
  Some (createAdminIkpCenter (savePayload data)).

(** [onSave] of the edit dialog:
    [if (!editing) return;
     updateMutation.mutate({id: editing.id, payload: {...}})]. *)
Definition edit_onSave (editing : option AdminIkpCenter.t)
    (data : IkpCenterDialog.IkpCenterFormData) : option RemoteCall :=
  match editing with
  | None => None
  | Some row => Some (updateAdminIkpCenter (AdminIkpCenter.id row) (savePayload data))
  end.

(** [initialValues] of the edit dialog: each field of [editing], or its
    default when nothing is being edited ([editing?.stateId ?? ""], ...,
    [editing?.isActive ?? true]). *)
Definition edit_initialValues (editing : option AdminIkpCenter.t)
    : IkpCenterDialog.IkpCenterFormData :=
  match editing with
  | Some row =>
      {| IkpCenterDialog.stateId := AdminIkpCenter.stateId row;
         IkpCenterDialog.districtId := AdminIkpCenter.districtId row;
         IkpCenterDialog.mandalId := AdminIkpCenter.mandalId row;
         IkpCenterDialog.villageId := AdminIkpCenter.villageId row;
         IkpCenterDialog.name := AdminIkpCenter.name row;
         IkpCenterDialog.notes := Some (default "" (AdminIkpCenter.notes row));
         IkpCenterDialog.isActive := AdminIkpCenter.isActive row |}
  | None =>
      {| IkpCenterDialog.stateId := ""; IkpCenterDialog.districtId := "";
         IkpCenterDialog.mandalId := ""; IkpCenterDialog.villageId := "";
         IkpCenterDialog.name := ""; IkpCenterDialog.notes := Some "";
         IkpCenterDialog.isActive := true |}
  end.

(** *** The dialogs of the page and its mutations *)

(** The [useState] cells behind the three dialogs. *)
Record Dialogs := {
  createOpen : bool;
  editing : option AdminIkpCenter.t;
  deactivateTarget : option AdminIkpCenter.t }.

(** [createMutation], [updateMutation], [deactivateMutation]: [onSuccess]
    and [onError]. *)
Definition createMutation_settle (r : Settled) (d : Dialogs) : Dialogs * list Effect :=
  match r with
  | Fulfilled _ =>
      ({| createOpen := false; editing := editing d;
          deactivateTarget := deactivateTarget d |},
       [ShowToast "IKP center created." success;
        InvalidateQueries "adminIkpCenters";
        InvalidateQueries "adminIkpStatesForCenters"])
  | Rejected err =>
      (d, [ShowToast (Js.messageOr "Failed to create IKP center." err) error])
  end.

Definition updateMutation_settle (r : Settled) (d : Dialogs) : Dialogs * list Effect :=
  match r with
  | Fulfilled _ =>
      ({| createOpen := createOpen d; editing := None;
          deactivateTarget := deactivateTarget d |},
       [ShowToast "IKP center updated." success;
        InvalidateQueries "adminIkpCenters";
        InvalidateQueries "adminIkpStatesForCenters"])
  | Rejected err =>
      (d, [ShowToast (Js.messageOr "Failed to update IKP center." err) error])
  end.

Definition deactivateMutation_settle (r : Settled) (d : Dialogs) : Dialogs * list Effect :=
  match r with
  | Fulfilled _ =>
      ({| createOpen := createOpen d; editing := editing d; deactivateTarget := None |},
       [ShowToast "IKP center deactivated." success;
        InvalidateQueries "adminIkpCenters";
        InvalidateQueries "adminIkpStatesForCenters"])
  | Rejected err =>
      (d, [ShowToast (Js.messageOr "Failed to deactivate IKP center." err) error])
  end.

End IkpCentersPage.

(** ** IkpDistrictsPage.tsx *)

Module IkpDistrictsPage.

(** *** DistrictDialog *)

Module DistrictDialog.

Record DistrictFormData := {
  stateId : string;
  name : string;
  isActive : bool }.

#[global] Instance DistrictFormData_eq_dec : EqDecision DistrictFormData.
Proof. solve_decision. Defined.

Definition districtSchema (d : DistrictFormData) : bool :=
  Zod.min 1 (stateId d) && (Zod.min 1 (name d) && Zod.max 100 (name d)).

Record form := { values : DistrictFormData; defaultValues : DistrictFormData }.

Definition reset (initialValues : DistrictFormData) : form :=
  {| values := initialValues; defaultValues := initialValues |}.

Definition isValid (f : form) : bool := districtSchema (values f).
Definition isDirty (f : form) : bool := bool_decide (values f <> defaultValues f).

(** What the user can do in the open dialog. *)
Inductive event :=
| SelectState (v : option string)
| TypeName (s : string)
| CheckActive (b : bool).

(** The State select is [disabled={props.disableState}]: a disabled select
    calls no handler.  Otherwise [field.onChange(v ?? "")]. *)
Definition step (disableState : bool) (e : event) (f : form) : form :=
  let d := values f in
  match e with
  | SelectState v =>
      if disableState then f
      else {| values := {| stateId := Js.orEmpty v; name := name d; isActive := isActive d |};
              defaultValues := defaultValues f |}
  | TypeName s =>
      {| values := {| stateId := stateId d; name := s; isActive := isActive d |};
         defaultValues := defaultValues f |}
  | CheckActive b =>
      {| values := {| stateId := stateId d; name := name d; isActive := b |};
         defaultValues := defaultValues f |}
  end.

(** The dialog after it was opened on [initialValues] and the user did
    [es], oldest first. *)
Definition run (disableState : bool) (initialValues : DistrictFormData)
    (es : list event) : form :=
  fold_left (fun f e => step disableState e f) es (reset initialValues).

(** [props.isSaving || !isValid || (props.disableState ? !isDirty : false)] *)
Definition submitDisabled (disableState isSaving : bool) (f : form) : bool :=
  isSaving || negb (isValid f) || (if disableState then negb (isDirty f) else false).

End DistrictDialog.

(** *** The page *)

(** The [useState] cells of the page, and the [isSuccess] flag of the
    queries that gate other queries. *)
Record State := {
  search : string;
  stateId : string;
  includeInactive : bool;
  createOpen : bool;
  editing : option AdminIkpDistrict.t;
  deactivateTarget : option AdminIkpDistrict.t;
  statesQuery_isSuccess : bool }.

(** [v ? (v === stateId ? "" : v) : ""] *)
Definition toggled (v : option string) (current : string) : string :=
  match v with
  | Some v' => if Js.truthy v' then (if Js.strictEq v' current then "" else v') else ""
  | None => ""
  end.

(** State filter select: [setStateId(v ? (v === stateId ? "" : v) : "")]. *)
Definition onStateFilterChange (v : option string) (st : State) : State :=
  {| search := search st; stateId := toggled v (stateId st);
     includeInactive := includeInactive st; createOpen := createOpen st;
     editing := editing st; deactivateTarget := deactivateTarget st;
     statesQuery_isSuccess := statesQuery_isSuccess st |}.

Definition setCreateOpen (b : bool) (st : State) : State :=
  {| search := search st; stateId := stateId st;
     includeInactive := includeInactive st; createOpen := b;
     editing := editing st; deactivateTarget := deactivateTarget st;
     statesQuery_isSuccess := statesQuery_isSuccess st |}.

Definition setEditing (e : option AdminIkpDistrict.t) (st : State) : State :=
  {| search := search st; stateId := stateId st;
     includeInactive := includeInactive st; createOpen := createOpen st;
     editing := e; deactivateTarget := deactivateTarget st;
     statesQuery_isSuccess := statesQuery_isSuccess st |}.

Definition setDeactivateTarget (t : option AdminIkpDistrict.t) (st : State) : State :=
  {| search := search st; stateId := stateId st;
     includeInactive := includeInactive st; createOpen := createOpen st;
     editing := editing st; deactivateTarget := t;
     statesQuery_isSuccess := statesQuery_isSuccess st |}.

Definition createDialog_open (st : State) : bool := createOpen st.
Definition editDialog_open (st : State) : bool :=
  match editing st with Some _ => true | None => false end.
Definition deactivateDialog_open (st : State) : bool :=
  match deactivateTarget st with Some _ => true | None => false end.

Definition createMutation_settle (r : Settled) (st : State) : State * list Effect :=
  match r with
  | Fulfilled res_message =>
      (setCreateOpen false st,
       [ShowToast (default "District created." res_message) success;
        InvalidateQueries "adminIkpDistricts"])
  | Rejected err =>
      (st, [ShowToast (Js.messageOr "Failed to create district." err) error])
  end.

Definition updateMutation_settle (r : Settled) (st : State) : State * list Effect :=
  match r with
  | Fulfilled res_message =>
      (setEditing None st,
       [ShowToast (default "District updated." res_message) success;
        InvalidateQueries "adminIkpDistricts"])
  | Rejected err =>
      (st, [ShowToast (Js.messageOr "Failed to update district." err) error])
  end.

Definition deactivateMutation_settle (r : Settled) (st : State) : State * list Effect :=
  match r with
  | Fulfilled res_message =>
      (setDeactivateTarget None st,
       [ShowToast (default "District deactivated." res_message) success;
        InvalidateQueries "adminIkpDistricts"])
  | Rejected err =>
      (st, [ShowToast (Js.messageOr "Failed to deactivate district." err) error])
  end.

End IkpDistrictsPage.

(** ** pages/master-data/IkpMandalsPage.tsx *)

Module IkpMandalsPage.

(** *** MandalDialog *)

Module MandalDialog.

Record MandalFormData := {
  districtId : string;
  name : string;
  isActive : bool }.

#[global] Instance MandalFormData_eq_dec : EqDecision MandalFormData.
Proof. solve_decision. Defined.

Definition mandalSchema (d : MandalFormData) : bool :=
  Zod.min 1 (districtId d) && (Zod.min 1 (name d) && Zod.max 100 (name d)).

Record form := { values : MandalFormData; defaultValues : MandalFormData }.

Definition reset (initialValues : MandalFormData) : form :=
  {| values := initialValues; defaultValues := initialValues |}.

Definition isValid (f : form) : bool := mandalSchema (values f).
Definition isDirty (f : form) : bool := bool_decide (values f <> defaultValues f).

Inductive event :=
| SelectDistrict (v : option string)
| TypeName (s : string)
| CheckActive (b : bool).

(** The District select is [disabled={props.disableDistrict}]. *)
Definition step (disableDistrict : bool) (e : event) (f : form) : form :=
  let d := values f in
  match e with
  | SelectDistrict v =>
      if disableDistrict then f
      else {| values := {| districtId := Js.orEmpty v; name := name d; isActive := isActive d |};
              defaultValues := defaultValues f |}
  | TypeName s =>
      {| values := {| districtId := districtId d; name := s; isActive := isActive d |};
         defaultValues := defaultValues f |}
  | CheckActive b =>
      {| values := {| districtId := districtId d; name := name d; isActive := b |};
         defaultValues := defaultValues f |}
  end.

Definition run (disableDistrict : bool) (initialValues : MandalFormData)
    (es : list event) : form :=
  fold_left (fun f e => step disableDistrict e f) es (reset initialValues).

(** [props.isSaving || !isValid || (props.disableDistrict ? !isDirty : false)] *)
Definition submitDisabled (disableDistrict isSaving : bool) (f : form) : bool :=
  isSaving || negb (isValid f) || (if disableDistrict then negb (isDirty f) else false).

End MandalDialog.

(** *** The page *)

(** The [useState] cells of the page, and the [isSuccess] flag of the
    queries that gate other queries. *)
Record State := {
  search : string;
  stateId : string;
  districtId : string;
  includeInactive : bool;
  createOpen : bool;
  editing : option AdminIkpMandal.t;
  deactivateTarget : option AdminIkpMandal.t;
  statesQuery_isSuccess : bool;
  districtsQuery_isSuccess : bool }.

(** The page as mounted, before any query has answered. *)
Definition initialState : State :=
  {| search := ""; stateId := ""; districtId := ""; includeInactive := true;
     createOpen := false; editing := None; deactivateTarget := None;
     statesQuery_isSuccess := false; districtsQuery_isSuccess := false |}.

(** [districtsQuery]: [enabled: statesQuery.isSuccess], and the [stateId]
    parameter of the request, [stateId || undefined]. *)
Definition districtsQuery_enabled (st : State) : bool := statesQuery_isSuccess st.
Definition districtsQuery_stateId (st : State) : option string := Js.orUndefined (stateId st).

(** [listQuery]: [enabled: districtsQuery.isSuccess]. *)
Definition listQuery_enabled (st : State) : bool := districtsQuery_isSuccess st.

(** State filter select:
    [const next = v ? (v === stateId ? "" : v) : ""; setStateId(next);
     setDistrictId("")]. *)
Definition toggled (v : option string) (current : string) : string :=
  match v with
  | Some v' => if Js.truthy v' then (if Js.strictEq v' current then "" else v') else ""
  | None => ""
  end.

Definition onStateFilterChange (v : option string) (st : State) : State :=
  {| search := search st; stateId := toggled v (stateId st); districtId := "";
     includeInactive := includeInactive st; createOpen := createOpen st;
     editing := editing st; deactivateTarget := deactivateTarget st;
     statesQuery_isSuccess := statesQuery_isSuccess st;
     districtsQuery_isSuccess := districtsQuery_isSuccess st |}.

(** District filter select:
    [setDistrictId(v ? (v === districtId ? "" : v) : "")]. *)
Definition onDistrictFilterChange (v : option string) (st : State) : State :=
  {| search := search st; stateId := stateId st;
     districtId := toggled v (districtId st);
     includeInactive := includeInactive st; createOpen := createOpen st;
     editing := editing st; deactivateTarget := deactivateTarget st;
     statesQuery_isSuccess := statesQuery_isSuccess st;
     districtsQuery_isSuccess := districtsQuery_isSuccess st |}.

Definition setCreateOpen (b : bool) (st : State) : State :=
  {| search := search st; stateId := stateId st; districtId := districtId st;
     includeInactive := includeInactive st; createOpen := b;
     editing := editing st; deactivateTarget := deactivateTarget st;
     statesQuery_isSuccess := statesQuery_isSuccess st;
     districtsQuery_isSuccess := districtsQuery_isSuccess st |}.

Definition setEditing (e : option AdminIkpMandal.t) (st : State) : State :=
  {| search := search st; stateId := stateId st; districtId := districtId st;
     includeInactive := includeInactive st; createOpen := createOpen st;
     editing := e; deactivateTarget := deactivateTarget st;
     statesQuery_isSuccess := statesQuery_isSuccess st;
     districtsQuery_isSuccess := districtsQuery_isSuccess st |}.

Definition setDeactivateTarget (t : option AdminIkpMandal.t) (st : State) : State :=
  {| search := search st; stateId := stateId st; districtId := districtId st;
     includeInactive := includeInactive st; createOpen := createOpen st;
     editing := editing st; deactivateTarget := t;
     statesQuery_isSuccess := statesQuery_isSuccess st;
     districtsQuery_isSuccess := districtsQuery_isSuccess st |}.

Definition setStatesQuerySuccess (st : State) : State :=
  {| search := search st; stateId := stateId st; districtId := districtId st;
     includeInactive := includeInactive st; createOpen := createOpen st;
     editing := editing st; deactivateTarget := deactivateTarget st;
     statesQuery_isSuccess := true;
     districtsQuery_isSuccess := districtsQuery_isSuccess st |}.

(** The three dialogs are open on [createOpen], [Boolean(editing)] and
    [Boolean(deactivateTarget)]. *)
Definition createDialog_open (st : State) : bool := createOpen st.
Definition editDialog_open (st : State) : bool :=
  match editing st with Some _ => true | None => false end.
Definition deactivateDialog_open (st : State) : bool :=
  match deactivateTarget st with Some _ => true | None => false end.

(** [createMutation], [updateMutation], [deactivateMutation]: [onSuccess]
    and [onError]. *)
Definition createMutation_settle (r : Settled) (st : State) : State * list Effect :=
  match r with
  | Fulfilled res_message =>
      (setCreateOpen false st,
       [ShowToast (default "Mandal created." res_message) success;
        InvalidateQueries "adminIkpMandals"])
  | Rejected err =>
      (st, [ShowToast (Js.messageOr "Failed to create mandal." err) error])
  end.

Definition updateMutation_settle (r : Settled) (st : State) : State * list Effect :=
  match r with
  | Fulfilled res_message =>
      (setEditing None st,
       [ShowToast (default "Mandal updated." res_message) success;
        InvalidateQueries "adminIkpMandals"])
  | Rejected err =>
      (st, [ShowToast (Js.messageOr "Failed to update mandal." err) error])
  end.

Definition deactivateMutation_settle (r : Settled) (st : State) : State * list Effect :=
  match r with
  | Fulfilled res_message =>
      (setDeactivateTarget None st,
       [ShowToast (default "Mandal deactivated." res_message) success;
        InvalidateQueries "adminIkpMandals"])
  | Rejected err =>
      (st, [ShowToast (Js.messageOr "Failed to deactivate mandal." err) error])
  end.

(** What can happen to the mounted page, as far as the district options
    are concerned. *)
Inductive pageEvent :=
| StatesQuerySucceeded
| StateFilterChanged (v : option string)
| DistrictFilterChanged (v : option string).

Definition pageStep (e : pageEvent) (st : State) : State :=
  match e with
  | StatesQuerySucceeded => setStatesQuerySuccess st
  | StateFilterChanged v => onStateFilterChange v st
  | DistrictFilterChanged v => onDistrictFilterChange v st
  end.

Inductive reachable : State -> Prop :=
| reachable_init : reachable initialState
| reachable_step e st : reachable st -> reachable (pageStep e st).

(** [const map = new Map(); for (const d of districts) map.set(d.id, d)] *)
Definition districtById (districts : list AdminIkpDistrict.t)
    : gmap string AdminIkpDistrict.t :=
  fold_left (fun map d => <[AdminIkpDistrict.id d := d]> map) districts ∅.

(** [for (const s of states) map.set(s.id, s)] *)
Definition stateById (states : list AdminIkpState.t) : gmap string AdminIkpState.t :=
  fold_left (fun map s => <[AdminIkpState.id s := s]> map) states ∅.

(** The cells of one table row. *)
Record RowCells := {
  stateCell : string;
  districtCell : string;
  mandalCell : string;
  activeCell : bool }.

(** [const district = districtById.get(row.districtId);
     const state = district ? stateById.get(district.stateId) : undefined;]
    the State cell is [state ? `${state.code} - ${state.name}` : ""] and the
    District cell is [district ? district.name : row.districtId]. *)
Definition rowCells (states : list AdminIkpState.t) (districts : list AdminIkpDistrict.t)
    (row : AdminIkpMandal.t) : RowCells :=
  let district := districtById districts !! AdminIkpMandal.districtId row in
  let state :=
    match district with
    | Some d => stateById states !! AdminIkpDistrict.stateId d
    | None => None
    end in
  {| stateCell :=
       match state with
       | Some s => AdminIkpState.code s +:+ " - " +:+ AdminIkpState.name s
       | None => ""
       end;
     districtCell :=
       match district with
       | Some d => AdminIkpDistrict.name d
       | None => AdminIkpMandal.districtId row
       end;
     mandalCell := AdminIkpMandal.name row;
     activeCell := AdminIkpMandal.isActive row |}.

End IkpMandalsPage.

(** ** IkpVillagesPage.tsx *)

Module IkpVillagesPage.

(** *** VillageDialog *)

Module VillageDialog.

Record VillageFormData := {
  mandalId : string;
  name : string;
  isActive : bool }.

#[global] Instance VillageFormData_eq_dec : EqDecision VillageFormData.
Proof. solve_decision. Defined.

Definition villageSchema (d : VillageFormData) : bool :=
  Zod.min 1 (mandalId d) && (Zod.min 1 (name d) && Zod.max 100 (name d)).

Record form := { values : VillageFormData; defaultValues : VillageFormData }.

Definition reset (initialValues : VillageFormData) : form :=
  {| values := initialValues; defaultValues := initialValues |}.

Definition isValid (f : form) : bool := villageSchema (values f).
Definition isDirty (f : form) : bool := bool_decide (values f <> defaultValues f).

Inductive event :=
| SelectMandal (v : option string)
| TypeName (s : string)
| CheckActive (b : bool).

(** The Mandal select is [disabled={props.disableMandal}]. *)
Definition step (disableMandal : bool) (e : event) (f : form) : form :=
  let d := values f in
  match e with
  | SelectMandal v =>
      if disableMandal then f
      else {| values := {| mandalId := Js.orEmpty v; name := name d; isActive := isActive d |};
              defaultValues := defaultValues f |}
  | TypeName s =>
      {| values := {| mandalId := mandalId d; name := s; isActive := isActive d |};
         defaultValues := defaultValues f |}
  | CheckActive b =>
      {| values := {| mandalId := mandalId d; name := name d; isActive := b |};
         defaultValues := defaultValues f |}
  end.

Definition run (disableMandal : bool) (initialValues : VillageFormData)
    (es : list event) : form :=
  fold_left (fun f e => step disableMandal e f) es (reset initialValues).

(** [props.isSaving || !isValid || (props.disableMandal ? !isDirty : false)] *)
Definition submitDisabled (disableMandal isSaving : bool) (f : form) : bool :=
  isSaving || negb (isValid f) || (if disableMandal then negb (isDirty f) else false).

End VillageDialog.

(** *** The page *)

(** The [useState] cells of the page, and the [isSuccess] flag of the
    queries that gate other queries. *)
Record State := {
  search : string;
  stateId : string;
  districtId : string;
  mandalId : string;
  includeInactive : bool;
  createOpen : bool;
  editing : option AdminIkpVillage.t;
  deactivateTarget : option AdminIkpVillage.t;
  statesQuery_isSuccess : bool;
  districtsQuery_isSuccess : bool;
  mandalsQuery_isSuccess : bool }.

(** [enabled] of [districtsQuery], [mandalsQuery] and [listQuery]. *)
Definition districtsQuery_enabled (st : State) : bool :=
  Js.nonBlank (stateId st) && statesQuery_isSuccess st.
Definition mandalsQuery_enabled (st : State) : bool :=
  Js.nonBlank (districtId st) && districtsQuery_isSuccess st.
Definition listQuery_enabled (st : State) : bool :=
  Js.nonBlank (mandalId st) && mandalsQuery_isSuccess st.

(** State filter: [setStateId(v ?? ""); setDistrictId(""); setMandalId("")]. *)
Definition onStateFilterChange (v : option string) (st : State) : State :=
  {| search := search st; stateId := Js.orEmpty v; districtId := ""; mandalId := "";
     includeInactive := includeInactive st; createOpen := createOpen st;
     editing := editing st; deactivateTarget := deactivateTarget st;
     statesQuery_isSuccess := statesQuery_isSuccess st;
     districtsQuery_isSuccess := districtsQuery_isSuccess st;
     mandalsQuery_isSuccess := mandalsQuery_isSuccess st |}.

(** District filter: [setDistrictId(v ?? ""); setMandalId("")]. *)
Definition onDistrictFilterChange (v : option string) (st : State) : State :=
  {| search := search st; stateId := stateId st; districtId := Js.orEmpty v;
     mandalId := ""; includeInactive := includeInactive st;
     createOpen := createOpen st; editing := editing st;
     deactivateTarget := deactivateTarget st;
     statesQuery_isSuccess := statesQuery_isSuccess st;
     districtsQuery_isSuccess := districtsQuery_isSuccess st;
     mandalsQuery_isSuccess := mandalsQuery_isSuccess st |}.

Definition setCreateOpen (b : bool) (st : State) : State :=
  {| search := search st; stateId := stateId st; districtId := districtId st;
     mandalId := mandalId st; includeInactive := includeInactive st;
     createOpen := b; editing := editing st;
     deactivateTarget := deactivateTarget st;
     statesQuery_isSuccess := statesQuery_isSuccess st;
     districtsQuery_isSuccess := districtsQuery_isSuccess st;
     mandalsQuery_isSuccess := mandalsQuery_isSuccess st |}.

Definition setEditing (e : option AdminIkpVillage.t) (st : State) : State :=
  {| search := search st; stateId := stateId st; districtId := districtId st;
     mandalId := mandalId st; includeInactive := includeInactive st;
     createOpen := createOpen st; editing := e;
     deactivateTarget := deactivateTarget st;
     statesQuery_isSuccess := statesQuery_isSuccess st;
     districtsQuery_isSuccess := districtsQuery_isSuccess st;
     mandalsQuery_isSuccess := mandalsQuery_isSuccess st |}.

Definition setDeactivateTarget (t : option AdminIkpVillage.t) (st : State) : State :=
  {| search := search st; stateId := stateId st; districtId := districtId st;
     mandalId := mandalId st; includeInactive := includeInactive st;
     createOpen := createOpen st; editing := editing st;
     deactivateTarget := t;
     statesQuery_isSuccess := statesQuery_isSuccess st;
     districtsQuery_isSuccess := districtsQuery_isSuccess st;
     mandalsQuery_isSuccess := mandalsQuery_isSuccess st |}.

Definition createDialog_open (st : State) : bool := createOpen st.
Definition editDialog_open (st : State) : bool :=
  match editing st with Some _ => true | None => false end.
Definition deactivateDialog_open (st : State) : bool :=
  match deactivateTarget st with Some _ => true | None => false end.

Definition createMutation_settle (r : Settled) (st : State) : State * list Effect :=
  match r with
  | Fulfilled res_message =>
      (setCreateOpen false st,
       [ShowToast (default "Village created." res_message) success;
        InvalidateQueries "adminIkpVillages"])
  | Rejected err =>
      (st, [ShowToast (Js.messageOr "Failed to create village." err) error])
  end.

Definition updateMutation_settle (r : Settled) (st : State) : State * list Effect :=
  match r with
  | Fulfilled res_message =>
      (setEditing None st,
       [ShowToast (default "Village updated." res_message) success;
        InvalidateQueries "adminIkpVillages"])
  | Rejected err =>
      (st, [ShowToast (Js.messageOr "Failed to update village." err) error])
  end.

Definition deactivateMutation_settle (r : Settled) (st : State) : State * list Effect :=
  match r with
  | Fulfilled res_message =>
      (setDeactivateTarget None st,
       [ShowToast (default "Village deactivated." res_message) success;
        InvalidateQueries "adminIkpVillages"])
  | Rejected err =>
      (st, [ShowToast (Js.messageOr "Failed to deactivate village." err) error])
  end.

(** The remote calls of the two save callbacks, with the object literal
    each one sends. *)
Inductive RemoteCall :=
| createAdminIkpVillage (payload : gmap string Js.value)
| updateAdminIkpVillage (id : string) (payload : gmap string Js.value).

(** [onSave] of the create dialog:
    [createMutation.mutate({mandalId: data.mandalId, name: data.name,
     isActive: data.isActive})]. *)
Definition create_onSave (data : VillageDialog.VillageFormData) : option RemoteCall :=
  Some (createAdminIkpVillage
          {[ "mandalId" := Js.VString (VillageDialog.mandalId data);
             "name" := Js.VString (VillageDialog.name data);
             "isActive" := Js.VBool (VillageDialog.isActive data) ]}).

(** [onSave] of the edit dialog:
    [if (!editing) return;
     updateMutation.mutate({id: editing.id,
                            payload: {name: data.name, isActive: data.isActive}})],
    where [mutationFn] is [updateAdminIkpVillage(args.id, args.payload)]. *)
Definition edit_onSave (editing : option AdminIkpVillage.t)
    (data : VillageDialog.VillageFormData) : option RemoteCall :=
  match editing with
  | None => None
  | Some row =>
      Some (updateAdminIkpVillage (AdminIkpVillage.id row)
              {[ "name" := Js.VString (VillageDialog.name data);
                 "isActive" := Js.VBool (VillageDialog.isActive data) ]})
  end.

(** Mandal filter: [setMandalId(v ?? "")]. *)
Definition onMandalFilterChange (v : option string) (st : State) : State :=
  {| search := search st; stateId := stateId st; districtId := districtId st;
     mandalId := Js.orEmpty v; includeInactive := includeInactive st;
     createOpen := createOpen st; editing := editing st;
     deactivateTarget := deactivateTarget st;
     statesQuery_isSuccess := statesQuery_isSuccess st;
     districtsQuery_isSuccess := districtsQuery_isSuccess st;
     mandalsQuery_isSuccess := mandalsQuery_isSuccess st |}.

(** The page as mounted. *)
Definition initialState : State :=
  {| search := ""; stateId := ""; districtId := ""; mandalId := "";
     includeInactive := true; createOpen := false; editing := None;
     deactivateTarget := None; statesQuery_isSuccess := false;
     districtsQuery_isSuccess := false; mandalsQuery_isSuccess := false |}.

(** "New village" is [disabled={!mandalId}]; the table is rendered only
    when [mandalId] is set ([!mandalId ? <hint> : <table>]). *)
Definition newVillageDisabled (st : State) : bool := negb (Js.truthy (mandalId st)).
Definition tableShown (st : State) : bool := Js.truthy (mandalId st).

(** What the user can do in the filter bar and the header.  The District
    and Mandal selects are [disabled={!stateId}] and
    [disabled={!districtId}]. *)
Inductive filterEvent :=
| StateFilterPicked (v : option string)
| DistrictFilterPicked (v : option string)
| MandalFilterPicked (v : option string)
| NewVillageClicked.

Definition filterStep (e : filterEvent) (st : State) : State :=
  match e with
  | StateFilterPicked v => onStateFilterChange v st
  | DistrictFilterPicked v =>
      if negb (Js.truthy (stateId st)) then st else onDistrictFilterChange v st
  | MandalFilterPicked v =>
      if negb (Js.truthy (districtId st)) then st else onMandalFilterChange v st
  | NewVillageClicked =>
      if newVillageDisabled st then st else setCreateOpen true st
  end.

Definition filterRun (es : list filterEvent) : State :=
  fold_left (fun st e => filterStep e st) es initialState.

(** The create dialog as the page renders it:
    [initialValues={{mandalId: mandalId ?? "", name: "", isActive: true}}]
    and [disableMandal={Boolean(mandalId)}]. *)
Definition create_initialValues (st : State) : VillageDialog.VillageFormData :=
  {| VillageDialog.mandalId := mandalId st; VillageDialog.name := "";
     VillageDialog.isActive := true |}.

Definition create_disableMandal (st : State) : bool := Js.truthy (mandalId st).

(** The create dialog after the user did [es] in it. *)
Definition createDialog (st : State) (es : list VillageDialog.event) : VillageDialog.form :=
  VillageDialog.run (create_disableMandal st) (create_initialValues st) es.

(** The [mandalId] parameter of the list request, [mandalId || undefined]. *)
Definition listQuery_mandalId (st : State) : option string := Js.orUndefined (mandalId st).

End IkpVillagesPage.

(** ** IkpMasterPage.tsx: the tab kept in the query string *)

Module IkpMasterPage.

Definition allowedTabs : list string := ["states"; "districts"; "mandals"; "villages"].

(** [allowedTabs.includes(v)] *)
Definition includes (l : list string) (v : string) : bool :=
  existsb (Js.strictEq v) l.

(** [if (!value) return "states";
     const v = value.trim().toLowerCase();
     return allowedTabs.includes(v) ? v : "states"] *)
Definition normalizeTab (value : option string) : string :=
  if negb (Js.truthy_opt value) then "states"
  else
    let v := Js.toLowerCase (Js.trim (Js.orEmpty value)) in
    if includes allowedTabs v then v else "states".

(** [const tab = normalizeTab(searchParams.get("tab"))] *)
Definition tab (searchParams : URLSearchParams.t) : string :=
  normalizeTab (URLSearchParams.get "tab" searchParams).

(** [onValueChange] of the tabs:
    [const nextTab = normalizeTab(next);
     const sp = new URLSearchParams(searchParams);
     sp.set("tab", nextTab);
     setSearchParams(sp, { replace: true })]; the result is the new query
    string. *)
Definition onValueChange (next : string) (searchParams : URLSearchParams.t)
    : URLSearchParams.t :=
  let nextTab := normalizeTab (Some next) in
  URLSearchParams.set "tab" nextTab searchParams.

End IkpMasterPage.

(** ** components/ui/grouped-combobox *)

Module GroupedCombobox.

(** Modelled from the spec: the component file components/ui/grouped-combobox
    is not among the sources; the pages only pass it [value] and
    [onValueChange].  The spec says of the Locations filter UI that
    "toggling a filter to the value it already holds clears it (acts as a
    deselect)": picking the option [picked] while the combobox shows [value]
    hands [onValueChange] the empty string when the two are the same and
    [picked] otherwise. *)
Definition select (value picked : string) : string :=
  if Js.strictEq picked value then "" else picked.

End GroupedCombobox.

(** [Math.random().toString(36)] is an input of the create callbacks: the
    text ["0"], or ["0."] followed by the base-36 digits of the fraction. *)
Definition base36Digit (c : ascii) : bool :=
  let n := nat_of_ascii c in
  ((48 <=? n)%nat && (n <=? 57)%nat) || ((97 <=? n)%nat && (n <=? 122)%nat).

Definition upperBase36Digit (c : ascii) : bool :=
  let n := nat_of_ascii c in
  ((48 <=? n)%nat && (n <=? 57)%nat) || ((65 <=? n)%nat && (n <=? 90)%nat).

Fixpoint allChars (p : ascii -> bool) (s : string) : bool :=
  match s with
  | EmptyString => true
  | String c r => p c && allChars p r
  end.

(** The renderings of a number of [0, 1) in radix 36. *)
Definition isRandom36 (s : string) : bool :=
  match s with
  | String "0" EmptyString => true
  | String "0" (String "." (String c r)) => allChars base36Digit (String c r)
  | _ => false
  end.

(** [`${prefix}${rnd36.substring(2, 8).toUpperCase()}`] *)
Definition generateCode (prefix rnd36 : string) : string :=
  prefix +:+ Js.toUpperCase (Js.substring 2 8 rnd36).

(** ** LocationsMandalsPage.tsx *)

Module LocationsMandalsPage.

(** *** BulkUploadMandalsDialog *)

Module BulkUploadMandalsDialog.

(** The [useState] cells of the dialog. *)
Record State := { stateId : string; districtId : string; items : string }.

Definition filteredDistricts (districts : list AdminDistrict.t) (stateId : string)
    : list AdminDistrict.t :=
  if negb (Js.truthy stateId) then []
  else List.filter (fun d => Js.strictEq (AdminDistrict.stateId d) stateId) districts.

(** State combobox: [setStateId(v); setDistrictId("")]. *)
Definition onStateChange (v : string) (st : State) : State :=
  {| stateId := v; districtId := ""; items := items st |}.

(** [disabled={!districtId || !items.trim() || isUploading}] *)
Definition uploadDisabled (isUploading : bool) (st : State) : bool :=
  negb (Js.truthy (districtId st)) || negb (Js.truthy (Js.trim (items st))) || isUploading.

End BulkUploadMandalsDialog.

(** *** The page *)

Inductive RemoteCall :=
| createAdminMandal (payload : LocationsMandalDialog.MandalFormData)
| updateAdminMandal (id : string) (payload : LocationsMandalDialog.MandalFormData)
| bulkUploadMandals (parentId : string) (items : string).

(** The filter cells of the page: [useState] of [stateFilter] and
    [districtFilter]. *)
Record Filters := { stateFilter : string; districtFilter : string }.

(** State filter combobox: [setStateFilter(v); setDistrictFilter("")]. *)
Definition onStateFilterChange (v : string) (p : Filters) : Filters :=
  {| stateFilter := v; districtFilter := "" |}.

(** District filter combobox: [setDistrictFilter]. *)
Definition onDistrictFilterChange (v : string) (p : Filters) : Filters :=
  {| stateFilter := stateFilter p; districtFilter := v |}.

(** [const d = stateFilter ? districts.filter(x => x.stateId === stateFilter)
                           : districts] *)
Definition districtFilterCandidates (districts : list AdminDistrict.t)
    (stateFilter : string) : list AdminDistrict.t :=
  if Js.truthy stateFilter
  then List.filter (fun x => Js.strictEq (AdminDistrict.stateId x) stateFilter) districts
  else districts.

Definition districtFilterGroups (districts : list AdminDistrict.t)
    (stateFilter : string) : list GroupedComboboxGroup.t :=
  let d := districtFilterCandidates districts stateFilter in
  [ {| GroupedComboboxGroup.groupLabel := "Districts";
       GroupedComboboxGroup.options :=
         List.map (fun x => {| GroupedComboboxGroup.value := AdminDistrict.id x;
                               GroupedComboboxGroup.label := AdminDistrict.name x |}) d |} ].

(** The District filter combobox is [disabled={!stateFilter}]. *)
Definition districtFilterDisabled (p : Filters) : bool := negb (Js.truthy (stateFilter p)).

(** [onSave] of the create dialog:
    [const payload = {...data};
     if (!payload.code) payload.code = `M${Math.random().toString(36).substring(2, 8).toUpperCase()}`;
     createMutation.mutate(payload)], with [rnd36] the text
    [Math.random().toString(36)]. *)
Definition create_payload (rnd36 : string) (data : LocationsMandalDialog.MandalFormData)
    : LocationsMandalDialog.MandalFormData :=
  if negb (Js.truthy_opt (LocationsMandalDialog.code data))
  then LocationsMandalDialog.set_code (Some (generateCode "M" rnd36)) data
  else data.

Definition create_onSave (rnd36 : string) (data : LocationsMandalDialog.MandalFormData)
    : RemoteCall :=
  createAdminMandal (create_payload rnd36 data).

(** [onUpload] of the bulk dialog:
    [bulkUploadMutation.mutate({parentId: pid, items: txt})], whose
    [mutationFn] is [bulkUploadMandals(data.parentId, data.items)]. *)
Definition onUpload (pid txt : string) : RemoteCall := bulkUploadMandals pid txt.

(** The Upload button: [onClick={() => onUpload(districtId, items)}]; a
    disabled button calls nothing. *)
Definition clickUpload (isUploading : bool) (st : BulkUploadMandalsDialog.State)
    : option RemoteCall :=
  if BulkUploadMandalsDialog.uploadDisabled isUploading st then None
  else Some (onUpload (BulkUploadMandalsDialog.districtId st)
                      (BulkUploadMandalsDialog.items st)).

(** [onError] of every mutation of the page:
    [showToast(err instanceof Error ? err.message : "Failed.", "error")]. *)
Definition mutation_onError (err : Js.thrown) : list Effect :=
  [ShowToast (Js.messageOr "Failed." err) error].

(** *** Paging of the table

    Page numbers and the total are JavaScript numbers holding integers;
    they are modelled in [Z]. *)

Definition DEFAULT_PAGE_SIZE : Z := 10.

(** [Math.ceil(total / DEFAULT_PAGE_SIZE)], for a row count [total] between
    0 and [Number.MAX_SAFE_INTEGER].  The quotient is a floating-point
    number: in that range it is the integer itself when [total] is a
    multiple of ten and lies strictly between two neighbouring integers
    otherwise (it is below 2^50, where neighbouring numbers are at most 1/8
    apart, and the tenths are at least 1/10 away from an integer), so
    [Math.ceil] gives the ceiling of the exact quotient.  Beyond that range
    the quotient can round to an integer below it and the page count of the
    program is then smaller than the value given here. *)
Definition totalPages (total : Z) : Z := (- ((- total) / DEFAULT_PAGE_SIZE))%Z.

(** The pager: [page] (a [useState], 1 at first) and the [total] of the
    last answer of the list query ([query.data?.data?.total ?? 0]). *)
Record Pager := { page : Z; total : Z }.

Definition initialPager : Pager := {| page := 1; total := 0 |}.

(** Previous is [disabled={page <= 1}], Next is
    [disabled={page >= totalPages}]. *)
Definition previousDisabled (s : Pager) : bool := (page s <=? 1)%Z.
Definition nextDisabled (s : Pager) : bool := (totalPages (total s) <=? page s)%Z.

(** [setPage(p => Math.max(1, p - 1))] and
    [setPage(p => Math.min(totalPages, p + 1))]. *)
Definition onPrevious (s : Pager) : Pager :=
  {| page := Z.max 1 (page s - 1); total := total s |}.
Definition onNext (s : Pager) : Pager :=
  {| page := Z.min (totalPages (total s)) (page s + 1); total := total s |}.

Inductive pagerEvent :=
| PreviousClicked
| NextClicked
| TotalRefetched (total : Z).

Definition pagerStep (e : pagerEvent) (s : Pager) : Pager :=
  match e with
  | PreviousClicked => if previousDisabled s then s else onPrevious s
  | NextClicked => if nextDisabled s then s else onNext s
  | TotalRefetched t => {| page := page s; total := t |}
  end.

Definition pagerRun (es : list pagerEvent) : Pager :=
  fold_left (fun s e => pagerStep e s) es initialPager.

(** *** The dialogs of the page *)

(** [initialValues] of the create dialog:
    [{ stateId: "", districtId: "", name: "", isActive: true }]. *)
Definition create_initialValues : LocationsMandalDialog.MandalFormData :=
  {| LocationsMandalDialog.stateId := ""; LocationsMandalDialog.districtId := "";
     LocationsMandalDialog.name := ""; LocationsMandalDialog.code := None;
     LocationsMandalDialog.isActive := true |}.

(** [initialValues] of the edit dialog:
    [{ stateId: districts.find(d => d.id === editing.districtId)?.stateId || "",
       districtId: editing.districtId, name: editing.name,
       code: editing.code || "", isActive: editing.isActive }]. *)
Definition edit_initialValues (districts : list AdminDistrict.t) (editing : AdminMandal.t)
    : LocationsMandalDialog.MandalFormData :=
  {| LocationsMandalDialog.stateId :=
       Js.orEmptyString
         (option_map AdminDistrict.stateId
            (findByKey AdminDistrict.id (AdminMandal.districtId editing) districts));
     LocationsMandalDialog.districtId := AdminMandal.districtId editing;
     LocationsMandalDialog.name := AdminMandal.name editing;
     LocationsMandalDialog.code := Some (Js.orEmptyString (AdminMandal.code editing));
     LocationsMandalDialog.isActive := AdminMandal.isActive editing |}.

(** [onSave] of the edit dialog:
    [updateMutation.mutate({ id: editing.id, payload: data })], whose
    [mutationFn] calls [updateAdminMandal(data.id, data.payload)]. *)
Definition edit_onSave (editing : AdminMandal.t)
    (data : LocationsMandalDialog.MandalFormData) : RemoteCall :=
  updateAdminMandal (AdminMandal.id editing) data.

(** *** The dialogs of the page and its mutations *)

(** The [useState] cells behind the dialogs and confirmations. *)
Record Dialogs := {
  createOpen : bool;
  bulkOpen : bool;
  editing : option AdminMandal.t;
  deactivateTarget : option AdminMandal.t;
  deleteTarget : option AdminMandal.t }.

(** The five mutations: [onSuccess] shows the text of the action, closes
    the dialog of the action and invalidates the list; [onError] is
    [mutation_onError]. *)
Definition createMutation_settle (r : Settled) (d : Dialogs) : Dialogs * list Effect :=
  match r with
  | Fulfilled _ =>
      ({| createOpen := false; bulkOpen := bulkOpen d; editing := editing d;
          deactivateTarget := deactivateTarget d; deleteTarget := deleteTarget d |},
       [ShowToast "Mandal created." success; InvalidateQueries "adminMandals"])
  | Rejected err => (d, mutation_onError err)
  end.

Definition updateMutation_settle (r : Settled) (d : Dialogs) : Dialogs * list Effect :=
  match r with
  | Fulfilled _ =>
      ({| createOpen := createOpen d; bulkOpen := bulkOpen d; editing := None;
          deactivateTarget := deactivateTarget d; deleteTarget := deleteTarget d |},
       [ShowToast "Mandal updated." success; InvalidateQueries "adminMandals"])
  | Rejected err => (d, mutation_onError err)
  end.

Definition deactivateMutation_settle (r : Settled) (d : Dialogs) : Dialogs * list Effect :=
  match r with
  | Fulfilled _ =>
      ({| createOpen := createOpen d; bulkOpen := bulkOpen d; editing := editing d;
          deactivateTarget := None; deleteTarget := deleteTarget d |},
       [ShowToast "Mandal deactivated." success; InvalidateQueries "adminMandals"])
  | Rejected err => (d, mutation_onError err)
  end.

Definition deleteMutation_settle (r : Settled) (d : Dialogs) : Dialogs * list Effect :=
  match r with
  | Fulfilled _ =>
      ({| createOpen := createOpen d; bulkOpen := bulkOpen d; editing := editing d;
          deactivateTarget := deactivateTarget d; deleteTarget := None |},
       [ShowToast "Mandal deleted." success; InvalidateQueries "adminMandals"])
  | Rejected err => (d, mutation_onError err)
  end.

Definition bulkUploadMutation_settle (r : Settled) (d : Dialogs) : Dialogs * list Effect :=
  match r with
  | Fulfilled _ =>
      ({| createOpen := createOpen d; bulkOpen := false; editing := editing d;
          deactivateTarget := deactivateTarget d; deleteTarget := deleteTarget d |},
       [ShowToast "Mandals uploaded." success; InvalidateQueries "adminMandals"])
  | Rejected err => (d, mutation_onError err)
  end.

End LocationsMandalsPage.

(** ** LocationsVillagesPage.tsx *)

Module LocationsVillagesPage.

(** *** BulkUploadVillagesDialog *)

Module BulkUploadVillagesDialog.

(** The [useState] cells of the dialog. *)
Record State := {
  stateId : string; districtId : string; mandalId : string; items : string }.

Definition filteredDistricts (districts : list AdminDistrict.t) (stateId : string)
    : list AdminDistrict.t :=
  if negb (Js.truthy stateId) then []
  else List.filter (fun d => Js.strictEq (AdminDistrict.stateId d) stateId) districts.

Definition filteredMandals (mandals : list AdminMandal.t) (districtId : string)
    : list AdminMandal.t :=
  if negb (Js.truthy districtId) then []
  else List.filter (fun m => Js.strictEq (AdminMandal.districtId m) districtId) mandals.

(** State combobox: [setStateId(v); setDistrictId(""); setMandalId("")]. *)
Definition onStateChange (v : string) (st : State) : State :=
  {| stateId := v; districtId := ""; mandalId := ""; items := items st |}.

(** District combobox: [setDistrictId(v); setMandalId("")]. *)
Definition onDistrictChange (v : string) (st : State) : State :=
  {| stateId := stateId st; districtId := v; mandalId := ""; items := items st |}.

(** [disabled={!mandalId || !items.trim() || isUploading}] *)
Definition uploadDisabled (isUploading : bool) (st : State) : bool :=
  negb (Js.truthy (mandalId st)) || negb (Js.truthy (Js.trim (items st))) || isUploading.

(** Mandal combobox: [setMandalId]; textarea: [setItems(e.target.value)]. *)
Definition onMandalChange (v : string) (st : State) : State :=
  {| stateId := stateId st; districtId := districtId st; mandalId := v; items := items st |}.

Definition onItemsChange (text : string) (st : State) : State :=
  {| stateId := stateId st; districtId := districtId st; mandalId := mandalId st;
     items := text |}.

Definition stateGroups (states : list AdminState.t) : list GroupedComboboxGroup.t :=
  [ {| GroupedComboboxGroup.groupLabel := "States";
       GroupedComboboxGroup.options :=
         List.map (fun s => {| GroupedComboboxGroup.value := AdminState.id s;
                               GroupedComboboxGroup.label := AdminState.name s |}) states |} ].

Definition districtGroups (filteredDistricts : list AdminDistrict.t)
    : list GroupedComboboxGroup.t :=
  [ {| GroupedComboboxGroup.groupLabel := "Districts";
       GroupedComboboxGroup.options :=
         List.map (fun d => {| GroupedComboboxGroup.value := AdminDistrict.id d;
                               GroupedComboboxGroup.label := AdminDistrict.name d |})
                  filteredDistricts |} ].

Definition mandalGroups (filteredMandals : list AdminMandal.t)
    : list GroupedComboboxGroup.t :=
  [ {| GroupedComboboxGroup.groupLabel := "Mandals";
       GroupedComboboxGroup.options :=
         List.map (fun m => {| GroupedComboboxGroup.value := AdminMandal.id m;
                               GroupedComboboxGroup.label := AdminMandal.name m |})
                  filteredMandals |} ].

(** The four [useState("")] cells as mounted. *)
Definition initialState : State :=
  {| stateId := ""; districtId := ""; mandalId := ""; items := "" |}.

(** The effect on [open]:
    [if (!open) { setStateId(""); setDistrictId(""); setMandalId(""); setItems(""); }]. *)
Definition onOpenEffect (open : bool) (st : State) : State :=
  if negb open then initialState else st.

(** What can happen to the dialog: the user picks the [i]-th option a
    combobox offers or clears a combobox, types in the textarea, or the
    dialog is closed (Cancel, or a successful upload) or opened. *)
Inductive event :=
| StatePicked (i : nat)
| DistrictPicked (i : nat)
| MandalPicked (i : nat)
| StateCleared
| DistrictCleared
| MandalCleared
| ItemsTyped (text : string)
| OpenChanged (open : bool).

(** The District and Mandal comboboxes are [disabled={!stateId}] and
    [disabled={!districtId}]; a disabled combobox calls no handler, and
    neither does a pick beyond the offered options. *)
Definition step (states : list AdminState.t) (districts : list AdminDistrict.t)
    (mandals : list AdminMandal.t) (e : event) (st : State) : State :=
  match e with
  | StatePicked i =>
      match nth_error (offeredValues (stateGroups states)) i with
      | Some v => onStateChange v st
      | None => st
      end
  | DistrictPicked i =>
      if negb (Js.truthy (stateId st)) then st
      else match nth_error
                   (offeredValues (districtGroups (filteredDistricts districts (stateId st)))) i with
           | Some v => onDistrictChange v st
           | None => st
           end
  | MandalPicked i =>
      if negb (Js.truthy (districtId st)) then st
      else match nth_error
                   (offeredValues (mandalGroups (filteredMandals mandals (districtId st)))) i with
           | Some v => onMandalChange v st
           | None => st
           end
  | StateCleared => onStateChange "" st
  | DistrictCleared => if negb (Js.truthy (stateId st)) then st else onDistrictChange "" st
  | MandalCleared => if negb (Js.truthy (districtId st)) then st else onMandalChange "" st
  | ItemsTyped text => onItemsChange text st
  | OpenChanged open => onOpenEffect open st
  end.

Definition run (states : list AdminState.t) (districts : list AdminDistrict.t)
    (mandals : list AdminMandal.t) (es : list event) : State :=
  fold_left (fun st e => step states districts mandals e st) es initialState.

End BulkUploadVillagesDialog.

(** *** The page *)

Inductive RemoteCall :=
| createAdminVillage (payload : LocationsVillageDialog.VillageFormData)
| updateAdminVillage (id : string) (payload : LocationsVillageDialog.VillageFormData)
| bulkUploadVillages (parentId : string) (items : string).

(** The filter cells of the page: [useState] of [stateFilter],
    [districtFilter] and [mandalFilter]. *)
Record Filters := {
  stateFilter : string; districtFilter : string; mandalFilter : string }.

(** State filter combobox:
    [setStateFilter(v); setDistrictFilter(""); setMandalFilter("")]. *)
Definition onStateFilterChange (v : string) (p : Filters) : Filters :=
  {| stateFilter := v; districtFilter := ""; mandalFilter := "" |}.

(** District filter combobox: [setDistrictFilter(v); setMandalFilter("")]. *)
Definition onDistrictFilterChange (v : string) (p : Filters) : Filters :=
  {| stateFilter := stateFilter p; districtFilter := v; mandalFilter := "" |}.

(** Mandal filter combobox: [setMandalFilter]. *)
Definition onMandalFilterChange (v : string) (p : Filters) : Filters :=
  {| stateFilter := stateFilter p; districtFilter := districtFilter p; mandalFilter := v |}.

Definition districtFilterCandidates (districts : list AdminDistrict.t)
    (stateFilter : string) : list AdminDistrict.t :=
  if Js.truthy stateFilter
  then List.filter (fun x => Js.strictEq (AdminDistrict.stateId x) stateFilter) districts
  else districts.

Definition mandalFilterCandidates (mandals : list AdminMandal.t)
    (districtFilter : string) : list AdminMandal.t :=
  if Js.truthy districtFilter
  then List.filter (fun x => Js.strictEq (AdminMandal.districtId x) districtFilter) mandals
  else mandals.

Definition districtFilterGroups (districts : list AdminDistrict.t)
    (stateFilter : string) : list GroupedComboboxGroup.t :=
  let d := districtFilterCandidates districts stateFilter in
  [ {| GroupedComboboxGroup.groupLabel := "Districts";
       GroupedComboboxGroup.options :=
         List.map (fun x => {| GroupedComboboxGroup.value := AdminDistrict.id x;
                               GroupedComboboxGroup.label := AdminDistrict.name x |}) d |} ].

Definition mandalFilterGroups (mandals : list AdminMandal.t)
    (districtFilter : string) : list GroupedComboboxGroup.t :=
  let m := mandalFilterCandidates mandals districtFilter in
  [ {| GroupedComboboxGroup.groupLabel := "Mandals";
       GroupedComboboxGroup.options :=
         List.map (fun x => {| GroupedComboboxGroup.value := AdminMandal.id x;
                               GroupedComboboxGroup.label := AdminMandal.name x |}) m |} ].

Definition set_code (v : option string) (d : LocationsVillageDialog.VillageFormData)
    : LocationsVillageDialog.VillageFormData :=
  {| LocationsVillageDialog.stateId := LocationsVillageDialog.stateId d;
     LocationsVillageDialog.districtId := LocationsVillageDialog.districtId d;
     LocationsVillageDialog.mandalId := LocationsVillageDialog.mandalId d;
     LocationsVillageDialog.name := LocationsVillageDialog.name d;
     LocationsVillageDialog.code := v;
     LocationsVillageDialog.pincode := LocationsVillageDialog.pincode d;
     LocationsVillageDialog.isActive := LocationsVillageDialog.isActive d |}.

(** [onSave] of the create dialog:
    [const payload = {...data};
     if (!payload.code) payload.code = `V${Math.random().toString(36).substring(2, 8).toUpperCase()}`;
     createMutation.mutate(payload)]. *)
Definition create_payload (rnd36 : string) (data : LocationsVillageDialog.VillageFormData)
    : LocationsVillageDialog.VillageFormData :=
  if negb (Js.truthy_opt (LocationsVillageDialog.code data))
  then set_code (Some (generateCode "V" rnd36)) data
  else data.

Definition create_onSave (rnd36 : string) (data : LocationsVillageDialog.VillageFormData)
    : RemoteCall :=
  createAdminVillage (create_payload rnd36 data).

Definition onUpload (pid txt : string) : RemoteCall := bulkUploadVillages pid txt.

Definition clickUpload (isUploading : bool) (st : BulkUploadVillagesDialog.State)
    : option RemoteCall :=
  if BulkUploadVillagesDialog.uploadDisabled isUploading st then None
  else Some (onUpload (BulkUploadVillagesDialog.mandalId st)
                      (BulkUploadVillagesDialog.items st)).

(** *** The filter bar and the list request *)

Definition stateGroups (states : list AdminState.t) : list GroupedComboboxGroup.t :=
  [ {| GroupedComboboxGroup.groupLabel := "States";
       GroupedComboboxGroup.options :=
         List.map (fun s => {| GroupedComboboxGroup.value := AdminState.id s;
                               GroupedComboboxGroup.label := AdminState.name s |}) states |} ].

(** What the user can do in the filter bar: pick the [i]-th option a
    combobox offers, or clear a combobox. *)
Inductive filterEvent :=
| StatePicked (i : nat)
| DistrictPicked (i : nat)
| MandalPicked (i : nat)
| StateCleared
| DistrictCleared
| MandalCleared.

(** The District and Mandal comboboxes are [disabled={!stateFilter}] and
    [disabled={!districtFilter}]; a disabled combobox calls no handler, and
    neither does a pick beyond the offered options. *)
Definition filterStep (states : list AdminState.t) (districts : list AdminDistrict.t)
    (mandals : list AdminMandal.t) (e : filterEvent) (p : Filters) : Filters :=
  match e with
  | StatePicked i =>
      match nth_error (offeredValues (stateGroups states)) i with
      | Some v => onStateFilterChange v p
      | None => p
      end
  | DistrictPicked i =>
      if negb (Js.truthy (stateFilter p)) then p
      else match nth_error (offeredValues (districtFilterGroups districts (stateFilter p))) i with
           | Some v => onDistrictFilterChange v p
           | None => p
           end
  | MandalPicked i =>
      if negb (Js.truthy (districtFilter p)) then p
      else match nth_error (offeredValues (mandalFilterGroups mandals (districtFilter p))) i with
           | Some v => onMandalFilterChange v p
           | None => p
           end
  | StateCleared => onStateFilterChange "" p
  | DistrictCleared =>
      if negb (Js.truthy (stateFilter p)) then p else onDistrictFilterChange "" p
  | MandalCleared =>
      if negb (Js.truthy (districtFilter p)) then p else onMandalFilterChange "" p
  end.

Definition initialFilters : Filters :=
  {| stateFilter := ""; districtFilter := ""; mandalFilter := "" |}.

Definition filterRun (states : list AdminState.t) (districts : list AdminDistrict.t)
    (mandals : list AdminMandal.t) (es : list filterEvent) : Filters :=
  fold_left (fun p e => filterStep states districts mandals e p) es initialFilters.

(** The parameters of the list request:
    [listAdminVillages({page, limit: DEFAULT_PAGE_SIZE, search: debouncedSearch,
                        mandalId: mandalFilter})]. *)
Module ListVillagesParams.
Record t := { page : Z; limit : Z; search : string; mandalId : string }.
End ListVillagesParams.

Definition listRequest (page : Z) (debouncedSearch : string) (p : Filters)
    : ListVillagesParams.t :=
  {| ListVillagesParams.page := page; ListVillagesParams.limit := 10;
     ListVillagesParams.search := debouncedSearch;
     ListVillagesParams.mandalId := mandalFilter p |}.

(** *** PincodeCell: the inline pincode editor of a row *)

Module PincodeCell.

(** The [useState] cells of a cell. *)
Record State := { value : string; saving : bool }.

(** [useState(village.pincode || "")] and [useState(false)]. *)
Definition initialState (village : AdminVillage.t) : State :=
  {| value := Js.orEmptyString (AdminVillage.pincode village); saving := false |}.

(** [onChange={e => setValue(e.target.value)}] *)
Definition onChange (text : string) (st : State) : State :=
  {| value := text; saving := saving st |}.

(** [handleBlur] up to its [await]:
    [if (value !== (village.pincode || "")) { setSaving(true); ... onUpdate(village.id, value) }].
    The result is the new state and the arguments of [onUpdate], if it is
    called. *)
Definition handleBlur (village : AdminVillage.t) (st : State)
    : State * option (string * string) :=
  if negb (Js.strictEq (value st) (Js.orEmptyString (AdminVillage.pincode village)))
  then ({| value := value st; saving := true |}, Some (AdminVillage.id village, value st))
  else (st, None).

(** [finally { setSaving(false); }], run when [onUpdate] settles either
    way. *)
Definition afterUpdate (st : State) : State :=
  {| value := value st; saving := false |}.

(** The cell as mounted on [village], after the user typed [texts] one
    after the other. *)
Definition run (village : AdminVillage.t) (texts : list string) : State :=
  fold_left (fun st text => onChange text st) texts (initialState village).

End PincodeCell.

(** [updatePincodeMutation] *)
Module UpdatePincodeMutation.

Inductive RemoteCall :=
| updateAdminVillage (id : string) (payload : gmap string Js.value).

(** [mutationFn: (data) => updateAdminVillage(data.id, { pincode: data.pincode })] *)
Definition mutationFn (id pincode : string) : RemoteCall :=
  updateAdminVillage id {[ "pincode" := Js.VString pincode ]}.

(** [onSuccess: () => { queryClient.invalidateQueries({ queryKey: ["adminVillages"] }); }] *)
Definition onSuccess : list Effect := [InvalidateQueries "adminVillages"].

(** [onError: () => showToast("Failed to update pincode.", "error")] *)
Definition onError (err : Js.thrown) : list Effect :=
  [ShowToast "Failed to update pincode." error].

End UpdatePincodeMutation.

(** [onUpdate] of the cell of a row:
    [async (id, val) => { await updatePincodeMutation.mutateAsync({ id, pincode: val }) }]. *)
Definition onUpdate (id val : string) : UpdatePincodeMutation.RemoteCall :=
  UpdatePincodeMutation.mutationFn id val.

(** What leaving the input of a cell sends. *)
Definition blurCall (village : AdminVillage.t) (st : PincodeCell.State)
    : option UpdatePincodeMutation.RemoteCall :=
  option_map (fun a => onUpdate (fst a) (snd a)) (snd (PincodeCell.handleBlur village st)).

(** *** The dialogs of the page *)

(** [initialValues] of the create dialog:
    [{ stateId: "", districtId: "", mandalId: "", name: "", isActive: true }]. *)
Definition create_initialValues : LocationsVillageDialog.VillageFormData :=
  {| LocationsVillageDialog.stateId := ""; LocationsVillageDialog.districtId := "";
     LocationsVillageDialog.mandalId := ""; LocationsVillageDialog.name := "";
     LocationsVillageDialog.code := None; LocationsVillageDialog.pincode := None;
     LocationsVillageDialog.isActive := true |}.

(** [mandals.find(m => m.id === editing.mandalId)?.districtId] *)
Definition mandalDistrictId (mandals : list AdminMandal.t) (editing : AdminVillage.t)
    : option string :=
  option_map AdminMandal.districtId
    (findByKey AdminMandal.id (AdminVillage.mandalId editing) mandals).

(** [districts.find(d => d.id === k)?.stateId], where [k] may be
    [undefined]: no id is strictly equal to [undefined]. *)
Definition districtStateId (districts : list AdminDistrict.t) (k : option string)
    : option string :=
  match k with
  | Some k => option_map AdminDistrict.stateId (findByKey AdminDistrict.id k districts)
  | None => None
  end.

(** [initialValues] of the edit dialog. *)
Definition edit_initialValues (districts : list AdminDistrict.t)
    (mandals : list AdminMandal.t) (editing : AdminVillage.t)
    : LocationsVillageDialog.VillageFormData :=
  {| LocationsVillageDialog.stateId :=
       Js.orEmptyString (districtStateId districts (mandalDistrictId mandals editing));
     LocationsVillageDialog.districtId :=
       Js.orEmptyString (mandalDistrictId mandals editing);
     LocationsVillageDialog.mandalId := AdminVillage.mandalId editing;
     LocationsVillageDialog.name := AdminVillage.name editing;
     LocationsVillageDialog.code := Some (Js.orEmptyString (AdminVillage.code editing));
     LocationsVillageDialog.pincode := Some (Js.orEmptyString (AdminVillage.pincode editing));
     LocationsVillageDialog.isActive := AdminVillage.isActive editing |}.

(** [onSave] of the edit dialog:
    [updateMutation.mutate({ id: editing.id, payload: data })], whose
    [mutationFn] calls [updateAdminVillage(data.id, data.payload)]. *)
Definition edit_onSave (editing : AdminVillage.t)
    (data : LocationsVillageDialog.VillageFormData) : RemoteCall :=
  updateAdminVillage (AdminVillage.id editing) data.

(** *** The dialogs of the page and its mutations *)

(** The [useState] cells behind the dialogs and confirmations. *)
Record Dialogs := {
  createOpen : bool;
  bulkOpen : bool;
  editing : option AdminVillage.t;
  deactivateTarget : option AdminVillage.t;
  deleteTarget : option AdminVillage.t }.

(** [onError] of the create, update, deactivate, delete and bulk-upload
    mutations:
    [showToast(err instanceof Error ? err.message : "Failed.", "error")]. *)
Definition mutation_onError (err : Js.thrown) : list Effect :=
  [ShowToast (Js.messageOr "Failed." err) error].

Definition createMutation_settle (r : Settled) (d : Dialogs) : Dialogs * list Effect :=
  match r with
  | Fulfilled _ =>
      ({| createOpen := false; bulkOpen := bulkOpen d; editing := editing d;
          deactivateTarget := deactivateTarget d; deleteTarget := deleteTarget d |},
       [ShowToast "Village created." success; InvalidateQueries "adminVillages"])
  | Rejected err => (d, mutation_onError err)
  end.

Definition updateMutation_settle (r : Settled) (d : Dialogs) : Dialogs * list Effect :=
  match r with
  | Fulfilled _ =>
      ({| createOpen := createOpen d; bulkOpen := bulkOpen d; editing := None;
          deactivateTarget := deactivateTarget d; deleteTarget := deleteTarget d |},
       [ShowToast "Village updated." success; InvalidateQueries "adminVillages"])
  | Rejected err => (d, mutation_onError err)
  end.

Definition deactivateMutation_settle (r : Settled) (d : Dialogs) : Dialogs * list Effect :=
  match r with
  | Fulfilled _ =>
      ({| createOpen := createOpen d; bulkOpen := bulkOpen d; editing := editing d;
          deactivateTarget := None; deleteTarget := deleteTarget d |},
       [ShowToast "Village deactivated." success; InvalidateQueries "adminVillages"])
  | Rejected err => (d, mutation_onError err)
  end.

Definition deleteMutation_settle (r : Settled) (d : Dialogs) : Dialogs * list Effect :=
  match r with
  | Fulfilled _ =>
      ({| createOpen := createOpen d; bulkOpen := bulkOpen d; editing := editing d;
          deactivateTarget := deactivateTarget d; deleteTarget := None |},
       [ShowToast "Village deleted." success; InvalidateQueries "adminVillages"])
  | Rejected err => (d, mutation_onError err)
  end.

Definition bulkUploadMutation_settle (r : Settled) (d : Dialogs) : Dialogs * list Effect :=
  match r with
  | Fulfilled _ =>
      ({| createOpen := createOpen d; bulkOpen := false; editing := editing d;
          deactivateTarget := deactivateTarget d; deleteTarget := deleteTarget d |},
       [ShowToast "Villages uploaded." success; InvalidateQueries "adminVillages"])
  | Rejected err => (d, mutation_onError err)
  end.

(** [updatePincodeMutation]: nothing on the page closes on success. *)
Definition updatePincodeMutation_settle (r : Settled) (d : Dialogs) : Dialogs * list Effect :=
  match r with
  | Fulfilled _ => (d, UpdatePincodeMutation.onSuccess)
  | Rejected err => (d, UpdatePincodeMutation.onError err)
  end.

End LocationsVillagesPage.

(** The filter combobox of the Locations pages is a [GroupedCombobox] with
    [value={stateFilter}] and the page's handler as [onValueChange]:
    picking an option runs the handler on what the combobox hands over. *)
Definition pickStateFilter_mandals (picked : string)
    (p : LocationsMandalsPage.Filters) : LocationsMandalsPage.Filters :=
  LocationsMandalsPage.onStateFilterChange
    (GroupedCombobox.select (LocationsMandalsPage.stateFilter p) picked) p.

Definition pickDistrictFilter_mandals (picked : string)
    (p : LocationsMandalsPage.Filters) : LocationsMandalsPage.Filters :=
  LocationsMandalsPage.onDistrictFilterChange
    (GroupedCombobox.select (LocationsMandalsPage.districtFilter p) picked) p.

Definition pickStateFilter_villages (picked : string)
    (p : LocationsVillagesPage.Filters) : LocationsVillagesPage.Filters :=
  LocationsVillagesPage.onStateFilterChange
    (GroupedCombobox.select (LocationsVillagesPage.stateFilter p) picked) p.

(** The subset of a candidate collection whose parent reference is [v]:
    the yardstick for the option lists. *)
Definition childrenOf {A : Type} (parent : A -> string) (v : string) (l : list A)
    : list A :=
  List.filter (fun x => Js.strictEq (parent x) v) l.

(** Sample rows used by the examples below. *)
Definition andhraPradesh : AdminState.t :=
  {| AdminState.id := "AP"; AdminState.name := "Andhra Pradesh";
     AdminState.code := "AP"; AdminState.isActive := true |}.

Definition telangana : AdminState.t :=
  {| AdminState.id := "TG"; AdminState.name := "Telangana";
     AdminState.code := "TG"; AdminState.isActive := true |}.

Definition tenaliMandal : AdminMandal.t :=
  {| AdminMandal.id := "m1"; AdminMandal.districtId := "d1";
     AdminMandal.name := "Tenali"; AdminMandal.code := None;
     AdminMandal.isActive := true |}.

(** A filled-in IKP center form. *)
Definition kothurCenter : LocationsIkpCenterDialog.IkpCenterFormData :=
  {| LocationsIkpCenterDialog.stateId := "AP";
     LocationsIkpCenterDialog.districtId := "d1";
     LocationsIkpCenterDialog.mandalId := "m1";
     LocationsIkpCenterDialog.villageId := "v7";
     LocationsIkpCenterDialog.name := "Kothur IKP";
     LocationsIkpCenterDialog.notes := Some "";
     LocationsIkpCenterDialog.isActive := true |}.

Definition guntur : AdminDistrict.t :=
  {| AdminDistrict.id := "d1"; AdminDistrict.stateId := "AP";
     AdminDistrict.name := "Guntur"; AdminDistrict.code := None;
     AdminDistrict.isActive := true |}.

Definition warangal : AdminDistrict.t :=
  {| AdminDistrict.id := "d2"; AdminDistrict.stateId := "TG";
     AdminDistrict.name := "Warangal"; AdminDistrict.code := None;
     AdminDistrict.isActive := true |}.

Definition tenali : AdminIkpMandal.t :=
  {| AdminIkpMandal.id := "m1"; AdminIkpMandal.districtId := "d1";
     AdminIkpMandal.name := "Tenali"; AdminIkpMandal.isActive := true |}.

(** The page with the deactivate confirmation open on [tenali]. *)
Definition confirmingDeactivate : IkpMandalsPage.State :=
  IkpMandalsPage.setDeactivateTarget (Some tenali) IkpMandalsPage.initialState.

(** The form of a new mandal with the Code field left blank. *)
Definition blankCodeMandal : LocationsMandalDialog.MandalFormData :=
  {| LocationsMandalDialog.stateId := "AP"; LocationsMandalDialog.districtId := "d1";
     LocationsMandalDialog.name := "Tenali"; LocationsMandalDialog.code := None;
     LocationsMandalDialog.isActive := true |}.

Definition blankCodeVillage : LocationsVillageDialog.VillageFormData :=
  {| LocationsVillageDialog.stateId := "AP"; LocationsVillageDialog.districtId := "d1";
     LocationsVillageDialog.mandalId := "m1"; LocationsVillageDialog.name := "Kothur";
     LocationsVillageDialog.code := Some ""; LocationsVillageDialog.pincode := None;
     LocationsVillageDialog.isActive := true |}.

(** What a failed action is expected to send: one error toast, whose text
    is the message of an [Error] and the fallback for any other thrown
    value. *)
Definition failureToast (fallback : string) (err : Js.thrown) : list Effect :=
  match err with
  | Js.ThrownError message => [ShowToast message error]
  | Js.ThrownOther => [ShowToast fallback error]
  end.

(** Every selected level has its ancestors selected. *)
Definition centersChained (p : IkpCentersPage.Filters) : Prop :=
  (IkpCentersPage.districtId p <> "" -> IkpCentersPage.stateId p <> "")
  /\ (IkpCentersPage.mandalId p <> "" -> IkpCentersPage.districtId p <> "")
  /\ (IkpCentersPage.villageId p <> "" -> IkpCentersPage.mandalId p <> "").

Definition villagesChained (st : IkpVillagesPage.State) : Prop :=
  (IkpVillagesPage.districtId st <> "" -> IkpVillagesPage.stateId st <> "")
  /\ (IkpVillagesPage.mandalId st <> "" -> IkpVillagesPage.districtId st <> "").

(** [new Map()] filled by [map.set(key(x), x)] for each element in turn. *)
Definition mapByKey {A : Type} (key : A -> string) (l : list A) : gmap string A :=
  fold_left (fun map x => <[key x := x]> map) l ∅.

(** The filter bar of the Locations villages page agrees with the loaded
    collections: a chosen district is a district of the chosen state, a
    chosen mandal is a mandal of the chosen district. *)
Definition filtersConsistent (districts : list AdminDistrict.t)
    (mandals : list AdminMandal.t) (p : LocationsVillagesPage.Filters) : Prop :=
  (LocationsVillagesPage.districtFilter p <> "" ->
     LocationsVillagesPage.stateFilter p <> ""
     /\ exists d, In d districts
                  /\ AdminDistrict.id d = LocationsVillagesPage.districtFilter p
                  /\ AdminDistrict.stateId d = LocationsVillagesPage.stateFilter p)
  /\ (LocationsVillagesPage.mandalFilter p <> "" ->
     LocationsVillagesPage.districtFilter p <> ""
     /\ exists m, In m mandals
                  /\ AdminMandal.id m = LocationsVillagesPage.mandalFilter p
                  /\ AdminMandal.districtId m = LocationsVillagesPage.districtFilter p).

(** The ancestry held by a village form agrees with the loaded collections:
    the district, when one is chosen under a state, is a district of that
    state, and the mandal, when one is chosen under a district, is a mandal
    of that district. *)
Definition ancestryConsistent (districts : list AdminDistrict.t)
    (mandals : list AdminMandal.t) (data : LocationsVillageDialog.VillageFormData) : Prop :=
  (LocationsVillageDialog.stateId data <> "" ->
   LocationsVillageDialog.districtId data <> "" ->
   exists d, In d districts
             /\ AdminDistrict.id d = LocationsVillageDialog.districtId data
             /\ AdminDistrict.stateId d = LocationsVillageDialog.stateId data)
  /\ (LocationsVillageDialog.districtId data <> "" ->
      LocationsVillageDialog.mandalId data <> "" ->
      exists m, In m mandals
                /\ AdminMandal.id m = LocationsVillageDialog.mandalId data
                /\ AdminMandal.districtId m = LocationsVillageDialog.districtId data).

(** The selection held by the bulk-upload dialog of the villages page agrees
    with the loaded collections. *)
Definition uploadConsistent (states : list AdminState.t) (districts : list AdminDistrict.t)
    (mandals : list AdminMandal.t)
    (st : LocationsVillagesPage.BulkUploadVillagesDialog.State) : Prop :=
  (LocationsVillagesPage.BulkUploadVillagesDialog.stateId st <> "" ->
     exists s, In s states
               /\ AdminState.id s = LocationsVillagesPage.BulkUploadVillagesDialog.stateId st)
  /\ (LocationsVillagesPage.BulkUploadVillagesDialog.districtId st <> "" ->
     exists d, In d districts
               /\ AdminDistrict.id d = LocationsVillagesPage.BulkUploadVillagesDialog.districtId st
               /\ AdminDistrict.stateId d
                  = LocationsVillagesPage.BulkUploadVillagesDialog.stateId st
               /\ AdminDistrict.stateId d <> "")
  /\ (LocationsVillagesPage.BulkUploadVillagesDialog.mandalId st <> "" ->
     exists m, In m mandals
               /\ AdminMandal.id m = LocationsVillagesPage.BulkUploadVillagesDialog.mandalId st
               /\ AdminMandal.districtId m
                  = LocationsVillagesPage.BulkUploadVillagesDialog.districtId st
               /\ AdminMandal.districtId m <> "").

(** The district held by a mandal form, when one is chosen under a state,
    is a loaded district of that state. *)
Definition districtOfState (districts : list AdminDistrict.t)
    (data : LocationsMandalDialog.MandalFormData) : Prop :=
  LocationsMandalDialog.stateId data <> "" ->
  LocationsMandalDialog.districtId data <> "" ->
  exists d, In d districts
            /\ AdminDistrict.id d = LocationsMandalDialog.districtId data
            /\ AdminDistrict.stateId d = LocationsMandalDialog.stateId data.

(** * Properties *)

(** ** Strings *)

Lemma truthy_true (s : string) : Js.truthy s = true <-> s <> "".
Proof. destruct s; simpl; split; intros H; congruence. Qed.

Lemma truthy_false (s : string) : Js.truthy s = false <-> s = "".
Proof. destruct s; simpl; split; intros H; congruence. Qed.

Lemma strictEq_true (a b : string) : Js.strictEq a b = true <-> a = b.
Proof. apply String.eqb_eq. Qed.

Lemma orEmpty_some (v : string) : Js.orEmpty (Some v) = v.
Proof. reflexivity. Qed.

Lemma trimStart_empty (s : string) : Js.trimStart s = "" <-> Js.blank s = true.
Proof.
  induction s as [|c r IH]; simpl.
  - split; reflexivity.
  - destruct (Js.isWhiteSpace c); simpl.
    + exact IH.
    + split; intros H; discriminate H.
Qed.

Lemma trimStart_head (s : string) :
  Js.trimStart s = "" \/
  exists c r, Js.trimStart s = String c r /\ Js.isWhiteSpace c = false.
Proof.
  induction s as [|c r IH]; simpl.
  - now left.
  - destruct (Js.isWhiteSpace c) eqn:E.
    + exact IH.
    + right. now exists c, r.
Qed.

Lemma trimEnd_keeps_head (c : ascii) (r : string) :
  Js.isWhiteSpace c = false -> Js.trimEnd (String c r) <> "".
Proof.
  intros E. simpl. destruct (Js.trimEnd r); rewrite ?E; discriminate.
Qed.

(** [s.trim()] is empty exactly when [s] is all white space. *)
Lemma trim_empty (s : string) : Js.trim s = "" <-> Js.blank s = true.
Proof.
  unfold Js.trim. rewrite <- trimStart_empty.
  destruct (trimStart_head s) as [E | (c & r & E & W)]; rewrite E.
  - split; reflexivity.
  - split; intros H; [ | discriminate H ].
    exfalso. now apply (trimEnd_keeps_head c r W).
Qed.

Lemma truthy_trim (s : string) : Js.truthy (Js.trim s) = negb (Js.blank s).
Proof.
  destruct (Js.blank s) eqn:B; simpl.
  - apply truthy_false. now apply trim_empty.
  - apply truthy_true. intros E. apply trim_empty in E. congruence.
Qed.

Lemma nonBlank_true (s : string) :
  Js.nonBlank s = true <-> s <> "" /\ Js.blank s = false.
Proof.
  unfold Js.nonBlank. rewrite andb_true_iff, truthy_true, truthy_trim, negb_true_iff.
  tauto.
Qed.

Lemma zod_min_1 (s : string) : Zod.min 1 s = true <-> s <> "".
Proof.
  unfold Zod.min. destruct s; simpl; split; intros H; congruence.
Qed.

(** ** Narrowing by parent id *)

Section Narrowing.

Context {A : Type} (parent : A -> string).

Lemma childrenOf_spec (v : string) (l : list A) (x : A) :
  In x (childrenOf parent v l) <-> In x l /\ parent x = v.
Proof.
  unfold childrenOf. rewrite filter_In, strictEq_true. tauto.
Qed.

End Narrowing.

Lemma filteredDistricts_selected (districts : list AdminDistrict.t) (v : string) :
  v <> "" ->
  LocationsVillageDialog.filteredDistricts districts v
  = childrenOf AdminDistrict.stateId v districts.
Proof.
  intros Hv. unfold LocationsVillageDialog.filteredDistricts.
  apply truthy_true in Hv. now rewrite Hv.
Qed.

Lemma districtFilterCandidates_selected (districts : list AdminDistrict.t) (v : string) :
  v <> "" ->
  LocationsVillagesPage.districtFilterCandidates districts v
  = childrenOf AdminDistrict.stateId v districts.
Proof.
  intros Hv. unfold LocationsVillagesPage.districtFilterCandidates.
  apply truthy_true in Hv. now rewrite Hv.
Qed.

(** C1.  Changing the State selection to [v] clears the selections below
    it, in the form context (the village dialog, which has State, District
    and Mandal selectors, and the IKP center dialog of the Locations pages,
    which also has a Village selector) and in the filter context (the filter
    bars of the IKP centers page and of the Locations villages page).  When
    a State is selected, that is when [v] is not empty, the District options
    computed on the client are afterwards exactly the districts whose
    [stateId] is [v]. *)
Theorem state_selection_resets_and_narrows
    (v : string) (districts : list AdminDistrict.t)
    (fv : LocationsVillageDialog.form) (fc : LocationsIkpCenterDialog.form)
    (p : IkpCentersPage.Filters) (q : LocationsVillagesPage.Filters) :
  let fv' := LocationsVillageDialog.onStateChange v fv in
  let fc' := LocationsIkpCenterDialog.onStateChange v fc in
  let p' := IkpCentersPage.onStateFilterChange (Some v) p in
  let q' := LocationsVillagesPage.onStateFilterChange v q in
  (* form context *)
  (LocationsVillageDialog.selectedStateId fv' = v
   /\ LocationsVillageDialog.districtId (LocationsVillageDialog.values fv') = ""
   /\ LocationsVillageDialog.mandalId (LocationsVillageDialog.values fv') = "")
  /\ (LocationsIkpCenterDialog.selectedStateId fc' = v
      /\ LocationsIkpCenterDialog.districtId (LocationsIkpCenterDialog.values fc') = ""
      /\ LocationsIkpCenterDialog.mandalId (LocationsIkpCenterDialog.values fc') = ""
      /\ LocationsIkpCenterDialog.villageId (LocationsIkpCenterDialog.values fc') = "")
  (* filter context *)
  /\ (IkpCentersPage.stateId p' = v
      /\ IkpCentersPage.districtId p' = ""
      /\ IkpCentersPage.mandalId p' = ""
      /\ IkpCentersPage.villageId p' = "")
  /\ (LocationsVillagesPage.stateFilter q' = v
      /\ LocationsVillagesPage.districtFilter q' = ""
      /\ LocationsVillagesPage.mandalFilter q' = "")
  (* the District options afterwards *)
  /\ (v <> "" ->
      LocationsVillageDialog.filteredDistricts districts
        (LocationsVillageDialog.selectedStateId fv')
      = childrenOf AdminDistrict.stateId v districts
      /\ LocationsIkpCenterDialog.filteredDistricts districts
           (LocationsIkpCenterDialog.selectedStateId fc')
         = childrenOf AdminDistrict.stateId v districts
      /\ LocationsVillagesPage.districtFilterCandidates districts
           (LocationsVillagesPage.stateFilter q')
         = childrenOf AdminDistrict.stateId v districts
      /\ (forall d, In d (LocationsVillageDialog.filteredDistricts districts
                            (LocationsVillageDialog.selectedStateId fv'))
                    <-> In d districts /\ AdminDistrict.stateId d = v)).
Proof.
  intros fv' fc' p' q'.
  change (LocationsVillageDialog.selectedStateId fv') with v.
  change (LocationsIkpCenterDialog.selectedStateId fc') with v.
  change (LocationsVillagesPage.stateFilter q') with v.
  split; [ now repeat split | ].
  split; [ now repeat split | ].
  split; [ now repeat split | ].
  split; [ now repeat split | ].
  intros Hv.
  pose proof (filteredDistricts_selected districts v Hv) as Hopts.
  split; [ exact Hopts | ].
  split.
  { unfold LocationsIkpCenterDialog.filteredDistricts.
    apply truthy_true in Hv. now rewrite Hv. }
  split; [ now apply districtFilterCandidates_selected | ].
  intros d. rewrite Hopts. apply childrenOf_spec.
Qed.

Lemma state_selection_resets_and_narrows_witness :
  let fv := LocationsVillageDialog.reset
              {| LocationsVillageDialog.stateId := "TG";
                 LocationsVillageDialog.districtId := "d2";
                 LocationsVillageDialog.mandalId := "m9";
                 LocationsVillageDialog.name := "Kothur";
                 LocationsVillageDialog.code := None;
                 LocationsVillageDialog.pincode := None;
                 LocationsVillageDialog.isActive := true |} in
  "AP" <> ""
  /\ LocationsVillageDialog.districtId
       (LocationsVillageDialog.values (LocationsVillageDialog.onStateChange "AP" fv)) = ""
  /\ LocationsVillageDialog.filteredDistricts [guntur; warangal]
       (LocationsVillageDialog.selectedStateId
          (LocationsVillageDialog.onStateChange "AP" fv)) = [guntur].
Proof.
  intros fv.
  assert (Hv : "AP" <> "") by discriminate.
  pose proof (state_selection_resets_and_narrows "AP" [guntur; warangal] fv
                (LocationsIkpCenterDialog.reset
                   {| LocationsIkpCenterDialog.stateId := "";
                      LocationsIkpCenterDialog.districtId := "";
                      LocationsIkpCenterDialog.mandalId := "";
                      LocationsIkpCenterDialog.villageId := "";
                      LocationsIkpCenterDialog.name := "";
                      LocationsIkpCenterDialog.notes := None;
                      LocationsIkpCenterDialog.isActive := true |})
                IkpCentersPage.initialFilters
                {| LocationsVillagesPage.stateFilter := "";
                   LocationsVillagesPage.districtFilter := "";
                   LocationsVillagesPage.mandalFilter := "" |}) as H.
  cbv zeta in H.
  destruct H as ((_ & Hd & _) & _ & _ & _ & Hnarrow).
  destruct (Hnarrow Hv) as (Hopts & _).
  split; [ exact Hv | split; [ exact Hd | ] ].
  rewrite Hopts. reflexivity.
Defined.

(** The options of the one group a page hands to a combobox. *)
Lemma districtFilterGroups_options (districts : list AdminDistrict.t) (s : string) :
  List.map GroupedComboboxGroup.options
    (LocationsMandalsPage.districtFilterGroups districts s)
  = [ List.map (fun x => {| GroupedComboboxGroup.value := AdminDistrict.id x;
                            GroupedComboboxGroup.label := AdminDistrict.name x |})
        (LocationsMandalsPage.districtFilterCandidates districts s) ].
Proof. reflexivity. Qed.

(** C3, as the claim states it, fails on the filter bar of the Locations
    mandals page: with no State chosen the District filter is bound to the
    options of every district, not to the empty list. *)
Lemma empty_state_filter_lists_every_district :
  LocationsMandalsPage.districtFilterGroups [guntur; warangal] ""
  = [ {| GroupedComboboxGroup.groupLabel := "Districts";
         GroupedComboboxGroup.options :=
           [ {| GroupedComboboxGroup.value := "d1"; GroupedComboboxGroup.label := "Guntur" |};
             {| GroupedComboboxGroup.value := "d2"; GroupedComboboxGroup.label := "Warangal" |} ] |} ]
  /\ LocationsMandalsPage.districtFilterCandidates [guntur; warangal] "" <> [].
Proof.
  split.
  - reflexivity.
  - unfold LocationsMandalsPage.districtFilterCandidates. simpl. discriminate.
Qed.

(** C3, amended.  With an empty selection at level k, the option list of
    level k+1 is empty in the dialogs (village dialog, mandal dialog, IKP
    center dialog, bulk-upload dialogs) and is the whole candidate collection
    in the filter bars of the Locations pages, whose control is disabled
    then; with a non-empty selection [s] it is, everywhere, exactly the
    candidates whose parent reference is [s]. *)
Theorem option_lists_follow_parent_selection
    (districts : list AdminDistrict.t) (mandals : list AdminMandal.t)
    (villages : list AdminVillage.t) (s : string) :
  (s = "" ->
     LocationsVillageDialog.filteredDistricts districts s = []
     /\ LocationsVillageDialog.filteredMandals mandals s = []
     /\ LocationsMandalDialog.filteredDistricts districts s = []
     /\ LocationsIkpCenterDialog.filteredDistricts districts s = []
     /\ LocationsIkpCenterDialog.filteredMandals mandals s = []
     /\ LocationsIkpCenterDialog.filteredVillages villages s = []
     /\ LocationsMandalsPage.BulkUploadMandalsDialog.filteredDistricts districts s = []
     /\ LocationsVillagesPage.BulkUploadVillagesDialog.filteredDistricts districts s = []
     /\ LocationsVillagesPage.BulkUploadVillagesDialog.filteredMandals mandals s = []
     /\ LocationsMandalsPage.districtFilterCandidates districts s = districts
     /\ LocationsVillagesPage.districtFilterCandidates districts s = districts
     /\ LocationsVillagesPage.mandalFilterCandidates mandals s = mandals
     /\ (forall p, LocationsMandalsPage.stateFilter p = s ->
                   LocationsMandalsPage.districtFilterDisabled p = true))
  /\ (s <> "" ->
     LocationsVillageDialog.filteredDistricts districts s
       = childrenOf AdminDistrict.stateId s districts
     /\ LocationsVillageDialog.filteredMandals mandals s
       = childrenOf AdminMandal.districtId s mandals
     /\ LocationsMandalDialog.filteredDistricts districts s
       = childrenOf AdminDistrict.stateId s districts
     /\ LocationsIkpCenterDialog.filteredDistricts districts s
       = childrenOf AdminDistrict.stateId s districts
     /\ LocationsIkpCenterDialog.filteredMandals mandals s
       = childrenOf AdminMandal.districtId s mandals
     /\ LocationsIkpCenterDialog.filteredVillages villages s
       = childrenOf AdminVillage.mandalId s villages
     /\ LocationsMandalsPage.BulkUploadMandalsDialog.filteredDistricts districts s
       = childrenOf AdminDistrict.stateId s districts
     /\ LocationsVillagesPage.BulkUploadVillagesDialog.filteredDistricts districts s
       = childrenOf AdminDistrict.stateId s districts
     /\ LocationsVillagesPage.BulkUploadVillagesDialog.filteredMandals mandals s
       = childrenOf AdminMandal.districtId s mandals
     /\ LocationsMandalsPage.districtFilterCandidates districts s
       = childrenOf AdminDistrict.stateId s districts
     /\ LocationsVillagesPage.districtFilterCandidates districts s
       = childrenOf AdminDistrict.stateId s districts
     /\ LocationsVillagesPage.mandalFilterCandidates mandals s
       = childrenOf AdminMandal.districtId s mandals
     /\ (forall d, In d (LocationsVillageDialog.filteredDistricts districts s)
                   <-> In d districts /\ AdminDistrict.stateId d = s)).
Proof.
  split.
  - intros ->. repeat split.
    intros p Hp. unfold LocationsMandalsPage.districtFilterDisabled. now rewrite Hp.
  - intros Hs. pose proof Hs as Ht. apply truthy_true in Ht.
    unfold LocationsVillageDialog.filteredDistricts,
      LocationsVillageDialog.filteredMandals,
      LocationsMandalDialog.filteredDistricts,
      LocationsIkpCenterDialog.filteredDistricts,
      LocationsIkpCenterDialog.filteredMandals,
      LocationsIkpCenterDialog.filteredVillages,
      LocationsMandalsPage.BulkUploadMandalsDialog.filteredDistricts,
      LocationsVillagesPage.BulkUploadVillagesDialog.filteredDistricts,
      LocationsVillagesPage.BulkUploadVillagesDialog.filteredMandals,
      LocationsMandalsPage.districtFilterCandidates,
      LocationsVillagesPage.districtFilterCandidates,
      LocationsVillagesPage.mandalFilterCandidates.
    rewrite Ht. simpl negb. cbv iota.
    repeat (split; [ reflexivity | ]).
    intros d. apply childrenOf_spec.
Qed.

Lemma option_lists_follow_parent_selection_witness :
  LocationsVillageDialog.filteredDistricts [guntur; warangal] "" = []
  /\ LocationsVillagesPage.districtFilterCandidates [guntur; warangal] ""
     = [guntur; warangal]
  /\ LocationsVillageDialog.filteredDistricts [guntur; warangal] "TG" = [warangal]
  /\ LocationsVillagesPage.districtFilterCandidates [guntur; warangal] "TG" = [warangal].
Proof.
  destruct (option_lists_follow_parent_selection [guntur; warangal] [] [] "")
    as [He _].
  destruct (option_lists_follow_parent_selection [guntur; warangal] [] [] "TG")
    as [_ Hn].
  destruct (He eq_refl) as (E1 & _ & _ & _ & _ & _ & _ & _ & _ & _ & E2 & _).
  assert (Hs : "TG" <> "") by discriminate.
  destruct (Hn Hs) as (N1 & _ & _ & _ & _ & _ & _ & _ & _ & _ & N2 & _).
  split; [ exact E1 | ].
  split; [ exact E2 | ].
  split; [ rewrite N1 | rewrite N2 ]; reflexivity.
Defined.

(** ** Option queries of the IKP pages *)

Lemma reached_states_loaded :
  IkpMandalsPage.reachable
    (IkpMandalsPage.pageStep IkpMandalsPage.StatesQuerySucceeded
       IkpMandalsPage.initialState).
Proof. apply IkpMandalsPage.reachable_step, IkpMandalsPage.reachable_init. Qed.

(** C2, as the claim states it, fails on the IKP mandals page: once the
    states have loaded, and before any State is chosen, the districts query
    is enabled and asks for the districts of every state. *)
Lemma districts_fetched_without_state :
  let st := IkpMandalsPage.pageStep IkpMandalsPage.StatesQuerySucceeded
              IkpMandalsPage.initialState in
  IkpMandalsPage.reachable st
  /\ IkpMandalsPage.stateId st = ""
  /\ IkpMandalsPage.districtsQuery_enabled st = true
  /\ IkpMandalsPage.districtsQuery_stateId st = None.
Proof.
  intros st. split; [ apply reached_states_loaded | ].
  repeat split.
Qed.

(** On the IKP mandals page the state filter never gates the districts
    query: only the outcome of the states query does. *)
Lemma mandals_page_gate (st : IkpMandalsPage.State) :
  IkpMandalsPage.districtsQuery_enabled st = IkpMandalsPage.statesQuery_isSuccess st
  /\ (IkpMandalsPage.stateId st = "" -> IkpMandalsPage.districtsQuery_stateId st = None)
  /\ (IkpMandalsPage.stateId st <> "" ->
      IkpMandalsPage.districtsQuery_stateId st = Some (IkpMandalsPage.stateId st)).
Proof.
  unfold IkpMandalsPage.districtsQuery_enabled, IkpMandalsPage.districtsQuery_stateId,
    Js.orUndefined.
  split; [ reflexivity | split ].
  - intros ->. reflexivity.
  - intros H. apply truthy_true in H. now rewrite H.
Qed.

(** C2, amended.  On the IKP centers page (filter bar and dialog) and on the
    IKP villages page, the query that fetches the options of a level is
    enabled only when the parent id is non-empty, and indeed not all white
    space: on the centers page exactly then, on the villages page exactly
    when, moreover, the query one level up has succeeded.  On the IKP
    mandals page the districts query is enabled by the success of the states
    query alone, in every reachable state, and it asks without a state when
    none is chosen. *)
Theorem option_queries_gated_by_parent :
  (forall p : IkpCentersPage.Filters,
     (IkpCentersPage.districtsQuery_enabled p = true <->
        IkpCentersPage.stateId p <> "" /\ Js.blank (IkpCentersPage.stateId p) = false)
     /\ (IkpCentersPage.mandalsQuery_enabled p = true <->
        IkpCentersPage.districtId p <> "" /\ Js.blank (IkpCentersPage.districtId p) = false)
     /\ (IkpCentersPage.villagesQuery_enabled p = true <->
        IkpCentersPage.mandalId p <> "" /\ Js.blank (IkpCentersPage.mandalId p) = false))
  /\ (forall f : IkpCentersPage.IkpCenterDialog.form,
     (IkpCentersPage.IkpCenterDialog.districtsQuery_enabled f = true <->
        IkpCentersPage.IkpCenterDialog.stateIdValue f <> ""
        /\ Js.blank (IkpCentersPage.IkpCenterDialog.stateIdValue f) = false)
     /\ (IkpCentersPage.IkpCenterDialog.mandalsQuery_enabled f = true <->
        IkpCentersPage.IkpCenterDialog.districtIdValue f <> ""
        /\ Js.blank (IkpCentersPage.IkpCenterDialog.districtIdValue f) = false)
     /\ (IkpCentersPage.IkpCenterDialog.villagesQuery_enabled f = true <->
        IkpCentersPage.IkpCenterDialog.mandalIdValue f <> ""
        /\ Js.blank (IkpCentersPage.IkpCenterDialog.mandalIdValue f) = false))
  /\ (forall st : IkpVillagesPage.State,
     (IkpVillagesPage.districtsQuery_enabled st = true <->
        (IkpVillagesPage.stateId st <> "" /\ Js.blank (IkpVillagesPage.stateId st) = false)
        /\ IkpVillagesPage.statesQuery_isSuccess st = true)
     /\ (IkpVillagesPage.mandalsQuery_enabled st = true <->
        (IkpVillagesPage.districtId st <> ""
         /\ Js.blank (IkpVillagesPage.districtId st) = false)
        /\ IkpVillagesPage.districtsQuery_isSuccess st = true)
     /\ (IkpVillagesPage.listQuery_enabled st = true <->
        (IkpVillagesPage.mandalId st <> "" /\ Js.blank (IkpVillagesPage.mandalId st) = false)
        /\ IkpVillagesPage.mandalsQuery_isSuccess st = true))
  /\ (forall st : IkpMandalsPage.State,
     IkpMandalsPage.reachable st ->
     IkpMandalsPage.districtsQuery_enabled st = IkpMandalsPage.statesQuery_isSuccess st
     /\ (IkpMandalsPage.stateId st = "" ->
         IkpMandalsPage.districtsQuery_stateId st = None)).
Proof.
  split; [ | split; [ | split ] ].
  - intros p.
    unfold IkpCentersPage.districtsQuery_enabled, IkpCentersPage.mandalsQuery_enabled,
      IkpCentersPage.villagesQuery_enabled.
    split; [ | split ]; apply nonBlank_true.
  - intros f.
    unfold IkpCentersPage.IkpCenterDialog.districtsQuery_enabled,
      IkpCentersPage.IkpCenterDialog.mandalsQuery_enabled,
      IkpCentersPage.IkpCenterDialog.villagesQuery_enabled.
    split; [ | split ]; apply nonBlank_true.
  - intros st.
    unfold IkpVillagesPage.districtsQuery_enabled, IkpVillagesPage.mandalsQuery_enabled,
      IkpVillagesPage.listQuery_enabled.
    split; [ | split ]; rewrite andb_true_iff, nonBlank_true; reflexivity.
  - intros st _. destruct (mandals_page_gate st) as (H1 & H2 & _). now split.
Qed.

Lemma option_queries_gated_by_parent_witness :
  let p := IkpCentersPage.onStateFilterChange (Some "AP") IkpCentersPage.initialFilters in
  let q := IkpCentersPage.onStateFilterChange (Some "  ") IkpCentersPage.initialFilters in
  IkpCentersPage.districtsQuery_enabled p = true
  /\ IkpCentersPage.stateId p <> ""
  /\ IkpCentersPage.mandalsQuery_enabled p = false
  /\ IkpCentersPage.stateId q <> ""
  /\ IkpCentersPage.districtsQuery_enabled q = false.
Proof.
  intros p q.
  destruct option_queries_gated_by_parent as (Hc & _).
  destruct (Hc p) as (Hd & _).
  destruct (Hc q) as (Hq & _).
  assert (He : IkpCentersPage.districtsQuery_enabled p = true) by reflexivity.
  split; [ exact He | ].
  split; [ exact (proj1 (proj1 Hd He)) | ].
  split; [ reflexivity | ].
  split; [ discriminate | ].
  destruct (IkpCentersPage.districtsQuery_enabled q) eqn:E; [ | reflexivity ].
  destruct (proj1 Hq eq_refl) as [_ Hb]. discriminate Hb.
Defined.

(** ** Failed mutations on the IKP pages *)

Lemma failed_mandal_mutation (st : IkpMandalsPage.State) (err : Js.thrown) :
  IkpMandalsPage.createMutation_settle (Rejected err) st
  = (st, [ShowToast (Js.messageOr "Failed to create mandal." err) error])
  /\ IkpMandalsPage.updateMutation_settle (Rejected err) st
     = (st, [ShowToast (Js.messageOr "Failed to update mandal." err) error])
  /\ IkpMandalsPage.deactivateMutation_settle (Rejected err) st
     = (st, [ShowToast (Js.messageOr "Failed to deactivate mandal." err) error]).
Proof. repeat split. Qed.

(** C4, as the claim states it, fails on the IKP mandals page: after a
    failed deactivate the confirmation dialog is still open on the same
    row. *)
Lemma failed_deactivate_keeps_confirmation_open :
  let r := IkpMandalsPage.deactivateMutation_settle
             (Rejected (Js.ThrownError "Mandal is in use")) confirmingDeactivate in
  IkpMandalsPage.deactivateDialog_open confirmingDeactivate = true
  /\ IkpMandalsPage.deactivateDialog_open (fst r) = true
  /\ IkpMandalsPage.deactivateTarget (fst r) = Some tenali
  /\ snd r = [ShowToast "Mandal is in use" error].
Proof.
  intros r. subst r.
  destruct (failed_mandal_mutation confirmingDeactivate (Js.ThrownError "Mandal is in use"))
    as (_ & _ & ->).
  repeat split.
Qed.

(** C4, amended.  A failed create, update or deactivate (on the Locations
    mandals and villages pages also a failed delete or bulk upload) does one
    thing: it shows an error toast, with the message of the thrown value
    when that is an [Error] and otherwise with a fallback text, which is the
    text of the action on the IKP districts, mandals, villages and centers
    pages and "Failed." on the Locations pages; the inline pincode update
    shows its own fixed text.  It invalidates no query and leaves the page
    state as it was: the create and edit dialogs stay open and nothing is
    applied; on the IKP districts, mandals and villages pages, whose
    confirmation is a plain dialog, the deactivate confirmation stays open,
    on the same row. *)
Theorem failed_mutation_toasts_and_keeps_dialogs :
  (forall (st : IkpMandalsPage.State) (err : Js.thrown),
     let c := IkpMandalsPage.createMutation_settle (Rejected err) st in
     let u := IkpMandalsPage.updateMutation_settle (Rejected err) st in
     let d := IkpMandalsPage.deactivateMutation_settle (Rejected err) st in
     (snd c = failureToast "Failed to create mandal." err
      /\ snd u = failureToast "Failed to update mandal." err
      /\ snd d = failureToast "Failed to deactivate mandal." err)
     /\ (fst c = st /\ fst u = st /\ fst d = st)
     /\ (IkpMandalsPage.createDialog_open (fst c) = IkpMandalsPage.createDialog_open st
         /\ IkpMandalsPage.editDialog_open (fst u) = IkpMandalsPage.editDialog_open st
         /\ IkpMandalsPage.deactivateDialog_open (fst d)
            = IkpMandalsPage.deactivateDialog_open st
         /\ IkpMandalsPage.deactivateTarget (fst d) = IkpMandalsPage.deactivateTarget st))
  /\ (forall (st : IkpDistrictsPage.State) (err : Js.thrown),
     let c := IkpDistrictsPage.createMutation_settle (Rejected err) st in
     let u := IkpDistrictsPage.updateMutation_settle (Rejected err) st in
     let d := IkpDistrictsPage.deactivateMutation_settle (Rejected err) st in
     (snd c = failureToast "Failed to create district." err
      /\ snd u = failureToast "Failed to update district." err
      /\ snd d = failureToast "Failed to deactivate district." err)
     /\ (fst c = st /\ fst u = st /\ fst d = st)
     /\ (IkpDistrictsPage.createDialog_open (fst c) = IkpDistrictsPage.createDialog_open st
         /\ IkpDistrictsPage.editDialog_open (fst u) = IkpDistrictsPage.editDialog_open st
         /\ IkpDistrictsPage.deactivateDialog_open (fst d)
            = IkpDistrictsPage.deactivateDialog_open st
         /\ IkpDistrictsPage.deactivateTarget (fst d) = IkpDistrictsPage.deactivateTarget st))
  /\ (forall (st : IkpVillagesPage.State) (err : Js.thrown),
     let c := IkpVillagesPage.createMutation_settle (Rejected err) st in
     let u := IkpVillagesPage.updateMutation_settle (Rejected err) st in
     let d := IkpVillagesPage.deactivateMutation_settle (Rejected err) st in
     (snd c = failureToast "Failed to create village." err
      /\ snd u = failureToast "Failed to update village." err
      /\ snd d = failureToast "Failed to deactivate village." err)
     /\ (fst c = st /\ fst u = st /\ fst d = st)
     /\ (IkpVillagesPage.createDialog_open (fst c) = IkpVillagesPage.createDialog_open st
         /\ IkpVillagesPage.editDialog_open (fst u) = IkpVillagesPage.editDialog_open st
         /\ IkpVillagesPage.deactivateDialog_open (fst d)
            = IkpVillagesPage.deactivateDialog_open st
         /\ IkpVillagesPage.deactivateTarget (fst d) = IkpVillagesPage.deactivateTarget st))
  /\ (forall (fallback message : string) (k : string),
     failureToast fallback (Js.ThrownError message) = [ShowToast message error]
     /\ failureToast fallback Js.ThrownOther = [ShowToast fallback error]
     /\ ~ In (InvalidateQueries k) (failureToast fallback (Js.ThrownError message))
     /\ ~ In (InvalidateQueries k) (failureToast fallback Js.ThrownOther))
  /\ (forall (st : IkpCentersPage.Dialogs) (err : Js.thrown),
     let c := IkpCentersPage.createMutation_settle (Rejected err) st in
     let u := IkpCentersPage.updateMutation_settle (Rejected err) st in
     let d := IkpCentersPage.deactivateMutation_settle (Rejected err) st in
     (snd c = failureToast "Failed to create IKP center." err
      /\ snd u = failureToast "Failed to update IKP center." err
      /\ snd d = failureToast "Failed to deactivate IKP center." err)
     /\ (fst c = st /\ fst u = st /\ fst d = st)
     /\ (IkpCentersPage.createOpen (fst c) = IkpCentersPage.createOpen st
         /\ IkpCentersPage.editing (fst u) = IkpCentersPage.editing st
         /\ IkpCentersPage.deactivateTarget (fst d) = IkpCentersPage.deactivateTarget st))
  /\ (forall (st : LocationsMandalsPage.Dialogs) (err : Js.thrown),
     let c := LocationsMandalsPage.createMutation_settle (Rejected err) st in
     let u := LocationsMandalsPage.updateMutation_settle (Rejected err) st in
     let d := LocationsMandalsPage.deactivateMutation_settle (Rejected err) st in
     let x := LocationsMandalsPage.deleteMutation_settle (Rejected err) st in
     let b := LocationsMandalsPage.bulkUploadMutation_settle (Rejected err) st in
     (snd c = failureToast "Failed." err /\ snd u = failureToast "Failed." err
      /\ snd d = failureToast "Failed." err /\ snd x = failureToast "Failed." err
      /\ snd b = failureToast "Failed." err)
     /\ (fst c = st /\ fst u = st /\ fst d = st /\ fst x = st /\ fst b = st)
     /\ (LocationsMandalsPage.createOpen (fst c) = LocationsMandalsPage.createOpen st
         /\ LocationsMandalsPage.editing (fst u) = LocationsMandalsPage.editing st
         /\ LocationsMandalsPage.deactivateTarget (fst d)
            = LocationsMandalsPage.deactivateTarget st
         /\ LocationsMandalsPage.deleteTarget (fst x) = LocationsMandalsPage.deleteTarget st
         /\ LocationsMandalsPage.bulkOpen (fst b) = LocationsMandalsPage.bulkOpen st))
  /\ (forall (st : LocationsVillagesPage.Dialogs) (err : Js.thrown),
     let c := LocationsVillagesPage.createMutation_settle (Rejected err) st in
     let u := LocationsVillagesPage.updateMutation_settle (Rejected err) st in
     let d := LocationsVillagesPage.deactivateMutation_settle (Rejected err) st in
     let x := LocationsVillagesPage.deleteMutation_settle (Rejected err) st in
     let b := LocationsVillagesPage.bulkUploadMutation_settle (Rejected err) st in
     let pin := LocationsVillagesPage.updatePincodeMutation_settle (Rejected err) st in
     (snd c = failureToast "Failed." err /\ snd u = failureToast "Failed." err
      /\ snd d = failureToast "Failed." err /\ snd x = failureToast "Failed." err
      /\ snd b = failureToast "Failed." err
      /\ snd pin = [ShowToast "Failed to update pincode." error])
     /\ (fst c = st /\ fst u = st /\ fst d = st /\ fst x = st /\ fst b = st
         /\ fst pin = st)
     /\ (LocationsVillagesPage.createOpen (fst c) = LocationsVillagesPage.createOpen st
         /\ LocationsVillagesPage.editing (fst u) = LocationsVillagesPage.editing st
         /\ LocationsVillagesPage.deactivateTarget (fst d)
            = LocationsVillagesPage.deactivateTarget st
         /\ LocationsVillagesPage.deleteTarget (fst x) = LocationsVillagesPage.deleteTarget st
         /\ LocationsVillagesPage.bulkOpen (fst b) = LocationsVillagesPage.bulkOpen st)).
Proof.
  split; [ | split; [ | split; [ | split; [ | split; [ | split ] ] ] ] ].
  - intros st err c u d. subst c u d.
    destruct (failed_mandal_mutation st err) as (-> & -> & ->).
    unfold failureToast. destruct err; simpl; now repeat split.
  - intros st err c u d. subst c u d.
    unfold IkpDistrictsPage.createMutation_settle, IkpDistrictsPage.updateMutation_settle,
      IkpDistrictsPage.deactivateMutation_settle, failureToast.
    destruct err; simpl; now repeat split.
  - intros st err c u d. subst c u d.
    unfold IkpVillagesPage.createMutation_settle, IkpVillagesPage.updateMutation_settle,
      IkpVillagesPage.deactivateMutation_settle, failureToast.
    destruct err; simpl; now repeat split.
  - intros fallback message k. unfold failureToast.
    split; [ reflexivity | split; [ reflexivity | ] ].
    split; intros [H | []]; discriminate H.
  - intros st err c u d. subst c u d. unfold failureToast.
    destruct err; simpl; now repeat split.
  - intros st err c u d x b. subst c u d x b.
    unfold failureToast, LocationsMandalsPage.mutation_onError.
    destruct err; simpl; now repeat split.
  - intros st err c u d x b pin. subst c u d x b pin.
    unfold failureToast, LocationsVillagesPage.mutation_onError.
    destruct err; simpl; now repeat split.
Qed.

(** ** Edit dialogs with a locked ancestor *)

Lemma mandal_run_locked (initialValues : IkpMandalsPage.MandalDialog.MandalFormData)
    (es : list IkpMandalsPage.MandalDialog.event) :
  let f := IkpMandalsPage.MandalDialog.run true initialValues es in
  IkpMandalsPage.MandalDialog.defaultValues f = initialValues
  /\ IkpMandalsPage.MandalDialog.districtId (IkpMandalsPage.MandalDialog.values f)
     = IkpMandalsPage.MandalDialog.districtId initialValues.
Proof.
  unfold IkpMandalsPage.MandalDialog.run.
  change initialValues with
    (IkpMandalsPage.MandalDialog.defaultValues
       (IkpMandalsPage.MandalDialog.reset initialValues)) at 2.
  change (IkpMandalsPage.MandalDialog.districtId initialValues) with
    (IkpMandalsPage.MandalDialog.districtId
       (IkpMandalsPage.MandalDialog.values
          (IkpMandalsPage.MandalDialog.reset initialValues))).
  generalize (IkpMandalsPage.MandalDialog.reset initialValues) as f.
  induction es as [|e es IH]; intros f; simpl.
  - split; reflexivity.
  - destruct (IH (IkpMandalsPage.MandalDialog.step true e f)) as [H1 H2].
    cbv zeta in H1, H2. rewrite H1, H2. destruct e; split; reflexivity.
Qed.

Lemma district_run_locked (initialValues : IkpDistrictsPage.DistrictDialog.DistrictFormData)
    (es : list IkpDistrictsPage.DistrictDialog.event) :
  let f := IkpDistrictsPage.DistrictDialog.run true initialValues es in
  IkpDistrictsPage.DistrictDialog.defaultValues f = initialValues
  /\ IkpDistrictsPage.DistrictDialog.stateId (IkpDistrictsPage.DistrictDialog.values f)
     = IkpDistrictsPage.DistrictDialog.stateId initialValues.
Proof.
  unfold IkpDistrictsPage.DistrictDialog.run.
  change initialValues with
    (IkpDistrictsPage.DistrictDialog.defaultValues
       (IkpDistrictsPage.DistrictDialog.reset initialValues)) at 2.
  change (IkpDistrictsPage.DistrictDialog.stateId initialValues) with
    (IkpDistrictsPage.DistrictDialog.stateId
       (IkpDistrictsPage.DistrictDialog.values
          (IkpDistrictsPage.DistrictDialog.reset initialValues))).
  generalize (IkpDistrictsPage.DistrictDialog.reset initialValues) as f.
  induction es as [|e es IH]; intros f; simpl.
  - split; reflexivity.
  - destruct (IH (IkpDistrictsPage.DistrictDialog.step true e f)) as [H1 H2].
    cbv zeta in H1, H2. rewrite H1, H2. destruct e; split; reflexivity.
Qed.

Lemma village_run_locked (initialValues : IkpVillagesPage.VillageDialog.VillageFormData)
    (es : list IkpVillagesPage.VillageDialog.event) :
  let f := IkpVillagesPage.VillageDialog.run true initialValues es in
  IkpVillagesPage.VillageDialog.defaultValues f = initialValues
  /\ IkpVillagesPage.VillageDialog.mandalId (IkpVillagesPage.VillageDialog.values f)
     = IkpVillagesPage.VillageDialog.mandalId initialValues.
Proof.
  unfold IkpVillagesPage.VillageDialog.run.
  change initialValues with
    (IkpVillagesPage.VillageDialog.defaultValues
       (IkpVillagesPage.VillageDialog.reset initialValues)) at 2.
  change (IkpVillagesPage.VillageDialog.mandalId initialValues) with
    (IkpVillagesPage.VillageDialog.mandalId
       (IkpVillagesPage.VillageDialog.values
          (IkpVillagesPage.VillageDialog.reset initialValues))).
  generalize (IkpVillagesPage.VillageDialog.reset initialValues) as f.
  induction es as [|e es IH]; intros f; simpl.
  - split; reflexivity.
  - destruct (IH (IkpVillagesPage.VillageDialog.step true e f)) as [H1 H2].
    cbv zeta in H1, H2. rewrite H1, H2. destruct e; split; reflexivity.
Qed.

(** Three disjuncts of a disabled flag. *)
Lemma orb3_false (a b c : bool) :
  a || b || c = false <-> a = false /\ b = false /\ c = false.
Proof. destruct a, b, c; simpl; intuition congruence. Qed.

Lemma negb_bool_decide_false (P : Prop) `{Decision P} :
  negb (bool_decide P) = false <-> P.
Proof. rewrite negb_false_iff. apply bool_decide_eq_true. Qed.

Lemma mandal_differs (a b : IkpMandalsPage.MandalDialog.MandalFormData) :
  IkpMandalsPage.MandalDialog.districtId a = IkpMandalsPage.MandalDialog.districtId b ->
  a <> b <->
  IkpMandalsPage.MandalDialog.name a <> IkpMandalsPage.MandalDialog.name b
  \/ IkpMandalsPage.MandalDialog.isActive a <> IkpMandalsPage.MandalDialog.isActive b.
Proof.
  destruct a as [da na aa], b as [db nb ab]; simpl. intros ->. split.
  - intros Hne. destruct (decide (na = nb)) as [-> | Hn]; [ | now left ].
    right. intros ->. now apply Hne.
  - intros [H | H] E; injection E; intros; now apply H.
Qed.

Lemma district_differs (a b : IkpDistrictsPage.DistrictDialog.DistrictFormData) :
  IkpDistrictsPage.DistrictDialog.stateId a = IkpDistrictsPage.DistrictDialog.stateId b ->
  a <> b <->
  IkpDistrictsPage.DistrictDialog.name a <> IkpDistrictsPage.DistrictDialog.name b
  \/ IkpDistrictsPage.DistrictDialog.isActive a <> IkpDistrictsPage.DistrictDialog.isActive b.
Proof.
  destruct a as [da na aa], b as [db nb ab]; simpl. intros ->. split.
  - intros Hne. destruct (decide (na = nb)) as [-> | Hn]; [ | now left ].
    right. intros ->. now apply Hne.
  - intros [H | H] E; injection E; intros; now apply H.
Qed.

Lemma village_differs (a b : IkpVillagesPage.VillageDialog.VillageFormData) :
  IkpVillagesPage.VillageDialog.mandalId a = IkpVillagesPage.VillageDialog.mandalId b ->
  a <> b <->
  IkpVillagesPage.VillageDialog.name a <> IkpVillagesPage.VillageDialog.name b
  \/ IkpVillagesPage.VillageDialog.isActive a <> IkpVillagesPage.VillageDialog.isActive b.
Proof.
  destruct a as [da na aa], b as [db nb ab]; simpl. intros ->. split.
  - intros Hne. destruct (decide (na = nb)) as [-> | Hn]; [ | now left ].
    right. intros ->. now apply Hne.
  - intros [H | H] E; injection E; intros; now apply H.
Qed.

(** C5.  In the edit dialogs whose ancestor selector is disabled (mandal,
    district and village dialogs of the IKP pages, opened on the loaded row
    [initialValues]), whatever the user does the ancestor keeps its loaded
    value, and Save is enabled exactly when no save is in flight, the form is
    valid and the name or the active flag differs from the loaded row; so it
    stays disabled until one of them differs.  The IKP center dialog asks
    the same of its edit mode: Save is enabled exactly when no save is in
    flight, the form is valid and the values differ from the loaded ones. *)
Theorem locked_edit_submit_needs_change :
  (forall (initialValues : IkpMandalsPage.MandalDialog.MandalFormData)
          (isSaving : bool) (es : list IkpMandalsPage.MandalDialog.event),
     let f := IkpMandalsPage.MandalDialog.run true initialValues es in
     let now_ := IkpMandalsPage.MandalDialog.values f in
     IkpMandalsPage.MandalDialog.districtId now_
       = IkpMandalsPage.MandalDialog.districtId initialValues
     /\ (IkpMandalsPage.MandalDialog.submitDisabled true isSaving f = false <->
         isSaving = false
         /\ IkpMandalsPage.MandalDialog.mandalSchema now_ = true
         /\ (IkpMandalsPage.MandalDialog.name now_
               <> IkpMandalsPage.MandalDialog.name initialValues
             \/ IkpMandalsPage.MandalDialog.isActive now_
               <> IkpMandalsPage.MandalDialog.isActive initialValues)))
  /\ (forall (initialValues : IkpDistrictsPage.DistrictDialog.DistrictFormData)
             (isSaving : bool) (es : list IkpDistrictsPage.DistrictDialog.event),
     let f := IkpDistrictsPage.DistrictDialog.run true initialValues es in
     let now_ := IkpDistrictsPage.DistrictDialog.values f in
     IkpDistrictsPage.DistrictDialog.stateId now_
       = IkpDistrictsPage.DistrictDialog.stateId initialValues
     /\ (IkpDistrictsPage.DistrictDialog.submitDisabled true isSaving f = false <->
         isSaving = false
         /\ IkpDistrictsPage.DistrictDialog.districtSchema now_ = true
         /\ (IkpDistrictsPage.DistrictDialog.name now_
               <> IkpDistrictsPage.DistrictDialog.name initialValues
             \/ IkpDistrictsPage.DistrictDialog.isActive now_
               <> IkpDistrictsPage.DistrictDialog.isActive initialValues)))
  /\ (forall (initialValues : IkpVillagesPage.VillageDialog.VillageFormData)
             (isSaving : bool) (es : list IkpVillagesPage.VillageDialog.event),
     let f := IkpVillagesPage.VillageDialog.run true initialValues es in
     let now_ := IkpVillagesPage.VillageDialog.values f in
     IkpVillagesPage.VillageDialog.mandalId now_
       = IkpVillagesPage.VillageDialog.mandalId initialValues
     /\ (IkpVillagesPage.VillageDialog.submitDisabled true isSaving f = false <->
         isSaving = false
         /\ IkpVillagesPage.VillageDialog.villageSchema now_ = true
         /\ (IkpVillagesPage.VillageDialog.name now_
               <> IkpVillagesPage.VillageDialog.name initialValues
             \/ IkpVillagesPage.VillageDialog.isActive now_
               <> IkpVillagesPage.VillageDialog.isActive initialValues)))
  /\ (forall (isSaving : bool) (f : IkpCentersPage.IkpCenterDialog.form),
     IkpCentersPage.IkpCenterDialog.submitDisabled "Edit IKP center" isSaving f = false <->
     isSaving = false
     /\ IkpCentersPage.IkpCenterDialog.ikpCenterSchema
          (IkpCentersPage.IkpCenterDialog.values f) = true
     /\ IkpCentersPage.IkpCenterDialog.values f
        <> IkpCentersPage.IkpCenterDialog.defaultValues f).
Proof.
  split; [ | split; [ | split ] ].
  - intros initialValues isSaving es f now_.
    destruct (mandal_run_locked initialValues es) as [Hd Hk].
    fold f in Hd, Hk. fold now_ in Hk. split; [ exact Hk | ].
    unfold IkpMandalsPage.MandalDialog.submitDisabled,
      IkpMandalsPage.MandalDialog.isDirty, IkpMandalsPage.MandalDialog.isValid.
    fold now_. rewrite Hd, orb3_false, negb_false_iff, negb_bool_decide_false.
    now rewrite (mandal_differs _ _ Hk).
  - intros initialValues isSaving es f now_.
    destruct (district_run_locked initialValues es) as [Hd Hk].
    fold f in Hd, Hk. fold now_ in Hk. split; [ exact Hk | ].
    unfold IkpDistrictsPage.DistrictDialog.submitDisabled,
      IkpDistrictsPage.DistrictDialog.isDirty, IkpDistrictsPage.DistrictDialog.isValid.
    fold now_. rewrite Hd, orb3_false, negb_false_iff, negb_bool_decide_false.
    now rewrite (district_differs _ _ Hk).
  - intros initialValues isSaving es f now_.
    destruct (village_run_locked initialValues es) as [Hd Hk].
    fold f in Hd, Hk. fold now_ in Hk. split; [ exact Hk | ].
    unfold IkpVillagesPage.VillageDialog.submitDisabled,
      IkpVillagesPage.VillageDialog.isDirty, IkpVillagesPage.VillageDialog.isValid.
    fold now_. rewrite Hd, orb3_false, negb_false_iff, negb_bool_decide_false.
    now rewrite (village_differs _ _ Hk).
  - intros isSaving f.
    unfold IkpCentersPage.IkpCenterDialog.submitDisabled,
      IkpCentersPage.IkpCenterDialog.isDirty, IkpCentersPage.IkpCenterDialog.isValid.
    change (Js.startsWith "Edit" "Edit IKP center") with true. cbv iota.
    now rewrite orb3_false, negb_false_iff, negb_bool_decide_false.
Qed.

Example mandal_edit_untouched_is_disabled :
  let row := {| IkpMandalsPage.MandalDialog.districtId := "d1";
                IkpMandalsPage.MandalDialog.name := "Tenali";
                IkpMandalsPage.MandalDialog.isActive := true |} in
  IkpMandalsPage.MandalDialog.submitDisabled true false
    (IkpMandalsPage.MandalDialog.run true row []) = true
  /\ IkpMandalsPage.MandalDialog.submitDisabled true false
       (IkpMandalsPage.MandalDialog.run true row
          [IkpMandalsPage.MandalDialog.SelectDistrict (Some "d2")]) = true
  /\ IkpMandalsPage.MandalDialog.submitDisabled true false
       (IkpMandalsPage.MandalDialog.run true row
          [IkpMandalsPage.MandalDialog.TypeName "Tenali Rural"]) = false
  /\ IkpMandalsPage.MandalDialog.submitDisabled true false
       (IkpMandalsPage.MandalDialog.run true row
          [IkpMandalsPage.MandalDialog.TypeName "Tenali Rural";
           IkpMandalsPage.MandalDialog.TypeName "Tenali"]) = true.
Proof. vm_compute. repeat split. Qed.

(** ** Submit buttons and schema validation *)

Lemma villageSchema_true (d : LocationsVillageDialog.VillageFormData) :
  LocationsVillageDialog.villageSchema d = true <->
  LocationsVillageDialog.stateId d <> "" /\ LocationsVillageDialog.districtId d <> ""
  /\ LocationsVillageDialog.mandalId d <> "" /\ LocationsVillageDialog.name d <> "".
Proof.
  unfold LocationsVillageDialog.villageSchema.
  rewrite !andb_true_iff, !zod_min_1. tauto.
Qed.

Lemma locations_mandalSchema_true (d : LocationsMandalDialog.MandalFormData) :
  LocationsMandalDialog.mandalSchema d = true <->
  LocationsMandalDialog.stateId d <> "" /\ LocationsMandalDialog.districtId d <> ""
  /\ LocationsMandalDialog.name d <> "".
Proof.
  unfold LocationsMandalDialog.mandalSchema.
  rewrite !andb_true_iff, !zod_min_1. tauto.
Qed.

Lemma locations_districtSchema_true (d : LocationsDistrictDialog.DistrictFormData) :
  LocationsDistrictDialog.districtSchema d = true <->
  LocationsDistrictDialog.stateId d <> "" /\ LocationsDistrictDialog.name d <> "".
Proof.
  unfold LocationsDistrictDialog.districtSchema.
  rewrite !andb_true_iff, !zod_min_1. tauto.
Qed.

Lemma ikp_districtSchema_true (d : IkpDistrictsPage.DistrictDialog.DistrictFormData) :
  IkpDistrictsPage.DistrictDialog.districtSchema d = true <->
  IkpDistrictsPage.DistrictDialog.stateId d <> ""
  /\ IkpDistrictsPage.DistrictDialog.name d <> ""
  /\ String.length (IkpDistrictsPage.DistrictDialog.name d) <= 100.
Proof.
  unfold IkpDistrictsPage.DistrictDialog.districtSchema, Zod.max.
  rewrite !andb_true_iff, !zod_min_1, Nat.leb_le. tauto.
Qed.

Lemma ikp_mandalSchema_true (d : IkpMandalsPage.MandalDialog.MandalFormData) :
  IkpMandalsPage.MandalDialog.mandalSchema d = true <->
  IkpMandalsPage.MandalDialog.districtId d <> ""
  /\ IkpMandalsPage.MandalDialog.name d <> ""
  /\ String.length (IkpMandalsPage.MandalDialog.name d) <= 100.
Proof.
  unfold IkpMandalsPage.MandalDialog.mandalSchema, Zod.max.
  rewrite !andb_true_iff, !zod_min_1, Nat.leb_le. tauto.
Qed.

Lemma ikp_villageSchema_true (d : IkpVillagesPage.VillageDialog.VillageFormData) :
  IkpVillagesPage.VillageDialog.villageSchema d = true <->
  IkpVillagesPage.VillageDialog.mandalId d <> ""
  /\ IkpVillagesPage.VillageDialog.name d <> ""
  /\ String.length (IkpVillagesPage.VillageDialog.name d) <= 100.
Proof.
  unfold IkpVillagesPage.VillageDialog.villageSchema, Zod.max.
  rewrite !andb_true_iff, !zod_min_1, Nat.leb_le. tauto.
Qed.

Lemma ikpCenterSchema_true (d : IkpCentersPage.IkpCenterDialog.IkpCenterFormData) :
  IkpCentersPage.IkpCenterDialog.ikpCenterSchema d = true <->
  IkpCentersPage.IkpCenterDialog.stateId d <> ""
  /\ IkpCentersPage.IkpCenterDialog.districtId d <> ""
  /\ IkpCentersPage.IkpCenterDialog.mandalId d <> ""
  /\ IkpCentersPage.IkpCenterDialog.villageId d <> ""
  /\ IkpCentersPage.IkpCenterDialog.name d <> "".
Proof.
  unfold IkpCentersPage.IkpCenterDialog.ikpCenterSchema.
  rewrite !andb_true_iff, !zod_min_1. tauto.
Qed.

(** A disabled flag that starts with [isSaving || !isValid]. *)
Lemma saving_or_invalid_disables (isSaving valid rest : bool) :
  (isSaving = true \/ valid = false -> isSaving || negb valid || rest = true)
  /\ (isSaving || negb valid || rest = false -> isSaving = false /\ valid = true).
Proof. destruct isSaving, valid, rest; simpl; intuition congruence. Qed.

Lemma saving_or_invalid_disables2 (isSaving valid : bool) :
  (isSaving = true \/ valid = false -> isSaving || negb valid = true)
  /\ (isSaving || negb valid = false <-> isSaving = false /\ valid = true).
Proof. destruct isSaving, valid; simpl; intuition congruence. Qed.

(** C6.  The claim fails on the village, mandal and IKP-center dialogs of
    the Locations pages.  With every field filled in, Save is enabled; the
    user then picks another State: the handler empties the selections below
    it with [setValue], which does not run the resolver, so [isValid] keeps
    the outcome of the run that [field.onChange] started on the values it
    saw.  Save stays enabled although the District (and what is below it) is
    empty and the schema rejects the values.  A click then sends nothing:
    [handleSubmit] runs the resolver itself.  The flag is refreshed by the
    next change a field reports. *)
Theorem stale_validity_leaves_save_enabled :
  let states := [andhraPradesh; telangana] in
  let districts := [guntur; warangal] in
  let mandals := [tenaliMandal] in
  let filled := LocationsVillageDialog.run states districts mandals
                  LocationsVillagesPage.create_initialValues
                  [LocationsVillageDialog.StatePicked 0;
                   LocationsVillageDialog.DistrictPicked 0;
                   LocationsVillageDialog.MandalPicked 0;
                   LocationsVillageDialog.NameTyped "Kothur"] in
  let fv := LocationsVillageDialog.step states districts mandals
              LocationsVillagesPage.create_initialValues
              (LocationsVillageDialog.StatePicked 1) filled in
  let fm := LocationsMandalDialog.run states districts
              LocationsMandalsPage.create_initialValues
              [LocationsMandalDialog.StatePicked 0;
               LocationsMandalDialog.DistrictPicked 0;
               LocationsMandalDialog.NameTyped "Tenali";
               LocationsMandalDialog.StatePicked 1] in
  let fc := LocationsIkpCenterDialog.onStateChange "TG"
              (LocationsIkpCenterDialog.reset kothurCenter) in
  (LocationsVillageDialog.villageSchema (LocationsVillageDialog.values filled) = true
   /\ LocationsVillageDialog.submitDisabled false filled = false)
  /\ (LocationsVillageDialog.stateId (LocationsVillageDialog.values fv) = "TG"
      /\ LocationsVillageDialog.districtId (LocationsVillageDialog.values fv) = ""
      /\ LocationsVillageDialog.mandalId (LocationsVillageDialog.values fv) = ""
      /\ LocationsVillageDialog.villageSchema (LocationsVillageDialog.values fv) = false
      /\ LocationsVillageDialog.submitDisabled false fv = false
      /\ LocationsVillageDialog.submit false fv = None
      /\ LocationsVillageDialog.submitDisabled false
           (LocationsVillageDialog.step states districts mandals
              LocationsVillagesPage.create_initialValues
              (LocationsVillageDialog.NameTyped "Kothuru") fv) = true)
  /\ (LocationsMandalDialog.districtId (LocationsMandalDialog.values fm) = ""
      /\ LocationsMandalDialog.mandalSchema (LocationsMandalDialog.values fm) = false
      /\ LocationsMandalDialog.submitDisabled false fm = false
      /\ LocationsMandalDialog.submit false fm = None)
  /\ (LocationsIkpCenterDialog.districtId (LocationsIkpCenterDialog.values fc) = ""
      /\ LocationsIkpCenterDialog.ikpCenterSchema (LocationsIkpCenterDialog.values fc) = false
      /\ forall title, LocationsIkpCenterDialog.submitDisabled title false fc = false).
Proof.
  intros states districts mandals filled fv fm fc.
  split; [ split; reflexivity | ].
  split; [ repeat split | ].
  split; [ repeat split | ].
  split; [ reflexivity | split; [ reflexivity | ] ].
  intros title. unfold LocationsIkpCenterDialog.submitDisabled.
  destruct (Js.startsWith "Edit" title); reflexivity.
Qed.

(** X17.  Where the validity flag is kept current (the district dialog of
    the Locations pages, the district, mandal and village dialogs of the IKP
    pages and the IKP center dialog of the IKP centers page), in every form
    state: Save is disabled when the schema rejects the values (so, in
    particular, when a required name or ancestor id is empty) or a save is
    in flight; and when Save is enabled, no save is in flight, the schema
    accepts the values and every required field is non-empty.  In the
    village and mandal dialogs of the Locations pages, whatever the flag
    says, a save in flight disables Save, a click hands [onSave] only values
    the schema accepts, and right after a field reported a change Save is
    enabled exactly when no save is in flight and the schema accepts the
    values. *)
Theorem submit_disabled_where_validity_is_current (isSaving : bool) :
  (forall f : LocationsDistrictDialog.form,
     let d := LocationsDistrictDialog.values f in
     (isSaving = true \/ LocationsDistrictDialog.districtSchema d = false ->
        LocationsDistrictDialog.submitDisabled isSaving f = true)
     /\ (LocationsDistrictDialog.stateId d = "" \/ LocationsDistrictDialog.name d = "" ->
        LocationsDistrictDialog.submitDisabled isSaving f = true)
     /\ (LocationsDistrictDialog.submitDisabled isSaving f = false ->
        isSaving = false /\ LocationsDistrictDialog.districtSchema d = true
        /\ LocationsDistrictDialog.stateId d <> "" /\ LocationsDistrictDialog.name d <> ""))
  /\ (forall (disableState : bool) (f : IkpDistrictsPage.DistrictDialog.form),
     let d := IkpDistrictsPage.DistrictDialog.values f in
     (isSaving = true \/ IkpDistrictsPage.DistrictDialog.districtSchema d = false ->
        IkpDistrictsPage.DistrictDialog.submitDisabled disableState isSaving f = true)
     /\ (IkpDistrictsPage.DistrictDialog.stateId d = ""
         \/ IkpDistrictsPage.DistrictDialog.name d = "" ->
        IkpDistrictsPage.DistrictDialog.submitDisabled disableState isSaving f = true)
     /\ (IkpDistrictsPage.DistrictDialog.submitDisabled disableState isSaving f = false ->
        isSaving = false /\ IkpDistrictsPage.DistrictDialog.districtSchema d = true
        /\ IkpDistrictsPage.DistrictDialog.stateId d <> ""
        /\ IkpDistrictsPage.DistrictDialog.name d <> ""))
  /\ (forall (disableDistrict : bool) (f : IkpMandalsPage.MandalDialog.form),
     let d := IkpMandalsPage.MandalDialog.values f in
     (isSaving = true \/ IkpMandalsPage.MandalDialog.mandalSchema d = false ->
        IkpMandalsPage.MandalDialog.submitDisabled disableDistrict isSaving f = true)
     /\ (IkpMandalsPage.MandalDialog.districtId d = ""
         \/ IkpMandalsPage.MandalDialog.name d = "" ->
        IkpMandalsPage.MandalDialog.submitDisabled disableDistrict isSaving f = true)
     /\ (IkpMandalsPage.MandalDialog.submitDisabled disableDistrict isSaving f = false ->
        isSaving = false /\ IkpMandalsPage.MandalDialog.mandalSchema d = true
        /\ IkpMandalsPage.MandalDialog.districtId d <> ""
        /\ IkpMandalsPage.MandalDialog.name d <> ""))
  /\ (forall (disableMandal : bool) (f : IkpVillagesPage.VillageDialog.form),
     let d := IkpVillagesPage.VillageDialog.values f in
     (isSaving = true \/ IkpVillagesPage.VillageDialog.villageSchema d = false ->
        IkpVillagesPage.VillageDialog.submitDisabled disableMandal isSaving f = true)
     /\ (IkpVillagesPage.VillageDialog.mandalId d = ""
         \/ IkpVillagesPage.VillageDialog.name d = "" ->
        IkpVillagesPage.VillageDialog.submitDisabled disableMandal isSaving f = true)
     /\ (IkpVillagesPage.VillageDialog.submitDisabled disableMandal isSaving f = false ->
        isSaving = false /\ IkpVillagesPage.VillageDialog.villageSchema d = true
        /\ IkpVillagesPage.VillageDialog.mandalId d <> ""
        /\ IkpVillagesPage.VillageDialog.name d <> ""))
  /\ (forall (title : string) (f : IkpCentersPage.IkpCenterDialog.form),
     let d := IkpCentersPage.IkpCenterDialog.values f in
     (isSaving = true \/ IkpCentersPage.IkpCenterDialog.ikpCenterSchema d = false ->
        IkpCentersPage.IkpCenterDialog.submitDisabled title isSaving f = true)
     /\ (IkpCentersPage.IkpCenterDialog.villageId d = ""
         \/ IkpCentersPage.IkpCenterDialog.name d = "" ->
        IkpCentersPage.IkpCenterDialog.submitDisabled title isSaving f = true)
     /\ (IkpCentersPage.IkpCenterDialog.submitDisabled title isSaving f = false ->
        isSaving = false /\ IkpCentersPage.IkpCenterDialog.ikpCenterSchema d = true
        /\ IkpCentersPage.IkpCenterDialog.villageId d <> ""
        /\ IkpCentersPage.IkpCenterDialog.name d <> ""))
  /\ (forall f : LocationsVillageDialog.form,
     (isSaving = true -> LocationsVillageDialog.submitDisabled isSaving f = true)
     /\ (forall d, LocationsVillageDialog.submit isSaving f = Some d ->
          isSaving = false /\ d = LocationsVillageDialog.values f
          /\ LocationsVillageDialog.villageSchema d = true
          /\ LocationsVillageDialog.stateId d <> "" /\ LocationsVillageDialog.districtId d <> ""
          /\ LocationsVillageDialog.mandalId d <> "" /\ LocationsVillageDialog.name d <> "")
     /\ (forall g,
          let f' := LocationsVillageDialog.field_onChange g f in
          LocationsVillageDialog.submitDisabled isSaving f' = false <->
          isSaving = false
          /\ LocationsVillageDialog.villageSchema (LocationsVillageDialog.values f') = true))
  /\ (forall f : LocationsMandalDialog.form,
     (isSaving = true -> LocationsMandalDialog.submitDisabled isSaving f = true)
     /\ (forall d, LocationsMandalDialog.submit isSaving f = Some d ->
          isSaving = false /\ d = LocationsMandalDialog.values f
          /\ LocationsMandalDialog.mandalSchema d = true
          /\ LocationsMandalDialog.stateId d <> "" /\ LocationsMandalDialog.districtId d <> ""
          /\ LocationsMandalDialog.name d <> "")
     /\ (forall g,
          let f' := LocationsMandalDialog.field_onChange g f in
          LocationsMandalDialog.submitDisabled isSaving f' = false <->
          isSaving = false
          /\ LocationsMandalDialog.mandalSchema (LocationsMandalDialog.values f') = true)).
Proof.
  split; [ | split; [ | split; [ | split; [ | split; [ | split ] ] ] ] ].
  - intros f d.
    unfold LocationsDistrictDialog.submitDisabled, LocationsDistrictDialog.isValid. fold d.
    destruct (saving_or_invalid_disables2 isSaving (LocationsDistrictDialog.districtSchema d))
      as [Ha Hb].
    pose proof (locations_districtSchema_true d) as Hs.
    split; [ exact Ha | split ].
    + intros Hempty. apply Ha. right.
      destruct (LocationsDistrictDialog.districtSchema d); [ | reflexivity ].
      exfalso. destruct Hs as [Hs _]. specialize (Hs eq_refl). tauto.
    + intros Hen. apply Hb in Hen. destruct Hen as [H1 H2].
      split; [ exact H1 | split; [ exact H2 | now apply Hs ] ].
  - intros disableState f d.
    unfold IkpDistrictsPage.DistrictDialog.submitDisabled,
      IkpDistrictsPage.DistrictDialog.isValid. fold d.
    destruct (saving_or_invalid_disables isSaving
                (IkpDistrictsPage.DistrictDialog.districtSchema d)
                (if disableState then negb (IkpDistrictsPage.DistrictDialog.isDirty f)
                 else false)) as [Ha Hb].
    pose proof (ikp_districtSchema_true d) as Hs.
    split; [ exact Ha | split ].
    + intros Hempty. apply Ha. right.
      destruct (IkpDistrictsPage.DistrictDialog.districtSchema d); [ | reflexivity ].
      exfalso. destruct Hs as [Hs _]. specialize (Hs eq_refl). tauto.
    + intros Hen. apply Hb in Hen. destruct Hen as [H1 H2].
      split; [ exact H1 | split; [ exact H2 | ] ]. apply Hs in H2. tauto.
  - intros disableDistrict f d.
    unfold IkpMandalsPage.MandalDialog.submitDisabled,
      IkpMandalsPage.MandalDialog.isValid. fold d.
    destruct (saving_or_invalid_disables isSaving
                (IkpMandalsPage.MandalDialog.mandalSchema d)
                (if disableDistrict then negb (IkpMandalsPage.MandalDialog.isDirty f)
                 else false)) as [Ha Hb].
    pose proof (ikp_mandalSchema_true d) as Hs.
    split; [ exact Ha | split ].
    + intros Hempty. apply Ha. right.
      destruct (IkpMandalsPage.MandalDialog.mandalSchema d); [ | reflexivity ].
      exfalso. destruct Hs as [Hs _]. specialize (Hs eq_refl). tauto.
    + intros Hen. apply Hb in Hen. destruct Hen as [H1 H2].
      split; [ exact H1 | split; [ exact H2 | ] ]. apply Hs in H2. tauto.
  - intros disableMandal f d.
    unfold IkpVillagesPage.VillageDialog.submitDisabled,
      IkpVillagesPage.VillageDialog.isValid. fold d.
    destruct (saving_or_invalid_disables isSaving
                (IkpVillagesPage.VillageDialog.villageSchema d)
                (if disableMandal then negb (IkpVillagesPage.VillageDialog.isDirty f)
                 else false)) as [Ha Hb].
    pose proof (ikp_villageSchema_true d) as Hs.
    split; [ exact Ha | split ].
    + intros Hempty. apply Ha. right.
      destruct (IkpVillagesPage.VillageDialog.villageSchema d); [ | reflexivity ].
      exfalso. destruct Hs as [Hs _]. specialize (Hs eq_refl). tauto.
    + intros Hen. apply Hb in Hen. destruct Hen as [H1 H2].
      split; [ exact H1 | split; [ exact H2 | ] ]. apply Hs in H2. tauto.
  - intros title f d.
    unfold IkpCentersPage.IkpCenterDialog.submitDisabled,
      IkpCentersPage.IkpCenterDialog.isValid. fold d.
    destruct (saving_or_invalid_disables isSaving
                (IkpCentersPage.IkpCenterDialog.ikpCenterSchema d)
                (if Js.startsWith "Edit" title
                 then negb (IkpCentersPage.IkpCenterDialog.isDirty f)
                 else false)) as [Ha Hb].
    pose proof (ikpCenterSchema_true d) as Hs.
    split; [ exact Ha | split ].
    + intros Hempty. apply Ha. right.
      destruct (IkpCentersPage.IkpCenterDialog.ikpCenterSchema d); [ | reflexivity ].
      exfalso. destruct Hs as [Hs _]. specialize (Hs eq_refl). tauto.
    + intros Hen. apply Hb in Hen. destruct Hen as [H1 H2].
      split; [ exact H1 | split; [ exact H2 | ] ]. apply Hs in H2. tauto.
  - intros f. split; [ | split ].
    + intros ->. reflexivity.
    + intros d Hsub.
      unfold LocationsVillageDialog.submit, LocationsVillageDialog.submitDisabled in Hsub.
      destruct isSaving; [ discriminate | ].
      destruct (LocationsVillageDialog.isValid f); [ | discriminate ]. simpl in Hsub.
      destruct (LocationsVillageDialog.villageSchema (LocationsVillageDialog.values f))
        eqn:Hv; [ | discriminate ].
      injection Hsub as <-.
      split; [ reflexivity | split; [ reflexivity | split; [ exact Hv | ] ] ].
      now apply villageSchema_true.
    + intros g f'. unfold LocationsVillageDialog.submitDisabled. simpl.
      apply saving_or_invalid_disables2.
  - intros f. split; [ | split ].
    + intros ->. reflexivity.
    + intros d Hsub.
      unfold LocationsMandalDialog.submit, LocationsMandalDialog.submitDisabled in Hsub.
      destruct isSaving; [ discriminate | ].
      destruct (LocationsMandalDialog.isValid f); [ | discriminate ]. simpl in Hsub.
      destruct (LocationsMandalDialog.mandalSchema (LocationsMandalDialog.values f))
        eqn:Hv; [ | discriminate ].
      injection Hsub as <-.
      split; [ reflexivity | split; [ reflexivity | split; [ exact Hv | ] ] ].
      now apply locations_mandalSchema_true.
    + intros g f'. unfold LocationsMandalDialog.submitDisabled. simpl.
      apply saving_or_invalid_disables2.
Qed.

Lemma submit_disabled_where_validity_is_current_witness :
  let f := LocationsVillageDialog.run [andhraPradesh; telangana] [guntur; warangal]
             [tenaliMandal] LocationsVillagesPage.create_initialValues
             [LocationsVillageDialog.StatePicked 0;
              LocationsVillageDialog.DistrictPicked 0;
              LocationsVillageDialog.MandalPicked 0;
              LocationsVillageDialog.NameTyped "Kothur"] in
  exists d,
    LocationsVillageDialog.submit false f = Some d
    /\ LocationsVillageDialog.mandalId d = "m1"
    /\ LocationsVillageDialog.villageSchema d = true.
Proof.
  intros f.
  destruct (submit_disabled_where_validity_is_current false)
    as (_ & _ & _ & _ & _ & Hv & _).
  destruct (Hv f) as (_ & Hsub & _).
  eexists. split; [ reflexivity | ].
  destruct (Hsub _ eq_refl) as (_ & _ & Hs & _).
  split; [ reflexivity | exact Hs ].
Defined.

(** ** Bulk upload *)

(** C7.  In both bulk-upload dialogs the Upload button is disabled unless
    the parent id is non-empty and the text has a character that is not
    white space; and whenever a click goes through, the remote call gets the
    parent id and the text of the dialog state as they are. *)
Theorem bulk_upload_gate_and_payload (isUploading : bool) :
  (forall st : LocationsMandalsPage.BulkUploadMandalsDialog.State,
     let parentId := LocationsMandalsPage.BulkUploadMandalsDialog.districtId st in
     let text := LocationsMandalsPage.BulkUploadMandalsDialog.items st in
     (parentId = "" \/ Js.blank text = true ->
        LocationsMandalsPage.BulkUploadMandalsDialog.uploadDisabled isUploading st = true
        /\ LocationsMandalsPage.clickUpload isUploading st = None)
     /\ (LocationsMandalsPage.BulkUploadMandalsDialog.uploadDisabled isUploading st = false <->
         parentId <> "" /\ Js.blank text = false /\ isUploading = false)
     /\ (forall call, LocationsMandalsPage.clickUpload isUploading st = Some call ->
                      call = LocationsMandalsPage.bulkUploadMandals parentId text)
     /\ (LocationsMandalsPage.BulkUploadMandalsDialog.uploadDisabled isUploading st = false ->
         LocationsMandalsPage.clickUpload isUploading st
         = Some (LocationsMandalsPage.bulkUploadMandals parentId text)))
  /\ (forall st : LocationsVillagesPage.BulkUploadVillagesDialog.State,
     let parentId := LocationsVillagesPage.BulkUploadVillagesDialog.mandalId st in
     let text := LocationsVillagesPage.BulkUploadVillagesDialog.items st in
     (parentId = "" \/ Js.blank text = true ->
        LocationsVillagesPage.BulkUploadVillagesDialog.uploadDisabled isUploading st = true
        /\ LocationsVillagesPage.clickUpload isUploading st = None)
     /\ (LocationsVillagesPage.BulkUploadVillagesDialog.uploadDisabled isUploading st = false <->
         parentId <> "" /\ Js.blank text = false /\ isUploading = false)
     /\ (forall call, LocationsVillagesPage.clickUpload isUploading st = Some call ->
                      call = LocationsVillagesPage.bulkUploadVillages parentId text)
     /\ (LocationsVillagesPage.BulkUploadVillagesDialog.uploadDisabled isUploading st = false ->
         LocationsVillagesPage.clickUpload isUploading st
         = Some (LocationsVillagesPage.bulkUploadVillages parentId text))).
Proof.
  split.
  - intros st parentId text.
    assert (Hgate :
      LocationsMandalsPage.BulkUploadMandalsDialog.uploadDisabled isUploading st = false <->
      parentId <> "" /\ Js.blank text = false /\ isUploading = false).
    { unfold LocationsMandalsPage.BulkUploadMandalsDialog.uploadDisabled.
      fold parentId text.
      rewrite orb3_false, !negb_false_iff, truthy_true, truthy_trim, negb_true_iff.
      tauto. }
    unfold LocationsMandalsPage.clickUpload, LocationsMandalsPage.onUpload.
    fold parentId text.
    destruct (LocationsMandalsPage.BulkUploadMandalsDialog.uploadDisabled isUploading st)
      eqn:Hd.
    + split; [ intros _; now split | ].
      split; [ exact Hgate | ].
      split; [ intros call H; discriminate H | intros H; discriminate H ].
    + destruct Hgate as [Hg _]. destruct (Hg eq_refl) as (Hp & Hb & Hu).
      split; [ intros [H | H]; congruence | ].
      split; [ split; [ intros _; now repeat split | reflexivity ] | ].
      split; [ intros call H; now injection H | reflexivity ].
  - intros st parentId text.
    assert (Hgate :
      LocationsVillagesPage.BulkUploadVillagesDialog.uploadDisabled isUploading st = false <->
      parentId <> "" /\ Js.blank text = false /\ isUploading = false).
    { unfold LocationsVillagesPage.BulkUploadVillagesDialog.uploadDisabled.
      fold parentId text.
      rewrite orb3_false, !negb_false_iff, truthy_true, truthy_trim, negb_true_iff.
      tauto. }
    unfold LocationsVillagesPage.clickUpload, LocationsVillagesPage.onUpload.
    fold parentId text.
    destruct (LocationsVillagesPage.BulkUploadVillagesDialog.uploadDisabled isUploading st)
      eqn:Hd.
    + split; [ intros _; now split | ].
      split; [ exact Hgate | ].
      split; [ intros call H; discriminate H | intros H; discriminate H ].
    + destruct Hgate as [Hg _]. destruct (Hg eq_refl) as (Hp & Hb & Hu).
      split; [ intros [H | H]; congruence | ].
      split; [ split; [ intros _; now repeat split | reflexivity ] | ].
      split; [ intros call H; now injection H | reflexivity ].
Qed.

Lemma bulk_upload_gate_and_payload_witness :
  let st := {| LocationsMandalsPage.BulkUploadMandalsDialog.stateId := "AP";
               LocationsMandalsPage.BulkUploadMandalsDialog.districtId := "d1";
               LocationsMandalsPage.BulkUploadMandalsDialog.items := "Tenali, Bapatla" |} in
  LocationsMandalsPage.BulkUploadMandalsDialog.uploadDisabled false st = false
  /\ LocationsMandalsPage.clickUpload false st
     = Some (LocationsMandalsPage.bulkUploadMandals "d1" "Tenali, Bapatla").
Proof.
  intros st.
  destruct (bulk_upload_gate_and_payload false) as (Hm & _).
  destruct (Hm st) as (_ & _ & _ & Hsend).
  assert (Hen : LocationsMandalsPage.BulkUploadMandalsDialog.uploadDisabled false st = false)
    by reflexivity.
  split; [ exact Hen | exact (Hsend Hen) ].
Defined.

Example bulk_upload_sends_raw_text :
  LocationsMandalsPage.clickUpload false
    {| LocationsMandalsPage.BulkUploadMandalsDialog.stateId := "AP";
       LocationsMandalsPage.BulkUploadMandalsDialog.districtId := "d1";
       LocationsMandalsPage.BulkUploadMandalsDialog.items := " Tenali, Tenali ,,Bapatla " |}
  = Some (LocationsMandalsPage.bulkUploadMandals "d1" " Tenali, Tenali ,,Bapatla ")
  /\ LocationsMandalsPage.clickUpload false
       {| LocationsMandalsPage.BulkUploadMandalsDialog.stateId := "AP";
          LocationsMandalsPage.BulkUploadMandalsDialog.districtId := "d1";
          LocationsMandalsPage.BulkUploadMandalsDialog.items := "   " |}
     = None.
Proof. split; reflexivity. Qed.

Lemma blank_false (s : string) :
  Js.blank s = false <->
  exists c, In c (list_ascii_of_string s) /\ Js.isWhiteSpace c = false.
Proof.
  induction s as [|c r IH]; simpl.
  - split; [ discriminate | intros (c & [] & _) ].
  - destruct (Js.isWhiteSpace c) eqn:W; simpl.
    + rewrite IH. split.
      * intros (x & Hx & Wx). exists x. tauto.
      * intros (x & [-> | Hx] & Wx); [ congruence | exists x; tauto ].
    + split; [ intros _; exists c; tauto | reflexivity ].
Qed.

(** ** Toggling a filter *)

Lemma select_same (x : string) : GroupedCombobox.select x x = "".
Proof. unfold GroupedCombobox.select, Js.strictEq. now rewrite String.eqb_refl. Qed.

Lemma select_other (value picked : string) :
  value <> picked -> GroupedCombobox.select value picked = picked.
Proof.
  intros H. unfold GroupedCombobox.select, Js.strictEq.
  destruct (String.eqb_spec picked value) as [E | E]; [ congruence | reflexivity ].
Qed.

Lemma toggled_same (x : string) : IkpMandalsPage.toggled (Some x) x = "".
Proof.
  unfold IkpMandalsPage.toggled, Js.strictEq. rewrite String.eqb_refl.
  now destruct (Js.truthy x).
Qed.

Lemma toggled_other (current x : string) :
  x <> "" -> current <> x -> IkpMandalsPage.toggled (Some x) current = x.
Proof.
  intros Hx Hc. unfold IkpMandalsPage.toggled, Js.strictEq.
  apply truthy_true in Hx. rewrite Hx.
  destruct (String.eqb_spec x current) as [E | E]; [ congruence | reflexivity ].
Qed.

(** C8.  In the filter bars of the Locations pages, picking the value a
    filter already holds clears it, so picking a value that the filter does
    not hold twice in a row leaves the filter empty (the filters below it
    are cleared each time).  The state and district selects of the IKP
    mandals page and the state select of the IKP districts page toggle in
    the same way, in the page's own handler. *)
Theorem filter_toggle_deselects (x : string) :
  x <> "" ->
  (forall p : LocationsMandalsPage.Filters,
     (LocationsMandalsPage.stateFilter p = x ->
        LocationsMandalsPage.stateFilter (pickStateFilter_mandals x p) = "")
     /\ (LocationsMandalsPage.districtFilter p = x ->
        LocationsMandalsPage.districtFilter (pickDistrictFilter_mandals x p) = "")
     /\ (LocationsMandalsPage.stateFilter p <> x ->
        LocationsMandalsPage.stateFilter (pickStateFilter_mandals x p) = x
        /\ LocationsMandalsPage.stateFilter
             (pickStateFilter_mandals x (pickStateFilter_mandals x p)) = ""
        /\ LocationsMandalsPage.districtFilter
             (pickStateFilter_mandals x (pickStateFilter_mandals x p)) = ""))
  /\ (forall q : LocationsVillagesPage.Filters,
     (LocationsVillagesPage.stateFilter q = x ->
        LocationsVillagesPage.stateFilter (pickStateFilter_villages x q) = "")
     /\ (LocationsVillagesPage.stateFilter q <> x ->
        LocationsVillagesPage.stateFilter
          (pickStateFilter_villages x (pickStateFilter_villages x q)) = ""))
  /\ (forall st : IkpMandalsPage.State,
     (IkpMandalsPage.stateId st = x ->
        IkpMandalsPage.stateId (IkpMandalsPage.onStateFilterChange (Some x) st) = "")
     /\ (IkpMandalsPage.stateId st <> x ->
        IkpMandalsPage.stateId
          (IkpMandalsPage.onStateFilterChange (Some x)
             (IkpMandalsPage.onStateFilterChange (Some x) st)) = "")
     /\ (IkpMandalsPage.districtId st <> x ->
        IkpMandalsPage.districtId
          (IkpMandalsPage.onDistrictFilterChange (Some x)
             (IkpMandalsPage.onDistrictFilterChange (Some x) st)) = ""))
  /\ (forall st : IkpDistrictsPage.State,
     (IkpDistrictsPage.stateId st = x ->
        IkpDistrictsPage.stateId (IkpDistrictsPage.onStateFilterChange (Some x) st) = "")
     /\ (IkpDistrictsPage.stateId st <> x ->
        IkpDistrictsPage.stateId
          (IkpDistrictsPage.onStateFilterChange (Some x)
             (IkpDistrictsPage.onStateFilterChange (Some x) st)) = "")).
Proof.
  intros Hx. split; [ | split; [ | split ] ].
  - intros p. unfold pickStateFilter_mandals, pickDistrictFilter_mandals. simpl.
    split; [ intros ->; apply select_same | ].
    split; [ intros ->; apply select_same | ].
    intros Hne. rewrite (select_other _ _ Hne).
    split; [ reflexivity | split; [ apply select_same | reflexivity ] ].
  - intros q. unfold pickStateFilter_villages. simpl.
    split; [ intros ->; apply select_same | ].
    intros Hne. rewrite (select_other _ _ Hne). apply select_same.
  - intros st.
    unfold IkpMandalsPage.onStateFilterChange, IkpMandalsPage.onDistrictFilterChange.
    cbn [IkpMandalsPage.stateId IkpMandalsPage.districtId].
    split; [ intros ->; apply toggled_same | ].
    split; intros Hne; rewrite (toggled_other _ _ Hx Hne); apply toggled_same.
  - intros st. unfold IkpDistrictsPage.onStateFilterChange.
    cbn [IkpDistrictsPage.stateId].
    change IkpDistrictsPage.toggled with IkpMandalsPage.toggled.
    split; [ intros ->; apply toggled_same | ].
    intros Hne; rewrite (toggled_other _ _ Hx Hne); apply toggled_same.
Qed.

Lemma filter_toggle_deselects_witness :
  let p := {| LocationsMandalsPage.stateFilter := "";
              LocationsMandalsPage.districtFilter := "" |} in
  "AP" <> ""
  /\ LocationsMandalsPage.stateFilter (pickStateFilter_mandals "AP" p) = "AP"
  /\ LocationsMandalsPage.stateFilter
       (pickStateFilter_mandals "AP" (pickStateFilter_mandals "AP" p)) = "".
Proof.
  intros p.
  assert (Hx : "AP" <> "") by discriminate.
  destruct (filter_toggle_deselects "AP" Hx) as (Hm & _).
  destruct (Hm p) as (_ & _ & Htwice).
  assert (Hne : LocationsMandalsPage.stateFilter p <> "AP") by discriminate.
  destruct (Htwice Hne) as (H1 & H2 & _).
  split; [ exact Hx | split; [ exact H1 | exact H2 ] ].
Defined.

(** ** Generated codes *)

Lemma upperChar_base36 (c : ascii) :
  base36Digit c = true -> upperBase36Digit (Js.upperChar c) = true.
Proof.
  destruct c as [[] [] [] [] [] [] [] []]; vm_compute; intros H;
    first [ reflexivity | discriminate H ].
Qed.

Lemma toUpperCase_length (s : string) :
  String.length (Js.toUpperCase s) = String.length s.
Proof. induction s as [|c r IH]; simpl; [ reflexivity | now rewrite IH ]. Qed.

Lemma toUpperCase_base36 (s : string) :
  allChars base36Digit s = true -> allChars upperBase36Digit (Js.toUpperCase s) = true.
Proof.
  induction s as [|c r IH]; simpl; [ reflexivity | ].
  rewrite !andb_true_iff. intros [Hc Hr]. split; [ now apply upperChar_base36 | now apply IH ].
Qed.

Lemma substring_0_length (m : nat) (s : string) :
  String.length (String.substring 0 m s) = Nat.min m (String.length s).
Proof.
  revert s. induction m as [|m IH]; intros s.
  - destruct s; reflexivity.
  - destruct s as [|c r]; simpl; [ reflexivity | now rewrite IH ].
Qed.

Lemma substring_0_allChars (p : ascii -> bool) (m : nat) (s : string) :
  allChars p s = true -> allChars p (String.substring 0 m s) = true.
Proof.
  revert s. induction m as [|m IH]; intros s.
  - destruct s; reflexivity.
  - destruct s as [|c r]; simpl; [ reflexivity | ].
    rewrite !andb_true_iff. intros [Hc Hr]. split; [ exact Hc | now apply IH ].
Qed.

Lemma length_of_append (a b : string) :
  String.length (a +:+ b) = String.length a + String.length b.
Proof. induction a as [|c r IH]; simpl; [ reflexivity | now rewrite IH ]. Qed.

(** The generated code is the prefix and at most six characters. *)
Lemma generateCode_length (prefix rnd36 : string) :
  String.length (generateCode prefix rnd36)
  = String.length prefix + Nat.min 6 (String.length rnd36 - 2).
Proof.
  unfold generateCode. rewrite length_of_append, toUpperCase_length. f_equal.
  change (Js.substring 2 8 rnd36) with (String.substring 2 6 rnd36).
  destruct rnd36 as [|c0 [|c1 r]]; try reflexivity.
  change (String.substring 2 6 (String c0 (String c1 r))) with (String.substring 0 6 r).
  rewrite substring_0_length.
  change (String.length (String c0 (String c1 r))) with (S (S (String.length r))).
  f_equal. lia.
Qed.

(** X2.  When the rendering of the random number has six digits or more
    after ["0."], the generated code is the prefix and six upper-case
    base-36 digits. *)
Lemma generateCode_shape (prefix rnd36 : string) :
  isRandom36 rnd36 = true ->
  8 <= String.length rnd36 ->
  exists six,
    generateCode prefix rnd36 = prefix +:+ six
    /\ String.length six = 6
    /\ allChars upperBase36Digit six = true.
Proof.
  intros Hr Hl. exists (Js.toUpperCase (Js.substring 2 8 rnd36)).
  split; [ reflexivity | ].
  destruct rnd36 as [|c0 [|c1 [|c2 r]]]; try (simpl in Hl; lia).
  assert (Hd : allChars base36Digit (String c2 r) = true).
  { unfold isRandom36 in Hr.
    destruct (Ascii.ascii_dec c0 "0") as [-> | N0];
      [ destruct (Ascii.ascii_dec c1 ".") as [-> | N1]; [ exact Hr | ] | ].
    - destruct c1 as [[] [] [] [] [] [] [] []]; try discriminate Hr; now elim N1.
    - destruct c0 as [[] [] [] [] [] [] [] []]; try discriminate Hr; now elim N0. }
  unfold Js.substring. simpl Nat.min. simpl Nat.max. simpl Nat.sub.
  change (String.substring 2 6 (String c0 (String c1 (String c2 r))))
    with (String.substring 0 6 (String c2 r)).
  split.
  - rewrite toUpperCase_length, substring_0_length. simpl in Hl. simpl String.length. lia.
  - apply toUpperCase_base36, substring_0_allChars, Hd.
Qed.

(** X1.  What the create callbacks of the Locations pages do with the form
    data: a supplied code leaves the payload equal to the form data; a blank
    code is replaced by the generated one and every other field is kept; the
    code is generated from the random text alone, with no look at existing
    codes. *)
Lemma create_payload_fields (rnd36 : string) :
  (forall data : LocationsMandalDialog.MandalFormData,
     let payload := LocationsMandalsPage.create_payload rnd36 data in
     LocationsMandalDialog.stateId payload = LocationsMandalDialog.stateId data
     /\ LocationsMandalDialog.districtId payload = LocationsMandalDialog.districtId data
     /\ LocationsMandalDialog.name payload = LocationsMandalDialog.name data
     /\ LocationsMandalDialog.isActive payload = LocationsMandalDialog.isActive data
     /\ (forall c, LocationsMandalDialog.code data = Some c -> c <> "" -> payload = data)
     /\ (LocationsMandalDialog.code data = None \/ LocationsMandalDialog.code data = Some "" ->
         LocationsMandalDialog.code payload = Some (generateCode "M" rnd36)))
  /\ (forall data : LocationsVillageDialog.VillageFormData,
     let payload := LocationsVillagesPage.create_payload rnd36 data in
     LocationsVillageDialog.stateId payload = LocationsVillageDialog.stateId data
     /\ LocationsVillageDialog.districtId payload = LocationsVillageDialog.districtId data
     /\ LocationsVillageDialog.mandalId payload = LocationsVillageDialog.mandalId data
     /\ LocationsVillageDialog.name payload = LocationsVillageDialog.name data
     /\ LocationsVillageDialog.pincode payload = LocationsVillageDialog.pincode data
     /\ LocationsVillageDialog.isActive payload = LocationsVillageDialog.isActive data
     /\ (forall c, LocationsVillageDialog.code data = Some c -> c <> "" -> payload = data)
     /\ (LocationsVillageDialog.code data = None \/ LocationsVillageDialog.code data = Some "" ->
         LocationsVillageDialog.code payload = Some (generateCode "V" rnd36))).
Proof.
  split.
  - intros [s d n c a] payload. subst payload.
    unfold LocationsMandalsPage.create_payload. simpl.
    destruct c as [[|c0 c] | ]; simpl; repeat split; try reflexivity.
    + intros c' H Hne. injection H as <-. now elim Hne.
    + intros [H | H]; discriminate H.
    + intros c' H. discriminate H.
  - intros [s d m n c p a] payload. subst payload.
    unfold LocationsVillagesPage.create_payload. simpl.
    destruct c as [[|c0 c] | ]; simpl; repeat split; try reflexivity.
    + intros c' H Hne. injection H as <-. now elim Hne.
    + intros [H | H]; discriminate H.
    + intros c' H. discriminate H.
Qed.

(** C9 at a short random text.  [Math.random()] may return 0.5, which reads
    ["0.i"] in radix 36, and 0, which reads ["0"]: the generated codes are
    then ["MI"] and ["VI"], two characters, and ["M"] and ["V"], one
    character, not seven; a long text gives seven. *)
Theorem short_random_text_gives_short_code :
  isRandom36 "0.i" = true /\ isRandom36 "0" = true
  /\ LocationsMandalsPage.create_onSave "0.i" blankCodeMandal
     = LocationsMandalsPage.createAdminMandal
         (LocationsMandalDialog.set_code (Some "MI") blankCodeMandal)
  /\ LocationsVillagesPage.create_onSave "0.i" blankCodeVillage
     = LocationsVillagesPage.createAdminVillage
         (LocationsVillagesPage.set_code (Some "VI") blankCodeVillage)
  /\ LocationsMandalDialog.code (LocationsMandalsPage.create_payload "0" blankCodeMandal)
     = Some "M"
  /\ String.length (generateCode "M" "0.i") = 2
  /\ String.length (generateCode "V" "0") = 1
  /\ generateCode "V" "0.4fzyo82mvyr" = "V4FZYO8".
Proof.
  split; [ reflexivity | split; [ reflexivity | ] ].
  split; [ reflexivity | split; [ reflexivity | ] ].
  split; [ reflexivity | ].
  rewrite !generateCode_length. repeat split.
Qed.

(** ** The update of an IKP village *)

Lemma edit_payload_dom (name_ : string) (isActive_ : bool) :
  dom ({[ "name" := Js.VString name_; "isActive" := Js.VBool isActive_ ]}
         : gmap string Js.value)
  = ({[ "name"; "isActive" ]} : gset string).
Proof. rewrite dom_insert_L, dom_singleton_L. reflexivity. Qed.

(** C10.  The edit callback of the IKP villages page calls the update
    endpoint with the id of the row being edited and an object whose only
    fields are [name] and [isActive], taken from the form; it has no
    [mandalId] field, and two forms that differ in [mandalId] alone make the
    same call.  With no row being edited it calls nothing. *)
Theorem village_update_omits_mandalId
    (editing : option AdminIkpVillage.t)
    (data : IkpVillagesPage.VillageDialog.VillageFormData) :
  (editing = None -> IkpVillagesPage.edit_onSave editing data = None)
  /\ (forall row, editing = Some row ->
        exists payload : gmap string Js.value,
          IkpVillagesPage.edit_onSave editing data
          = Some (IkpVillagesPage.updateAdminIkpVillage (AdminIkpVillage.id row) payload)
          /\ dom payload = ({[ "name"; "isActive" ]} : gset string)
          /\ payload !! "mandalId" = None
          /\ payload !! "name"
             = Some (Js.VString (IkpVillagesPage.VillageDialog.name data))
          /\ payload !! "isActive"
             = Some (Js.VBool (IkpVillagesPage.VillageDialog.isActive data)))
  /\ (forall otherMandalId : string,
        IkpVillagesPage.edit_onSave editing
          {| IkpVillagesPage.VillageDialog.mandalId := otherMandalId;
             IkpVillagesPage.VillageDialog.name := IkpVillagesPage.VillageDialog.name data;
             IkpVillagesPage.VillageDialog.isActive :=
               IkpVillagesPage.VillageDialog.isActive data |}
        = IkpVillagesPage.edit_onSave editing data).
Proof.
  split; [ intros ->; reflexivity | split ].
  - intros row ->. eexists. split; [ reflexivity | ].
    split; [ apply edit_payload_dom | ].
    split; [ | split ].
    + rewrite lookup_insert_ne by discriminate. now rewrite lookup_singleton_ne.
    + now rewrite lookup_insert_eq.
    + rewrite lookup_insert_ne by discriminate. now rewrite lookup_singleton_eq.
  - intros otherMandalId. destruct editing; reflexivity.
Qed.

Lemma village_update_omits_mandalId_witness :
  let row := {| AdminIkpVillage.id := "v7"; AdminIkpVillage.mandalId := "m1";
                AdminIkpVillage.name := "Kothur"; AdminIkpVillage.isActive := true |} in
  let data := {| IkpVillagesPage.VillageDialog.mandalId := "m2";
                 IkpVillagesPage.VillageDialog.name := "Kothuru";
                 IkpVillagesPage.VillageDialog.isActive := false |} in
  exists payload : gmap string Js.value,
    IkpVillagesPage.edit_onSave (Some row) data
    = Some (IkpVillagesPage.updateAdminIkpVillage "v7" payload)
    /\ payload !! "mandalId" = None
    /\ payload !! "name" = Some (Js.VString "Kothuru").
Proof.
  intros row data.
  destruct (village_update_omits_mandalId (Some row) data) as (_ & Hrow & _).
  destruct (Hrow row eq_refl) as (payload & Hcall & _ & Hm & Hn & _).
  exists payload. split; [ exact Hcall | split; [ exact Hm | exact Hn ] ].
Defined.

(** ** Successful mutations *)

(** X3.  A successful create, update or deactivate on the IKP mandals page
    shows a success toast (the message of the response, or the text of the action
    when the response has none), closes the dialog of the action,
    invalidates the mandal list and leaves the two other dialogs, and the
    rest of the page state, as they were. *)
Theorem successful_mutation_closes_and_invalidates
    (st : IkpMandalsPage.State) (res_message : option string) :
  let c := IkpMandalsPage.createMutation_settle (Fulfilled res_message) st in
  let u := IkpMandalsPage.updateMutation_settle (Fulfilled res_message) st in
  let d := IkpMandalsPage.deactivateMutation_settle (Fulfilled res_message) st in
  (IkpMandalsPage.createDialog_open (fst c) = false
   /\ IkpMandalsPage.editDialog_open (fst u) = false
   /\ IkpMandalsPage.deactivateDialog_open (fst d) = false)
  /\ (In (InvalidateQueries "adminIkpMandals") (snd c)
      /\ In (InvalidateQueries "adminIkpMandals") (snd u)
      /\ In (InvalidateQueries "adminIkpMandals") (snd d))
  /\ (forall m, res_message = Some m ->
        In (ShowToast m success) (snd c) /\ In (ShowToast m success) (snd u)
        /\ In (ShowToast m success) (snd d))
  /\ (res_message = None ->
        In (ShowToast "Mandal created." success) (snd c)
        /\ In (ShowToast "Mandal updated." success) (snd u)
        /\ In (ShowToast "Mandal deactivated." success) (snd d))
  /\ (IkpMandalsPage.editing (fst c) = IkpMandalsPage.editing st
      /\ IkpMandalsPage.deactivateTarget (fst c) = IkpMandalsPage.deactivateTarget st
      /\ IkpMandalsPage.createOpen (fst u) = IkpMandalsPage.createOpen st
      /\ IkpMandalsPage.createOpen (fst d) = IkpMandalsPage.createOpen st)
  /\ (IkpMandalsPage.deactivateTarget (fst u) = IkpMandalsPage.deactivateTarget st
      /\ IkpMandalsPage.editing (fst d) = IkpMandalsPage.editing st)
  /\ (fst c = IkpMandalsPage.setCreateOpen false st
      /\ fst u = IkpMandalsPage.setEditing None st
      /\ fst d = IkpMandalsPage.setDeactivateTarget None st).
Proof.
  intros c u d. subst c u d. simpl.
  split; [ now repeat split | ].
  split; [ repeat split; right; now left | ].
  split; [ intros m ->; repeat split; now left | ].
  split; [ intros ->; repeat split; now left | ].
  split; [ now repeat split | ].
  split; now repeat split.
Qed.

Lemma successful_mutation_closes_and_invalidates_witness :
  let st := IkpMandalsPage.setCreateOpen true IkpMandalsPage.initialState in
  IkpMandalsPage.createDialog_open st = true
  /\ IkpMandalsPage.createDialog_open
       (fst (IkpMandalsPage.createMutation_settle (Fulfilled None) st)) = false
  /\ In (ShowToast "Mandal created." success)
        (snd (IkpMandalsPage.createMutation_settle (Fulfilled None) st)).
Proof.
  intros st.
  pose proof (successful_mutation_closes_and_invalidates st None) as H.
  cbv zeta in H. destruct H as ((Hc & _) & _ & _ & Hnone & _).
  destruct (Hnone eq_refl) as (Ht & _).
  split; [ reflexivity | split; [ exact Hc | exact Ht ] ].
Defined.

(** ** The tab of the IKP master page *)

Lemma includes_In (l : list string) (v : string) :
  IkpMasterPage.includes l v = true <-> In v l.
Proof.
  unfold IkpMasterPage.includes. rewrite existsb_exists. split.
  - intros (x & Hx & E). apply strictEq_true in E. now subst.
  - intros H. exists v. split; [ exact H | now apply strictEq_true ].
Qed.

Lemma normalizeTab_allowed (value : option string) :
  In (IkpMasterPage.normalizeTab value) IkpMasterPage.allowedTabs.
Proof.
  unfold IkpMasterPage.normalizeTab.
  destruct (negb (Js.truthy_opt value)); [ now left | ].
  destruct (IkpMasterPage.includes IkpMasterPage.allowedTabs
              (Js.toLowerCase (Js.trim (Js.orEmpty value)))) eqn:E.
  - now apply includes_In.
  - now left.
Qed.

Lemma normalizeTab_fixes_allowed (t : string) :
  In t IkpMasterPage.allowedTabs -> IkpMasterPage.normalizeTab (Some t) = t.
Proof.
  intros [<- | [<- | [<- | [<- | []]]]]; reflexivity.
Qed.

(** X4.  The tab read from the query string is always one of the four
    tabs; a missing or unrecognised value gives ["states"]; a recognised one
    is found whatever its case and surrounding white space; and normalising
    twice changes nothing. *)
Theorem normalizeTab_total_and_idempotent (value : option string) :
  In (IkpMasterPage.normalizeTab value) IkpMasterPage.allowedTabs
  /\ IkpMasterPage.normalizeTab None = "states"
  /\ (forall v, value = Some v ->
        ~ In (Js.toLowerCase (Js.trim v)) IkpMasterPage.allowedTabs ->
        IkpMasterPage.normalizeTab value = "states")
  /\ (forall v, value = Some v -> v <> "" ->
        In (Js.toLowerCase (Js.trim v)) IkpMasterPage.allowedTabs ->
        IkpMasterPage.normalizeTab value = Js.toLowerCase (Js.trim v))
  /\ IkpMasterPage.normalizeTab (Some (IkpMasterPage.normalizeTab value))
     = IkpMasterPage.normalizeTab value.
Proof.
  split; [ apply normalizeTab_allowed | ].
  split; [ reflexivity | ].
  split; [ | split ].
  - intros v -> Hn. unfold IkpMasterPage.normalizeTab.
    destruct (negb (Js.truthy_opt (Some v))); [ reflexivity | ].
    destruct (IkpMasterPage.includes IkpMasterPage.allowedTabs
                (Js.toLowerCase (Js.trim (Js.orEmpty (Some v))))) eqn:E;
      [ | reflexivity ].
    apply includes_In in E. now elim Hn.
  - intros v -> Hv Hin. unfold IkpMasterPage.normalizeTab.
    apply truthy_true in Hv. simpl Js.truthy_opt. rewrite Hv. simpl negb. cbv iota.
    apply includes_In in Hin. simpl Js.orEmpty. now rewrite Hin.
  - apply normalizeTab_fixes_allowed, normalizeTab_allowed.
Qed.

Lemma normalizeTab_total_and_idempotent_witness :
  IkpMasterPage.normalizeTab (Some "  Mandals ") = "mandals"
  /\ IkpMasterPage.normalizeTab (Some "centers") = "states".
Proof.
  destruct (normalizeTab_total_and_idempotent (Some "  Mandals "))
    as (_ & _ & _ & Hok & _).
  destruct (normalizeTab_total_and_idempotent (Some "centers"))
    as (_ & _ & Hbad & _).
  split.
  - rewrite (Hok "  Mandals " eq_refl); [ reflexivity | discriminate | ].
    vm_compute. tauto.
  - apply (Hbad "centers" eq_refl). vm_compute.
    intros H. repeat (destruct H as [H | H]; [ discriminate H | ]). exact H.
Defined.

Lemma generateCode_shape_witness :
  exists six, generateCode "V" "0.4fzyo82mvyr" = "V" +:+ six
              /\ String.length six = 6
              /\ allChars upperBase36Digit six = true.
Proof.
  apply generateCode_shape.
  - reflexivity.
  - simpl. lia.
Defined.

(** ** The filter bar of the IKP centers page *)

Lemma centers_filterStep_chained (e : IkpCentersPage.filterEvent)
    (p : IkpCentersPage.Filters) :
  centersChained p -> centersChained (IkpCentersPage.filterStep e p).
Proof.
  intros (H1 & H2 & H3). unfold centersChained.
  destruct e as [s | v | v | v | v | b]; simpl.
  - now repeat split.
  - repeat split; intros H; now elim H.
  - destruct (Js.truthy (IkpCentersPage.stateId p)) eqn:T; simpl.
    + apply truthy_true in T. repeat split; intros H; solve [ exact T | now elim H ].
    + now repeat split.
  - destruct (Js.truthy (IkpCentersPage.districtId p)) eqn:T; simpl.
    + apply truthy_true in T.
      repeat split; intros H; solve [ exact T | now elim H | now apply H1 ].
    + now repeat split.
  - destruct (Js.truthy (IkpCentersPage.mandalId p)) eqn:T; simpl.
    + apply truthy_true in T.
      repeat split; intros H; solve [ exact T | now apply H1 | now apply H2 ].
    + now repeat split.
  - now repeat split.
Qed.

Lemma centers_fold_chained (es : list IkpCentersPage.filterEvent)
    (p : IkpCentersPage.Filters) :
  centersChained p ->
  centersChained (fold_left (fun p e => IkpCentersPage.filterStep e p) es p).
Proof.
  revert p. induction es as [|e es IH]; intros p Hp; simpl.
  - exact Hp.
  - apply IH. now apply centers_filterStep_chained.
Qed.

(** X5.  Whatever the user does in the filter bar of the IKP centers page,
    starting from the page as mounted, a selected District comes with a
    selected State, a selected Mandal with a selected District and State,
    and a selected Village with all three; so the villages query and the
    mandals query are never enabled with an ancestor filter left empty. *)
Theorem centers_filter_chain (es : list IkpCentersPage.filterEvent) :
  let p := IkpCentersPage.filterRun es in
  (IkpCentersPage.districtId p <> "" -> IkpCentersPage.stateId p <> "")
  /\ (IkpCentersPage.mandalId p <> "" ->
      IkpCentersPage.districtId p <> "" /\ IkpCentersPage.stateId p <> "")
  /\ (IkpCentersPage.villageId p <> "" ->
      IkpCentersPage.mandalId p <> "" /\ IkpCentersPage.districtId p <> ""
      /\ IkpCentersPage.stateId p <> "")
  /\ (IkpCentersPage.mandalsQuery_enabled p = true -> IkpCentersPage.stateId p <> "")
  /\ (IkpCentersPage.villagesQuery_enabled p = true ->
      IkpCentersPage.districtId p <> "" /\ IkpCentersPage.stateId p <> "").
Proof.
  intros p.
  assert (Hc : centersChained p).
  { apply centers_fold_chained. unfold centersChained. simpl.
    repeat split; intros H; now elim H. }
  destruct Hc as (H1 & H2 & H3).
  split; [ exact H1 | ].
  split; [ intros H; split; [ now apply H2 | now apply H1, H2 ] | ].
  split; [ intros H; split; [ now apply H3 | split; [ now apply H2, H3 | now apply H1, H2, H3 ] ] | ].
  split.
  - intros H. apply nonBlank_true in H. destruct H as [H _]. now apply H1.
  - intros H. apply nonBlank_true in H. destruct H as [H _].
    split; [ now apply H2 | now apply H1, H2 ].
Qed.

Lemma centers_filter_chain_witness :
  let p := IkpCentersPage.filterRun
             [IkpCentersPage.DistrictFilterPicked (Some "d1");
              IkpCentersPage.StateFilterPicked (Some "AP");
              IkpCentersPage.DistrictFilterPicked (Some "d1");
              IkpCentersPage.MandalFilterPicked (Some "m1");
              IkpCentersPage.SearchTyped "ko"] in
  IkpCentersPage.mandalId p = "m1"
  /\ IkpCentersPage.districtId p <> "" /\ IkpCentersPage.stateId p <> "".
Proof.
  intros p.
  destruct (centers_filter_chain
              [IkpCentersPage.DistrictFilterPicked (Some "d1");
               IkpCentersPage.StateFilterPicked (Some "AP");
               IkpCentersPage.DistrictFilterPicked (Some "d1");
               IkpCentersPage.MandalFilterPicked (Some "m1");
               IkpCentersPage.SearchTyped "ko"]) as (_ & Hm & _).
  fold p in Hm.
  assert (Hsel : IkpCentersPage.mandalId p = "m1") by reflexivity.
  split; [ exact Hsel | apply Hm ]. rewrite Hsel. discriminate.
Defined.

(** ** What the IKP centers page sends on save *)

Lemma savePayload_dom (data : IkpCentersPage.IkpCenterDialog.IkpCenterFormData) :
  dom (IkpCentersPage.savePayload data)
  = ({[ "villageId"; "name"; "notes"; "isActive" ]} : gset string).
Proof.
  unfold IkpCentersPage.savePayload.
  rewrite !dom_insert_L, dom_singleton_L. reflexivity.
Qed.

(** X6.  The create and edit callbacks of the IKP centers page send an
    object with exactly the fields [villageId], [name], [notes] and
    [isActive] of the form: the State, District and Mandal chosen in the
    dialog are not sent and do not influence the call, the edit call
    carries the id of the row being edited, and with no row being edited
    the edit callback calls nothing. *)
Theorem center_save_sends_village_only
    (editing : option AdminIkpCenter.t)
    (data : IkpCentersPage.IkpCenterDialog.IkpCenterFormData) :
  let payload := IkpCentersPage.savePayload data in
  IkpCentersPage.create_onSave data
    = Some (IkpCentersPage.createAdminIkpCenter payload)
  /\ (editing = None -> IkpCentersPage.edit_onSave editing data = None)
  /\ (forall row, editing = Some row ->
        IkpCentersPage.edit_onSave editing data
        = Some (IkpCentersPage.updateAdminIkpCenter (AdminIkpCenter.id row) payload))
  /\ dom payload = ({[ "villageId"; "name"; "notes"; "isActive" ]} : gset string)
  /\ (payload !! "stateId" = None /\ payload !! "districtId" = None
      /\ payload !! "mandalId" = None)
  /\ payload !! "villageId"
     = Some (Js.VString (IkpCentersPage.IkpCenterDialog.villageId data))
  /\ (forall otherState otherDistrict otherMandal : string,
        IkpCentersPage.savePayload
          {| IkpCentersPage.IkpCenterDialog.stateId := otherState;
             IkpCentersPage.IkpCenterDialog.districtId := otherDistrict;
             IkpCentersPage.IkpCenterDialog.mandalId := otherMandal;
             IkpCentersPage.IkpCenterDialog.villageId :=
               IkpCentersPage.IkpCenterDialog.villageId data;
             IkpCentersPage.IkpCenterDialog.name :=
               IkpCentersPage.IkpCenterDialog.name data;
             IkpCentersPage.IkpCenterDialog.notes :=
               IkpCentersPage.IkpCenterDialog.notes data;
             IkpCentersPage.IkpCenterDialog.isActive :=
               IkpCentersPage.IkpCenterDialog.isActive data |}
        = payload).
Proof.
  intros payload.
  assert (Hnot : forall k, k ∉ ({[ "villageId"; "name"; "notes"; "isActive" ]} : gset string) ->
                           payload !! k = None).
  { intros k Hk. apply not_elem_of_dom. unfold payload. now rewrite savePayload_dom. }
  split; [ reflexivity | ].
  split; [ intros ->; reflexivity | ].
  split; [ intros row ->; reflexivity | ].
  split; [ apply savePayload_dom | ].
  split; [ repeat split; apply Hnot; set_solver | ].
  split; [ unfold payload, IkpCentersPage.savePayload; now rewrite lookup_insert_eq | ].
  reflexivity.
Qed.

Lemma center_save_sends_village_only_witness :
  let row := {| AdminIkpCenter.id := "c3"; AdminIkpCenter.stateId := "AP";
                AdminIkpCenter.districtId := "d1"; AdminIkpCenter.mandalId := "m1";
                AdminIkpCenter.villageId := "v7"; AdminIkpCenter.name := "Kothur IKP";
                AdminIkpCenter.notes := None; AdminIkpCenter.isActive := true |} in
  exists payload : gmap string Js.value,
    IkpCentersPage.edit_onSave (Some row) (IkpCentersPage.edit_initialValues (Some row))
    = Some (IkpCentersPage.updateAdminIkpCenter "c3" payload)
    /\ payload !! "villageId" = Some (Js.VString "v7")
    /\ payload !! "mandalId" = None.
Proof.
  intros row.
  destruct (center_save_sends_village_only (Some row)
              (IkpCentersPage.edit_initialValues (Some row)))
    as (_ & _ & Hrow & _ & (_ & _ & Hm) & Hv & _).
  eexists. split; [ exact (Hrow row eq_refl) | split; [ exact Hv | exact Hm ] ].
Defined.

(** ** The IKP villages page: filter chain and the create dialog *)

Lemma villages_filterStep_chained (e : IkpVillagesPage.filterEvent)
    (st : IkpVillagesPage.State) :
  villagesChained st -> villagesChained (IkpVillagesPage.filterStep e st).
Proof.
  intros (H1 & H2). unfold villagesChained.
  destruct e as [v | v | v | ]; simpl.
  - split; intros H; now elim H.
  - destruct (Js.truthy (IkpVillagesPage.stateId st)) eqn:T; simpl.
    + apply truthy_true in T. split; intros H; solve [ exact T | now elim H ].
    + now split.
  - destruct (Js.truthy (IkpVillagesPage.districtId st)) eqn:T; simpl.
    + apply truthy_true in T. split; intros H; solve [ exact T | now apply H1 ].
    + now split.
  - destruct (IkpVillagesPage.newVillageDisabled st); now split.
Qed.

Lemma villages_filterRun_chained (es : list IkpVillagesPage.filterEvent) :
  villagesChained (IkpVillagesPage.filterRun es).
Proof.
  unfold IkpVillagesPage.filterRun.
  assert (H0 : villagesChained IkpVillagesPage.initialState).
  { split; intros H; now elim H. }
  revert H0. generalize IkpVillagesPage.initialState as st.
  induction es as [|e es IH]; intros st Hst; simpl.
  - exact Hst.
  - apply IH. now apply villages_filterStep_chained.
Qed.

(** X7.  On the IKP villages page "New village" can be used only once a
    Mandal is selected in the filter bar, which in every reachable state
    means that a District and a State are selected too; the create dialog
    then opens with that mandal locked, so whatever the user does in the
    dialog the village is created under the mandal of the filter. *)
Theorem village_created_under_filter_mandal
    (fes : list IkpVillagesPage.filterEvent)
    (des : list IkpVillagesPage.VillageDialog.event) :
  let st := IkpVillagesPage.filterRun fes in
  let f := IkpVillagesPage.createDialog st des in
  IkpVillagesPage.newVillageDisabled st = false ->
  (IkpVillagesPage.mandalId st <> "" /\ IkpVillagesPage.districtId st <> ""
   /\ IkpVillagesPage.stateId st <> "")
  /\ IkpVillagesPage.tableShown st = true
  /\ IkpVillagesPage.VillageDialog.mandalId (IkpVillagesPage.VillageDialog.values f)
     = IkpVillagesPage.mandalId st
  /\ exists payload : gmap string Js.value,
       IkpVillagesPage.create_onSave (IkpVillagesPage.VillageDialog.values f)
       = Some (IkpVillagesPage.createAdminIkpVillage payload)
       /\ payload !! "mandalId" = Some (Js.VString (IkpVillagesPage.mandalId st)).
Proof.
  intros st f Hen.
  unfold IkpVillagesPage.newVillageDisabled in Hen. apply negb_false_iff in Hen.
  pose proof Hen as Hm. apply truthy_true in Hm.
  destruct (villages_filterRun_chained fes) as (H1 & H2). fold st in H1, H2.
  assert (Hlock : IkpVillagesPage.VillageDialog.mandalId
                    (IkpVillagesPage.VillageDialog.values f)
                  = IkpVillagesPage.mandalId st).
  { unfold f, IkpVillagesPage.createDialog, IkpVillagesPage.create_disableMandal.
    rewrite Hen.
    destruct (village_run_locked (IkpVillagesPage.create_initialValues st) des) as [_ Hk].
    exact Hk. }
  split; [ split; [ exact Hm | split; [ now apply H2 | now apply H1, H2 ] ] | ].
  split; [ exact Hen | ].
  split; [ exact Hlock | ].
  eexists. split; [ reflexivity | ].
  rewrite lookup_insert_eq. now rewrite Hlock.
Qed.

Lemma village_created_under_filter_mandal_witness :
  let fes := [IkpVillagesPage.StateFilterPicked (Some "AP");
              IkpVillagesPage.DistrictFilterPicked (Some "d1");
              IkpVillagesPage.MandalFilterPicked (Some "m1");
              IkpVillagesPage.NewVillageClicked] in
  let des := [IkpVillagesPage.VillageDialog.SelectMandal (Some "m2");
              IkpVillagesPage.VillageDialog.TypeName "Kothur"] in
  IkpVillagesPage.newVillageDisabled (IkpVillagesPage.filterRun fes) = false
  /\ IkpVillagesPage.createOpen (IkpVillagesPage.filterRun fes) = true
  /\ IkpVillagesPage.VillageDialog.mandalId
       (IkpVillagesPage.VillageDialog.values
          (IkpVillagesPage.createDialog (IkpVillagesPage.filterRun fes) des)) = "m1".
Proof.
  intros fes des.
  assert (Hen : IkpVillagesPage.newVillageDisabled (IkpVillagesPage.filterRun fes) = false)
    by reflexivity.
  destruct (village_created_under_filter_mandal fes des Hen) as (_ & _ & Hk & _).
  split; [ exact Hen | split; [ reflexivity | ] ].
  rewrite Hk. reflexivity.
Defined.

(** ** Rows of the IKP mandals table: lookups by id *)

Section ByKey.

Context {A : Type} (key : A -> string).

Lemma mapByKey_snoc (l : list A) (x : A) :
  mapByKey key (l ++ [x]) = <[key x := x]> (mapByKey key l).
Proof. unfold mapByKey. now rewrite fold_left_app. Qed.

Lemma findByKey_cons (k : string) (x : A) (l : list A) :
  findByKey key k (x :: l) = if decide (key x = k) then Some x else findByKey key k l.
Proof.
  unfold findByKey, Js.strictEq. simpl.
  destruct (String.eqb_spec (key x) k) as [E | E]; now case_decide.
Qed.

Lemma findByKey_None (k : string) (l : list A) :
  findByKey key k l = None <-> forall x, In x l -> key x <> k.
Proof.
  induction l as [|y l IH].
  - split; [ intros _ x [] | reflexivity ].
  - rewrite findByKey_cons. case_decide as E.
    + split; [ discriminate | intros H; exfalso; apply (H y); [ now left | exact E ] ].
    + rewrite IH. split.
      * intros H x [<- | Hx]; [ exact E | now apply H ].
      * intros H x Hx. apply H. now right.
Qed.

Lemma findByKey_Some (k : string) (l : list A) (x : A) :
  findByKey key k l = Some x -> In x l /\ key x = k.
Proof.
  unfold findByKey. intros H. apply find_some in H.
  destruct H as [H1 H2]. split; [ exact H1 | now apply strictEq_true ].
Qed.

Lemma findByKey_snoc (k : string) (l : list A) (x : A) :
  findByKey key k (l ++ [x])
  = match findByKey key k l with
    | Some y => Some y
    | None => if decide (key x = k) then Some x else None
    end.
Proof.
  induction l as [|y l IH].
  - simpl app. rewrite findByKey_cons. now case_decide.
  - change ((y :: l) ++ [x])%list with (y :: (l ++ [x]))%list.
    rewrite !findByKey_cons. destruct (decide (key y = k)); [ reflexivity | exact IH ].
Qed.

(** [map.get(k)] after the loop is the last element with key [k]. *)
Lemma mapByKey_last (k : string) (l : list A) :
  mapByKey key l !! k = findByKey key k (List.rev l).
Proof.
  induction l as [|x l IH] using rev_ind.
  - reflexivity.
  - rewrite mapByKey_snoc, rev_app_distr. simpl app. rewrite findByKey_cons.
    rewrite lookup_insert. case_decide; [ reflexivity | exact IH ].
Qed.

Lemma mapByKey_None (k : string) (l : list A) :
  mapByKey key l !! k = None <-> forall x, In x l -> key x <> k.
Proof.
  rewrite mapByKey_last, findByKey_None. split; intros H x Hx; apply H.
  - now apply in_rev in Hx.
  - now apply in_rev.
Qed.

Lemma mapByKey_Some (k : string) (l : list A) (x : A) :
  mapByKey key l !! k = Some x -> In x l /\ key x = k.
Proof.
  rewrite mapByKey_last. intros H. apply findByKey_Some in H.
  destruct H as [H1 H2]. split; [ now apply in_rev | exact H2 ].
Qed.

(** With pairwise different keys, the map and [find] give the same
    element. *)
Lemma mapByKey_unique (k : string) (l : list A) :
  List.NoDup (List.map key l) -> mapByKey key l !! k = findByKey key k l.
Proof.
  induction l as [|x l IH] using rev_ind; intros Hnd.
  - reflexivity.
  - rewrite mapByKey_snoc, findByKey_snoc, lookup_insert.
    rewrite List.map_app in Hnd. simpl in Hnd.
    apply NoDup_remove in Hnd. destruct Hnd as [Hnd Hx]. rewrite app_nil_r in Hnd, Hx.
    rewrite <- (IH Hnd). case_decide as E.
    + destruct (mapByKey key l !! k) as [y|] eqn:Hy; [ | reflexivity ].
      exfalso. apply mapByKey_Some in Hy. destruct Hy as [Hy1 Hy2].
      apply Hx. rewrite E, <- Hy2. now apply in_map.
    + now destruct (mapByKey key l !! k).
Qed.

End ByKey.

(** X8.  In the IKP mandals table the district of a row is looked up in a
    map filled from the loaded districts: the lookup gives the last loaded
    district with that id, and nothing exactly when no loaded district has
    it.  A row whose district is not loaded shows the raw district id and
    an empty State cell; a row whose district is found shows its name.
    When the loaded ids are pairwise different the map gives the same
    district as a first-match search. *)
Theorem mandal_row_resolves_district
    (states : list AdminIkpState.t) (districts : list AdminIkpDistrict.t)
    (row : AdminIkpMandal.t) :
  let k := AdminIkpMandal.districtId row in
  let cells := IkpMandalsPage.rowCells states districts row in
  IkpMandalsPage.districtById districts !! k
    = findByKey AdminIkpDistrict.id k (List.rev districts)
  /\ (IkpMandalsPage.districtById districts !! k = None <->
      forall d, In d districts -> AdminIkpDistrict.id d <> k)
  /\ ((forall d, In d districts -> AdminIkpDistrict.id d <> k) ->
      IkpMandalsPage.districtCell cells = k /\ IkpMandalsPage.stateCell cells = "")
  /\ (forall d, IkpMandalsPage.districtById districts !! k = Some d ->
      In d districts /\ AdminIkpDistrict.id d = k
      /\ IkpMandalsPage.districtCell cells = AdminIkpDistrict.name d
      /\ ((forall s, In s states -> AdminIkpState.id s <> AdminIkpDistrict.stateId d) ->
          IkpMandalsPage.stateCell cells = ""))
  /\ (List.NoDup (List.map AdminIkpDistrict.id districts) ->
      IkpMandalsPage.districtById districts !! k
      = findByKey AdminIkpDistrict.id k districts)
  /\ IkpMandalsPage.mandalCell cells = AdminIkpMandal.name row.
Proof.
  intros k cells.
  change (IkpMandalsPage.districtById districts) with (mapByKey AdminIkpDistrict.id districts).
  split; [ apply mapByKey_last | ].
  split; [ apply mapByKey_None | ].
  split.
  { intros Hno. apply (mapByKey_None AdminIkpDistrict.id) in Hno.
    unfold cells, IkpMandalsPage.rowCells.
    change (IkpMandalsPage.districtById districts) with (mapByKey AdminIkpDistrict.id districts).
    fold k. rewrite Hno. now split. }
  split.
  { intros d Hd. destruct (mapByKey_Some _ _ _ _ Hd) as [H1 H2].
    split; [ exact H1 | split; [ exact H2 | ] ].
    unfold cells, IkpMandalsPage.rowCells.
    change (IkpMandalsPage.districtById districts) with (mapByKey AdminIkpDistrict.id districts).
    fold k. rewrite Hd. split; [ reflexivity | ].
    intros Hs. apply (mapByKey_None AdminIkpState.id) in Hs.
    change (IkpMandalsPage.stateById states) with (mapByKey AdminIkpState.id states).
    simpl. now rewrite Hs. }
  split; [ apply mapByKey_unique | reflexivity ].
Qed.

Lemma mandal_row_resolves_district_witness :
  let older := {| AdminIkpDistrict.id := "d1"; AdminIkpDistrict.stateId := "AP";
                  AdminIkpDistrict.name := "Guntur"; AdminIkpDistrict.isActive := true |} in
  let other := {| AdminIkpDistrict.id := "d2"; AdminIkpDistrict.stateId := "AP";
                  AdminIkpDistrict.name := "Krishna"; AdminIkpDistrict.isActive := true |} in
  IkpMandalsPage.districtCell (IkpMandalsPage.rowCells [] [other] tenali) = "d1"
  /\ IkpMandalsPage.districtById [older; other] !! "d1" = Some older.
Proof.
  intros older other.
  destruct (mandal_row_resolves_district [] [other] tenali) as (_ & _ & Hmiss & _).
  destruct (mandal_row_resolves_district [] [older; other] tenali)
    as (_ & _ & _ & _ & Huniq & _).
  split.
  - apply Hmiss. intros d [<- | []]. discriminate.
  - change (AdminIkpMandal.districtId tenali) with "d1" in Huniq.
    rewrite Huniq; [ reflexivity | ].
    simpl. repeat constructor; simpl; intuition discriminate.
Defined.

(** ** Paging of the Locations tables *)

Lemma totalPages_bounds (total : Z) :
  (10 * (LocationsMandalsPage.totalPages total - 1) < total
   /\ total <= 10 * LocationsMandalsPage.totalPages total)%Z.
Proof.
  unfold LocationsMandalsPage.totalPages, LocationsMandalsPage.DEFAULT_PAGE_SIZE.
  pose proof (Z.div_mod (- total) 10 ltac:(lia)) as Hdm.
  pose proof (Z.mod_pos_bound (- total) 10 ltac:(lia)) as Hm.
  lia.
Qed.

(** X9.  For a row count between 0 and [Number.MAX_SAFE_INTEGER], the page
    count shown under the Locations tables is the ceiling of total / 10: it
    is the least number of pages of ten that hold [total] rows; it is 0 when
    there are no rows and 1 for one to ten rows; and every row index below
    [total] falls on a page not beyond it. *)
Theorem total_pages_is_ceiling (total : Z) :
  (0 <= total <= Js.MAX_SAFE_INTEGER)%Z ->
  (10 * (LocationsMandalsPage.totalPages total - 1) < total
   /\ total <= 10 * LocationsMandalsPage.totalPages total)%Z
  /\ (forall n : Z, (total <= 10 * n)%Z -> (LocationsMandalsPage.totalPages total <= n)%Z)
  /\ LocationsMandalsPage.totalPages 0 = 0%Z
  /\ ((1 <= total <= 10)%Z -> LocationsMandalsPage.totalPages total = 1%Z)
  /\ (forall i : Z, (0 <= i < total)%Z ->
        (1 <= i / 10 + 1 <= LocationsMandalsPage.totalPages total)%Z).
Proof.
  intros _.
  pose proof (totalPages_bounds total) as [Hlo Hhi].
  split; [ now split | ].
  split; [ intros n Hn; lia | ].
  split; [ reflexivity | ].
  split; [ intros Ht; lia | ].
  intros i Hi.
  pose proof (Z.div_mod i 10 ltac:(lia)) as Hdm.
  pose proof (Z.mod_pos_bound i 10 ltac:(lia)) as Hm.
  lia.
Qed.

Lemma total_pages_is_ceiling_witness :
  (0 <= 7 <= Js.MAX_SAFE_INTEGER)%Z
  /\ LocationsMandalsPage.totalPages 25 = 3%Z
  /\ LocationsMandalsPage.totalPages 7 = 1%Z.
Proof.
  assert (Hrange : (0 <= 7 <= Js.MAX_SAFE_INTEGER)%Z)
    by (unfold Js.MAX_SAFE_INTEGER; lia).
  destruct (total_pages_is_ceiling 7 Hrange) as (_ & _ & _ & Hone & _).
  split; [ exact Hrange | ].
  split; [ reflexivity | apply Hone; lia ].
Defined.

Lemma pagerStep_keeps_page_positive (e : LocationsMandalsPage.pagerEvent)
    (s : LocationsMandalsPage.Pager) :
  (1 <= LocationsMandalsPage.page s)%Z ->
  (1 <= LocationsMandalsPage.page (LocationsMandalsPage.pagerStep e s))%Z.
Proof.
  intros Hp. destruct e as [ | | t]; simpl.
  - destruct (LocationsMandalsPage.previousDisabled s); simpl; lia.
  - unfold LocationsMandalsPage.nextDisabled.
    destruct (Z.leb_spec (LocationsMandalsPage.totalPages (LocationsMandalsPage.total s))
                (LocationsMandalsPage.page s)); simpl; lia.
  - exact Hp.
Qed.

(** X10.  Paging with the Previous and Next buttons, from page 1 and with
    the total changing at will between clicks, never leaves page 1 or
    above; with an unchanged total the page stays within the page count;
    Next followed by Previous, and Previous followed by Next, come back to
    the same page when both buttons were enabled.  The page is not reset
    when the total shrinks: on a page beyond the page count Next is
    disabled and Previous goes back one page at a time. *)
Theorem pager_stays_in_range :
  (forall es, (1 <= LocationsMandalsPage.page (LocationsMandalsPage.pagerRun es))%Z)
  /\ (forall s e,
        (1 <= LocationsMandalsPage.page s
         <= Z.max 1 (LocationsMandalsPage.totalPages (LocationsMandalsPage.total s)))%Z ->
        e = LocationsMandalsPage.PreviousClicked \/ e = LocationsMandalsPage.NextClicked ->
        let s' := LocationsMandalsPage.pagerStep e s in
        LocationsMandalsPage.total s' = LocationsMandalsPage.total s
        /\ (1 <= LocationsMandalsPage.page s'
            <= Z.max 1 (LocationsMandalsPage.totalPages (LocationsMandalsPage.total s)))%Z)
  /\ (forall s,
        (1 <= LocationsMandalsPage.page s
         < LocationsMandalsPage.totalPages (LocationsMandalsPage.total s))%Z ->
        LocationsMandalsPage.pagerStep LocationsMandalsPage.PreviousClicked
          (LocationsMandalsPage.pagerStep LocationsMandalsPage.NextClicked s) = s)
  /\ (forall s,
        (1 < LocationsMandalsPage.page s
         <= LocationsMandalsPage.totalPages (LocationsMandalsPage.total s))%Z ->
        LocationsMandalsPage.pagerStep LocationsMandalsPage.NextClicked
          (LocationsMandalsPage.pagerStep LocationsMandalsPage.PreviousClicked s) = s)
  /\ (forall s,
        (1 < LocationsMandalsPage.page s)%Z ->
        (LocationsMandalsPage.totalPages (LocationsMandalsPage.total s)
         < LocationsMandalsPage.page s)%Z ->
        LocationsMandalsPage.pagerStep LocationsMandalsPage.NextClicked s = s
        /\ LocationsMandalsPage.page
             (LocationsMandalsPage.pagerStep LocationsMandalsPage.PreviousClicked s)
           = (LocationsMandalsPage.page s - 1)%Z).
Proof.
  split; [ | split; [ | split; [ | split ] ] ].
  - intros es. unfold LocationsMandalsPage.pagerRun.
    assert (H0 : (1 <= LocationsMandalsPage.page LocationsMandalsPage.initialPager)%Z)
      by (simpl; lia).
    revert H0. generalize LocationsMandalsPage.initialPager as s.
    induction es as [|e es IH]; intros s Hs; simpl; [ exact Hs | ].
    apply IH. now apply pagerStep_keeps_page_positive.
  - intros [p t] e Hr [-> | ->] s'; subst s'; simpl in *.
    + unfold LocationsMandalsPage.previousDisabled. simpl.
      destruct (Z.leb_spec p 1); simpl; split; try reflexivity; lia.
    + unfold LocationsMandalsPage.nextDisabled. simpl.
      destruct (Z.leb_spec (LocationsMandalsPage.totalPages t) p); simpl;
        split; try reflexivity; lia.
  - intros [p t] Hr. simpl in Hr.
    unfold LocationsMandalsPage.pagerStep at 2, LocationsMandalsPage.nextDisabled. simpl.
    destruct (Z.leb_spec (LocationsMandalsPage.totalPages t) p); [ lia | ].
    unfold LocationsMandalsPage.pagerStep, LocationsMandalsPage.previousDisabled,
      LocationsMandalsPage.onNext, LocationsMandalsPage.onPrevious. simpl.
    destruct (Z.leb_spec (Z.min (LocationsMandalsPage.totalPages t) (p + 1)) 1); [ lia | ].
    f_equal. lia.
  - intros [p t] Hr. simpl in Hr.
    unfold LocationsMandalsPage.pagerStep at 2, LocationsMandalsPage.previousDisabled. simpl.
    destruct (Z.leb_spec p 1); [ lia | ].
    unfold LocationsMandalsPage.pagerStep, LocationsMandalsPage.nextDisabled,
      LocationsMandalsPage.onNext, LocationsMandalsPage.onPrevious. simpl.
    destruct (Z.leb_spec (LocationsMandalsPage.totalPages t) (Z.max 1 (p - 1))); [ lia | ].
    f_equal. lia.
  - intros [p t] Hp Hbeyond. simpl in *.
    unfold LocationsMandalsPage.nextDisabled, LocationsMandalsPage.previousDisabled. simpl.
    destruct (Z.leb_spec (LocationsMandalsPage.totalPages t) p); [ | lia ].
    destruct (Z.leb_spec p 1); [ lia | ]. simpl. split; [ reflexivity | lia ].
Qed.

Lemma pager_stays_in_range_witness :
  let s := LocationsMandalsPage.pagerRun
             [LocationsMandalsPage.TotalRefetched 25;
              LocationsMandalsPage.NextClicked;
              LocationsMandalsPage.NextClicked;
              LocationsMandalsPage.NextClicked;
              LocationsMandalsPage.TotalRefetched 4] in
  LocationsMandalsPage.page s = 3%Z
  /\ LocationsMandalsPage.totalPages (LocationsMandalsPage.total s) = 1%Z
  /\ LocationsMandalsPage.pagerStep LocationsMandalsPage.NextClicked s = s
  /\ LocationsMandalsPage.page
       (LocationsMandalsPage.pagerStep LocationsMandalsPage.PreviousClicked s) = 2%Z.
Proof.
  intros s.
  destruct pager_stays_in_range as (_ & _ & _ & _ & Hbeyond).
  assert (H1 : (1 < LocationsMandalsPage.page s)%Z) by (vm_compute; reflexivity).
  assert (H2 : (LocationsMandalsPage.totalPages (LocationsMandalsPage.total s)
                < LocationsMandalsPage.page s)%Z) by (vm_compute; reflexivity).
  destruct (Hbeyond s H1 H2) as [Hn Hp].
  split; [ reflexivity | split; [ reflexivity | split; [ exact Hn | ] ] ].
  rewrite Hp. reflexivity.
Defined.

(** ** The filter bar of the Locations villages page *)

Lemma offeredValues_one_group {A : Type} (key lab : A -> string) (glabel : string)
    (l : list A) (v : string) :
  In v (offeredValues
          [ {| GroupedComboboxGroup.groupLabel := glabel;
               GroupedComboboxGroup.options :=
                 List.map (fun x => {| GroupedComboboxGroup.value := key x;
                                       GroupedComboboxGroup.label := lab x |}) l |} ])
  <-> exists x, In x l /\ key x = v.
Proof.
  unfold offeredValues. simpl. rewrite app_nil_r, List.map_map. simpl.
  rewrite in_map_iff. split; intros (x & H1 & H2); exists x; tauto.
Qed.

Lemma nth_error_offered (l : list string) (i : nat) (v : string) :
  nth_error l i = Some v -> In v l.
Proof. apply nth_error_In. Qed.

Lemma villages_filterStep_consistent
    (states : list AdminState.t) (districts : list AdminDistrict.t)
    (mandals : list AdminMandal.t) (e : LocationsVillagesPage.filterEvent)
    (p : LocationsVillagesPage.Filters) :
  filtersConsistent districts mandals p ->
  filtersConsistent districts mandals
    (LocationsVillagesPage.filterStep states districts mandals e p).
Proof.
  intros (H1 & H2). unfold filtersConsistent.
  destruct e as [i | i | i | | | ]; simpl.
  - destruct (nth_error _ i); simpl; [ | now split ].
    split; intros H; (exfalso; now apply H).
  - destruct (Js.truthy (LocationsVillagesPage.stateFilter p)) eqn:T; simpl; [ | now split ].
    destruct (nth_error _ i) as [v|] eqn:Hn; simpl; [ | now split ].
    split; [ | intros H; (exfalso; now apply H) ].
    intros _. apply truthy_true in T. split; [ exact T | ].
    apply nth_error_In in Hn.
    apply (offeredValues_one_group AdminDistrict.id AdminDistrict.name "Districts") in Hn.
    destruct Hn as (d & Hd & Hv).
    rewrite (districtFilterCandidates_selected _ _ T) in Hd.
    apply childrenOf_spec in Hd. exists d. tauto.
  - destruct (Js.truthy (LocationsVillagesPage.districtFilter p)) eqn:T; simpl; [ | now split ].
    destruct (nth_error _ i) as [v|] eqn:Hn; simpl; [ | now split ].
    split; [ exact H1 | ].
    intros _. apply truthy_true in T. split; [ exact T | ].
    apply nth_error_In in Hn.
    apply (offeredValues_one_group AdminMandal.id AdminMandal.name "Mandals") in Hn.
    destruct Hn as (m & Hm & Hv).
    unfold LocationsVillagesPage.mandalFilterCandidates in Hm.
    pose proof T as T'. apply truthy_true in T'. rewrite T' in Hm.
    apply (childrenOf_spec AdminMandal.districtId) in Hm. exists m. tauto.
  - split; intros H; (exfalso; now apply H).
  - destruct (Js.truthy (LocationsVillagesPage.stateFilter p)); simpl; [ | now split ].
    split; intros H; (exfalso; now apply H).
  - destruct (Js.truthy (LocationsVillagesPage.districtFilter p)); simpl; [ | now split ].
    split; [ exact H1 | intros H; (exfalso; now apply H) ].
Qed.

(** X11.  In the filter bar of the Locations villages page, whatever the
    user picks or clears, a chosen district is a loaded district of the
    chosen state and a chosen mandal is a loaded mandal of the chosen
    district; the list request carries the chosen mandal only, so right
    after a State or a District is picked it asks for the villages of every
    mandal. *)
Theorem villages_filter_bar_consistent
    (states : list AdminState.t) (districts : list AdminDistrict.t)
    (mandals : list AdminMandal.t) (es : list LocationsVillagesPage.filterEvent)
    (page : Z) (debouncedSearch : string) :
  let p := LocationsVillagesPage.filterRun states districts mandals es in
  let request := LocationsVillagesPage.listRequest page debouncedSearch p in
  (LocationsVillagesPage.districtFilter p <> "" ->
     LocationsVillagesPage.stateFilter p <> ""
     /\ exists d, In d districts
                  /\ AdminDistrict.id d = LocationsVillagesPage.districtFilter p
                  /\ AdminDistrict.stateId d = LocationsVillagesPage.stateFilter p)
  /\ (LocationsVillagesPage.ListVillagesParams.mandalId request <> "" ->
     LocationsVillagesPage.districtFilter p <> ""
     /\ exists m, In m mandals
                  /\ AdminMandal.id m
                     = LocationsVillagesPage.ListVillagesParams.mandalId request
                  /\ AdminMandal.districtId m = LocationsVillagesPage.districtFilter p)
  /\ (forall i,
        LocationsVillagesPage.ListVillagesParams.mandalId
          (LocationsVillagesPage.listRequest page debouncedSearch
             (LocationsVillagesPage.filterStep states districts mandals
                (LocationsVillagesPage.StatePicked i) p))
        = match nth_error (offeredValues (LocationsVillagesPage.stateGroups states)) i with
          | Some _ => ""
          | None => LocationsVillagesPage.mandalFilter p
          end)
  /\ (forall v,
        LocationsVillagesPage.ListVillagesParams.mandalId
          (LocationsVillagesPage.listRequest page debouncedSearch
             (LocationsVillagesPage.onStateFilterChange v p)) = ""
        /\ LocationsVillagesPage.ListVillagesParams.mandalId
             (LocationsVillagesPage.listRequest page debouncedSearch
                (LocationsVillagesPage.onDistrictFilterChange v p)) = "").
Proof.
  intros p request.
  assert (Hc : filtersConsistent districts mandals p).
  { unfold p, LocationsVillagesPage.filterRun.
    assert (H0 : filtersConsistent districts mandals LocationsVillagesPage.initialFilters).
    { split; intros H; exfalso; now apply H. }
    revert H0. generalize LocationsVillagesPage.initialFilters as q.
    induction es as [|e es IH]; intros q Hq; simpl; [ exact Hq | ].
    apply IH. now apply villages_filterStep_consistent. }
  destruct Hc as [H1 H2].
  split; [ exact H1 | ].
  split; [ exact H2 | ].
  split; [ | intros v; split; reflexivity ].
  intros i. simpl. now destruct (nth_error _ i).
Qed.

Lemma villages_filter_bar_consistent_witness :
  let states := [ {| AdminState.id := "AP"; AdminState.name := "Andhra Pradesh";
                     AdminState.code := "AP"; AdminState.isActive := true |} ] in
  let mandals := [ {| AdminMandal.id := "m1"; AdminMandal.districtId := "d1";
                      AdminMandal.name := "Tenali"; AdminMandal.code := None;
                      AdminMandal.isActive := true |} ] in
  let p := LocationsVillagesPage.filterRun states [guntur; warangal] mandals
             [LocationsVillagesPage.MandalPicked 0;
              LocationsVillagesPage.StatePicked 0;
              LocationsVillagesPage.DistrictPicked 1;
              LocationsVillagesPage.DistrictPicked 0;
              LocationsVillagesPage.MandalPicked 0] in
  LocationsVillagesPage.mandalFilter p = "m1"
  /\ LocationsVillagesPage.districtFilter p = "d1"
  /\ LocationsVillagesPage.stateFilter p = "AP".
Proof.
  intros states mandals p.
  destruct (villages_filter_bar_consistent states [guntur; warangal] mandals
              [LocationsVillagesPage.MandalPicked 0;
               LocationsVillagesPage.StatePicked 0;
               LocationsVillagesPage.DistrictPicked 1;
               LocationsVillagesPage.DistrictPicked 0;
               LocationsVillagesPage.MandalPicked 0] 1%Z "") as (_ & Hm & _).
  fold p in Hm.
  assert (Hsel : LocationsVillagesPage.mandalFilter p = "m1") by reflexivity.
  assert (Hne : LocationsVillagesPage.ListVillagesParams.mandalId
                  (LocationsVillagesPage.listRequest 1 "" p) <> "")
    by (vm_compute; discriminate).
  destruct (Hm Hne) as (_ & m & _ & _ & Hd).
  split; [ exact Hsel | ].
  split; reflexivity.
Defined.

(** ** The village dialog of the Locations villages page *)

Lemma orEmptyString_Some (s : string) : Js.orEmptyString (Some s) = s.
Proof. now destruct s. Qed.

Lemma create_initialValues_consistent (districts : list AdminDistrict.t)
    (mandals : list AdminMandal.t) :
  ancestryConsistent districts mandals LocationsVillagesPage.create_initialValues.
Proof. split; intros H; exfalso; now apply H. Qed.

Lemma edit_initialValues_consistent (districts : list AdminDistrict.t)
    (mandals : list AdminMandal.t) (editing : AdminVillage.t) :
  ancestryConsistent districts mandals
    (LocationsVillagesPage.edit_initialValues districts mandals editing).
Proof.
  unfold ancestryConsistent, LocationsVillagesPage.edit_initialValues,
    LocationsVillagesPage.mandalDistrictId. simpl.
  destruct (findByKey AdminMandal.id (AdminVillage.mandalId editing) mandals)
    as [m|] eqn:Hm; simpl.
  - apply findByKey_Some in Hm. destruct Hm as [Hm1 Hm2].
    rewrite orEmptyString_Some. split.
    + destruct (findByKey AdminDistrict.id (AdminMandal.districtId m) districts)
        as [d|] eqn:Hd; simpl.
      * apply findByKey_Some in Hd. destruct Hd as [Hd1 Hd2].
        rewrite orEmptyString_Some. intros _ _. now exists d.
      * intros H. exfalso. now apply H.
    + intros _ _. now exists m.
  - split; intros H1 H2; exfalso; solve [ now apply H1 | now apply H2 ].
Qed.

Lemma village_step_consistent
    (states : list AdminState.t) (districts : list AdminDistrict.t)
    (mandals : list AdminMandal.t) (initialValues : LocationsVillageDialog.VillageFormData)
    (e : LocationsVillageDialog.event) (f : LocationsVillageDialog.form) :
  ancestryConsistent districts mandals initialValues ->
  ancestryConsistent districts mandals (LocationsVillageDialog.values f) ->
  ancestryConsistent districts mandals
    (LocationsVillageDialog.values
       (LocationsVillageDialog.step states districts mandals initialValues e f)).
Proof.
  intros Hinit (H1 & H2). unfold ancestryConsistent.
  destruct e as [i | i | i | | | | t | t | t | b | ]; simpl;
    try (split; [ exact H1 | exact H2 ]).
  - destruct (nth_error _ i); simpl; [ | now split ].
    split; intros Ha Hb; exfalso; now apply Hb.
  - unfold LocationsVillageDialog.districtDisabled.
    destruct (Js.truthy (LocationsVillageDialog.selectedStateId f)) eqn:T; simpl;
      [ | now split ].
    destruct (nth_error _ i) as [v|] eqn:Hn; simpl; [ | now split ].
    split; [ | intros Ha Hb; exfalso; now apply Hb ].
    intros _ _. apply nth_error_In in Hn.
    apply (offeredValues_one_group AdminDistrict.id AdminDistrict.name "Districts") in Hn.
    destruct Hn as (d & Hd & Hv).
    unfold LocationsVillageDialog.filteredDistricts in Hd. rewrite T in Hd. simpl in Hd.
    apply filter_In in Hd. destruct Hd as [Hd1 Hd2]. apply strictEq_true in Hd2.
    exists d. tauto.
  - unfold LocationsVillageDialog.mandalDisabled.
    destruct (Js.truthy (LocationsVillageDialog.selectedDistrictId f)) eqn:T; simpl;
      [ | now split ].
    destruct (nth_error _ i) as [v|] eqn:Hn; simpl; [ | now split ].
    split; [ exact H1 | ].
    intros _ _. apply nth_error_In in Hn.
    apply (offeredValues_one_group AdminMandal.id AdminMandal.name "Mandals") in Hn.
    destruct Hn as (m & Hm & Hv).
    unfold LocationsVillageDialog.filteredMandals in Hm. rewrite T in Hm. simpl in Hm.
    apply filter_In in Hm. destruct Hm as [Hm1 Hm2]. apply strictEq_true in Hm2.
    exists m. tauto.
  - split; intros Ha Hb; exfalso; solve [ now apply Ha | now apply Hb ].
  - destruct (LocationsVillageDialog.districtDisabled f); simpl; [ now split | ].
    split; intros Ha Hb; exfalso; solve [ now apply Ha | now apply Hb ].
  - destruct (LocationsVillageDialog.mandalDisabled f); simpl; [ now split | ].
    split; [ exact H1 | intros Ha Hb; exfalso; now apply Hb ].
  - exact Hinit.
Qed.

Lemma village_run_consistent
    (states : list AdminState.t) (districts : list AdminDistrict.t)
    (mandals : list AdminMandal.t) (initialValues : LocationsVillageDialog.VillageFormData)
    (es : list LocationsVillageDialog.event) :
  ancestryConsistent districts mandals initialValues ->
  ancestryConsistent districts mandals
    (LocationsVillageDialog.values
       (LocationsVillageDialog.run states districts mandals initialValues es)).
Proof.
  intros Hinit. unfold LocationsVillageDialog.run.
  assert (H0 : ancestryConsistent districts mandals
                 (LocationsVillageDialog.values (LocationsVillageDialog.reset initialValues)))
    by exact Hinit.
  revert H0. generalize (LocationsVillageDialog.reset initialValues) as f.
  induction es as [|e es IH]; intros f Hf; simpl; [ exact Hf | ].
  apply IH. now apply village_step_consistent.
Qed.

(** X12.  In the village dialog of the Locations villages page, opened for a
    new village or on a row, whatever the user picks, clears and types and
    however often the page resets the form, a click on an enabled Save
    button hands over a village whose mandal is a loaded mandal of the
    chosen district and whose district is a loaded district of the chosen
    state.  When the mandal of the edited row is not among the loaded
    mandals, the dialog opens with State and District empty, Save disabled
    and the District and Mandal comboboxes disabled. *)
Theorem village_dialog_saves_consistent_ancestry
    (states : list AdminState.t) (districts : list AdminDistrict.t)
    (mandals : list AdminMandal.t) :
  (forall initialValues es isSaving data,
      initialValues = LocationsVillagesPage.create_initialValues
      \/ (exists editing,
            initialValues = LocationsVillagesPage.edit_initialValues districts mandals editing) ->
      LocationsVillageDialog.submit isSaving
        (LocationsVillageDialog.run states districts mandals initialValues es) = Some data ->
      isSaving = false
      /\ (exists d, In d districts
                    /\ AdminDistrict.id d = LocationsVillageDialog.districtId data
                    /\ AdminDistrict.stateId d = LocationsVillageDialog.stateId data)
      /\ (exists m, In m mandals
                    /\ AdminMandal.id m = LocationsVillageDialog.mandalId data
                    /\ AdminMandal.districtId m = LocationsVillageDialog.districtId data)
      /\ LocationsVillageDialog.name data <> "")
  /\ (forall editing,
        (forall m, In m mandals -> AdminMandal.id m <> AdminVillage.mandalId editing) ->
        let f := LocationsVillageDialog.reset
                   (LocationsVillagesPage.edit_initialValues districts mandals editing) in
        LocationsVillageDialog.stateId (LocationsVillageDialog.values f) = ""
        /\ LocationsVillageDialog.districtId (LocationsVillageDialog.values f) = ""
        /\ LocationsVillageDialog.mandalId (LocationsVillageDialog.values f)
           = AdminVillage.mandalId editing
        /\ LocationsVillageDialog.submit false f = None
        /\ LocationsVillageDialog.districtDisabled f = true
        /\ LocationsVillageDialog.mandalDisabled f = true).
Proof.
  split.
  - intros initialValues es isSaving data Hinit Hsub.
    assert (Hc : ancestryConsistent districts mandals
                   (LocationsVillageDialog.values
                      (LocationsVillageDialog.run states districts mandals initialValues es))).
    { apply village_run_consistent.
      destruct Hinit as [-> | (editing & ->)];
        [ apply create_initialValues_consistent | apply edit_initialValues_consistent ]. }
    unfold LocationsVillageDialog.submit, LocationsVillageDialog.submitDisabled in Hsub.
    destruct isSaving; [ discriminate | ]. simpl in Hsub.
    destruct (LocationsVillageDialog.isValid _); [ | discriminate ]. simpl in Hsub.
    destruct (LocationsVillageDialog.villageSchema _) eqn:Hv; [ | discriminate ].
    injection Hsub as <-.
    apply villageSchema_true in Hv. destruct Hv as (Hs & Hd & Hm & Hn).
    destruct Hc as [H1 H2].
    split; [ reflexivity | ].
    split; [ now apply H1 | ].
    split; [ now apply H2 | exact Hn ].
  - intros editing Hno f.
    apply (findByKey_None AdminMandal.id) in Hno.
    unfold f, LocationsVillagesPage.edit_initialValues, LocationsVillagesPage.mandalDistrictId,
      LocationsVillageDialog.submit, LocationsVillageDialog.submitDisabled,
      LocationsVillageDialog.isValid, LocationsVillageDialog.villageSchema,
      LocationsVillageDialog.districtDisabled, LocationsVillageDialog.mandalDisabled,
      LocationsVillageDialog.selectedStateId, LocationsVillageDialog.selectedDistrictId.
    rewrite Hno. simpl. repeat split; reflexivity.
Qed.

Lemma village_dialog_saves_consistent_ancestry_witness :
  let states := [ {| AdminState.id := "AP"; AdminState.name := "Andhra Pradesh";
                     AdminState.code := "AP"; AdminState.isActive := true |} ] in
  let mandals := [ {| AdminMandal.id := "m1"; AdminMandal.districtId := "d1";
                      AdminMandal.name := "Tenali"; AdminMandal.code := None;
                      AdminMandal.isActive := true |} ] in
  let es := [LocationsVillageDialog.StatePicked 0;
             LocationsVillageDialog.DistrictPicked 0;
             LocationsVillageDialog.MandalPicked 0;
             LocationsVillageDialog.NameTyped "Kothur"] in
  exists data,
    LocationsVillageDialog.submit false
      (LocationsVillageDialog.run states [guntur; warangal] mandals
         LocationsVillagesPage.create_initialValues es) = Some data
    /\ LocationsVillageDialog.mandalId data = "m1"
    /\ exists d, In d [guntur; warangal]
                 /\ AdminDistrict.id d = LocationsVillageDialog.districtId data
                 /\ AdminDistrict.stateId d = LocationsVillageDialog.stateId data.
Proof.
  intros states mandals es.
  destruct (village_dialog_saves_consistent_ancestry states [guntur; warangal] mandals)
    as [Hsave _].
  eexists. split; [ reflexivity | ]. split; [ reflexivity | ].
  refine (proj1 (proj2 (Hsave LocationsVillagesPage.create_initialValues es false _
                          (or_introl eq_refl) eq_refl))).
Defined.

(** ** The inline pincode editor *)

Lemma last_cons_default {A : Type} (x : A) (l : list A) (d d' : A) :
  List.last (x :: l) d = List.last (x :: l) d'.
Proof.
  revert x. induction l as [|y l IH]; intros x; [ reflexivity | ].
  change (List.last (y :: l) d = List.last (y :: l) d'). apply IH.
Qed.

Lemma pincode_fold_onChange (texts : list string)
    (st : LocationsVillagesPage.PincodeCell.State) :
  let st' := fold_left (fun st text => LocationsVillagesPage.PincodeCell.onChange text st)
               texts st in
  LocationsVillagesPage.PincodeCell.value st'
  = List.last texts (LocationsVillagesPage.PincodeCell.value st)
  /\ LocationsVillagesPage.PincodeCell.saving st'
     = LocationsVillagesPage.PincodeCell.saving st.
Proof.
  revert st. induction texts as [|t texts IH]; intros st; simpl.
  - now split.
  - destruct (IH (LocationsVillagesPage.PincodeCell.onChange t st)) as [H1 H2].
    split; [ | exact H2 ].
    rewrite H1. simpl. destruct texts as [|t' texts]; [ reflexivity | ].
    apply last_cons_default.
Qed.

(** X13.  The pincode cell of a row sends an update only when the text left
    in the input differs from the stored pincode (a missing pincode counting
    as the empty text), and then sends the last typed text, for the row's
    id, in an object whose only field is [pincode].  When the call has
    settled the cell is as it was before the input was left, so after a
    failure the typed text stays and leaving the input again sends the same
    update; once the row carries the typed pincode nothing is sent.  A
    failure shows one fixed text, whatever the error says, and a success
    shows nothing. *)
Theorem pincode_cell_sends_changes_only (village : AdminVillage.t) (texts : list string) :
  let stored := Js.orEmptyString (AdminVillage.pincode village) in
  let st := LocationsVillagesPage.PincodeCell.run village texts in
  let typed := List.last texts stored in
  LocationsVillagesPage.PincodeCell.value st = typed
  /\ (typed = stored ->
      LocationsVillagesPage.PincodeCell.handleBlur village st = (st, None)
      /\ LocationsVillagesPage.blurCall village st = None)
  /\ (typed <> stored ->
      exists payload : gmap string Js.value,
        LocationsVillagesPage.blurCall village st
        = Some (LocationsVillagesPage.UpdatePincodeMutation.updateAdminVillage
                  (AdminVillage.id village) payload)
        /\ dom payload = ({[ "pincode" ]} : gset string)
        /\ payload !! "pincode" = Some (Js.VString typed)
        /\ LocationsVillagesPage.PincodeCell.saving
             (fst (LocationsVillagesPage.PincodeCell.handleBlur village st)) = true
        /\ LocationsVillagesPage.PincodeCell.afterUpdate
             (fst (LocationsVillagesPage.PincodeCell.handleBlur village st)) = st)
  /\ (forall refetched : AdminVillage.t,
        AdminVillage.pincode refetched = Some typed ->
        LocationsVillagesPage.blurCall refetched st = None)
  /\ (forall err,
        LocationsVillagesPage.UpdatePincodeMutation.onError err
        = [ShowToast "Failed to update pincode." error])
  /\ (forall message kind,
        ~ In (ShowToast message kind) LocationsVillagesPage.UpdatePincodeMutation.onSuccess).
Proof.
  intros stored st typed.
  destruct (pincode_fold_onChange texts
              (LocationsVillagesPage.PincodeCell.initialState village)) as [Hv Hs].
  change (LocationsVillagesPage.PincodeCell.value st = typed) in Hv.
  change (LocationsVillagesPage.PincodeCell.saving st = false) in Hs.
  split; [ exact Hv | ].
  split.
  { intros Heq. unfold LocationsVillagesPage.blurCall, LocationsVillagesPage.PincodeCell.handleBlur.
    fold stored. rewrite Hv, Heq. unfold Js.strictEq. rewrite String.eqb_refl. now split. }
  split.
  { intros Hne. unfold LocationsVillagesPage.blurCall, LocationsVillagesPage.PincodeCell.handleBlur.
    fold stored. rewrite Hv.
    destruct (Js.strictEq typed stored) eqn:E; [ now apply strictEq_true in E | ].
    simpl. eexists. split; [ reflexivity | ].
    split; [ apply dom_singleton_L | ].
    split; [ apply lookup_singleton_eq | ].
    split; [ reflexivity | ].
    unfold LocationsVillagesPage.PincodeCell.afterUpdate. simpl.
    destruct st as [v s]. simpl in *. now subst. }
  split.
  { intros refetched Hr. unfold LocationsVillagesPage.blurCall,
      LocationsVillagesPage.PincodeCell.handleBlur.
    rewrite Hr, orEmptyString_Some, Hv. unfold Js.strictEq. now rewrite String.eqb_refl. }
  split; [ reflexivity | ].
  intros message kind [H | []]. discriminate.
Qed.

Lemma pincode_cell_sends_changes_only_witness :
  let village := {| AdminVillage.id := "v7"; AdminVillage.mandalId := "m1";
                    AdminVillage.name := "Kothur"; AdminVillage.code := None;
                    AdminVillage.pincode := None; AdminVillage.isActive := true |} in
  LocationsVillagesPage.blurCall village
    (LocationsVillagesPage.PincodeCell.run village ["5"; "52"; ""]) = None
  /\ LocationsVillagesPage.blurCall village
       (LocationsVillagesPage.PincodeCell.run village ["5"; "522"])
     = Some (LocationsVillagesPage.onUpdate "v7" "522").
Proof.
  intros village.
  destruct (pincode_cell_sends_changes_only village ["5"; "52"; ""]) as (_ & Hsame & _).
  destruct (pincode_cell_sends_changes_only village ["5"; "522"])
    as (_ & _ & Hdiff & _).
  split; [ apply Hsame; reflexivity | ].
  destruct Hdiff as (payload & Hcall & _); [ discriminate | ].
  reflexivity.
Defined.

(** ** The bulk-upload dialog of the Locations villages page *)

Lemma upload_step_consistent
    (states : list AdminState.t) (districts : list AdminDistrict.t)
    (mandals : list AdminMandal.t)
    (e : LocationsVillagesPage.BulkUploadVillagesDialog.event)
    (st : LocationsVillagesPage.BulkUploadVillagesDialog.State) :
  uploadConsistent states districts mandals st ->
  uploadConsistent states districts mandals
    (LocationsVillagesPage.BulkUploadVillagesDialog.step states districts mandals e st).
Proof.
  intros (H0 & H1 & H2). unfold uploadConsistent.
  destruct e as [i | i | i | | | | t | [|]]; simpl;
    try (split; [ exact H0 | split; [ exact H1 | exact H2 ] ]).
  - destruct (nth_error _ i) as [v|] eqn:Hn; simpl; [ | now repeat split ].
    split; [ | split; intros H; exfalso; now apply H ].
    intros _. apply nth_error_In in Hn.
    apply (offeredValues_one_group AdminState.id AdminState.name "States") in Hn.
    destruct Hn as (s & Hs & Hv). now exists s.
  - destruct (Js.truthy (LocationsVillagesPage.BulkUploadVillagesDialog.stateId st)) eqn:T;
      simpl; [ | now repeat split ].
    destruct (nth_error _ i) as [v|] eqn:Hn; simpl; [ | now repeat split ].
    split; [ exact H0 | split; [ | intros H; exfalso; now apply H ] ].
    intros _. apply nth_error_In in Hn.
    apply (offeredValues_one_group AdminDistrict.id AdminDistrict.name "Districts") in Hn.
    destruct Hn as (d & Hd & Hv).
    unfold LocationsVillagesPage.BulkUploadVillagesDialog.filteredDistricts in Hd.
    rewrite T in Hd. simpl in Hd.
    apply filter_In in Hd. destruct Hd as [Hd1 Hd2]. apply strictEq_true in Hd2.
    apply truthy_true in T. exists d. rewrite Hd2. tauto.
  - destruct (Js.truthy (LocationsVillagesPage.BulkUploadVillagesDialog.districtId st)) eqn:T;
      simpl; [ | now repeat split ].
    destruct (nth_error _ i) as [v|] eqn:Hn; simpl; [ | now repeat split ].
    split; [ exact H0 | split; [ exact H1 | ] ].
    intros _. apply nth_error_In in Hn.
    apply (offeredValues_one_group AdminMandal.id AdminMandal.name "Mandals") in Hn.
    destruct Hn as (m & Hm & Hv).
    unfold LocationsVillagesPage.BulkUploadVillagesDialog.filteredMandals in Hm.
    rewrite T in Hm. simpl in Hm.
    apply filter_In in Hm. destruct Hm as [Hm1 Hm2]. apply strictEq_true in Hm2.
    apply truthy_true in T. exists m. rewrite Hm2. tauto.
  - repeat split; intros H; exfalso; now apply H.
  - destruct (Js.truthy (LocationsVillagesPage.BulkUploadVillagesDialog.stateId st));
      simpl; [ | now repeat split ].
    split; [ exact H0 | split; intros H; exfalso; now apply H ].
  - destruct (Js.truthy (LocationsVillagesPage.BulkUploadVillagesDialog.districtId st));
      simpl; [ | now repeat split ].
    split; [ exact H0 | split; [ exact H1 | intros H; exfalso; now apply H ] ].
  - repeat split; intros H; exfalso; now apply H.
Qed.

Lemma upload_run_consistent
    (states : list AdminState.t) (districts : list AdminDistrict.t)
    (mandals : list AdminMandal.t)
    (es : list LocationsVillagesPage.BulkUploadVillagesDialog.event) :
  uploadConsistent states districts mandals
    (LocationsVillagesPage.BulkUploadVillagesDialog.run states districts mandals es).
Proof.
  unfold LocationsVillagesPage.BulkUploadVillagesDialog.run.
  assert (H0 : uploadConsistent states districts mandals
                 LocationsVillagesPage.BulkUploadVillagesDialog.initialState).
  { repeat split; intros H; exfalso; now apply H. }
  revert H0. generalize LocationsVillagesPage.BulkUploadVillagesDialog.initialState as st.
  induction es as [|e es IH]; intros st Hst; simpl; [ exact Hst | ].
  apply IH. now apply upload_step_consistent.
Qed.

(** X14.  In the bulk-upload dialog of the Locations villages page, after
    anything the user picks, clears and types and however often the dialog
    was closed and opened, a click on an enabled Upload button sends the
    text with a mandal that is loaded, belongs to the chosen district, which
    is loaded and belongs to the chosen state, which is loaded too.  Closing
    the dialog forgets the selection and the text, so that Upload is
    disabled when it opens again. *)
Theorem bulk_upload_targets_chosen_mandal
    (states : list AdminState.t) (districts : list AdminDistrict.t)
    (mandals : list AdminMandal.t)
    (es : list LocationsVillagesPage.BulkUploadVillagesDialog.event) :
  let st := LocationsVillagesPage.BulkUploadVillagesDialog.run states districts mandals es in
  (forall isUploading call,
      LocationsVillagesPage.clickUpload isUploading st = Some call ->
      exists m d s,
        call = LocationsVillagesPage.bulkUploadVillages (AdminMandal.id m)
                 (LocationsVillagesPage.BulkUploadVillagesDialog.items st)
        /\ In m mandals /\ In d districts /\ In s states
        /\ AdminMandal.districtId m = AdminDistrict.id d
        /\ AdminDistrict.stateId d = AdminState.id s
        /\ AdminDistrict.id d = LocationsVillagesPage.BulkUploadVillagesDialog.districtId st
        /\ AdminState.id s = LocationsVillagesPage.BulkUploadVillagesDialog.stateId st
        /\ Js.blank (LocationsVillagesPage.BulkUploadVillagesDialog.items st) = false)
  /\ (let closed := LocationsVillagesPage.BulkUploadVillagesDialog.step states districts mandals
                      (LocationsVillagesPage.BulkUploadVillagesDialog.OpenChanged false) st in
      closed = LocationsVillagesPage.BulkUploadVillagesDialog.initialState
      /\ LocationsVillagesPage.BulkUploadVillagesDialog.step states districts mandals
           (LocationsVillagesPage.BulkUploadVillagesDialog.OpenChanged true) closed = closed
      /\ forall isUploading, LocationsVillagesPage.clickUpload isUploading closed = None).
Proof.
  intros st. split; [ | now repeat split ].
  intros isUploading call Hcall.
  destruct (upload_run_consistent states districts mandals es) as (H0 & H1 & H2).
  fold st in H0, H1, H2.
  unfold LocationsVillagesPage.clickUpload,
    LocationsVillagesPage.BulkUploadVillagesDialog.uploadDisabled in Hcall.
  destruct (Js.truthy (LocationsVillagesPage.BulkUploadVillagesDialog.mandalId st)) eqn:Tm;
    [ | discriminate ].
  destruct (Js.truthy (Js.trim (LocationsVillagesPage.BulkUploadVillagesDialog.items st)))
    eqn:Ti; [ | discriminate ].
  destruct isUploading; [ discriminate | ]. simpl in Hcall. injection Hcall as <-.
  apply truthy_true in Tm. destruct (H2 Tm) as (m & Hm1 & Hm2 & Hm3 & Hm4).
  assert (Hd : LocationsVillagesPage.BulkUploadVillagesDialog.districtId st <> "")
    by now rewrite <- Hm3.
  destruct (H1 Hd) as (d & Hd1 & Hd2 & Hd3 & Hd4).
  assert (Hs : LocationsVillagesPage.BulkUploadVillagesDialog.stateId st <> "")
    by now rewrite <- Hd3.
  destruct (H0 Hs) as (s & Hs1 & Hs2).
  exists m, d, s. unfold LocationsVillagesPage.onUpload. rewrite Hm2.
  split; [ reflexivity | ].
  repeat split; try assumption; try congruence.
  rewrite truthy_trim in Ti. now apply negb_true_iff in Ti.
Qed.

Lemma bulk_upload_targets_chosen_mandal_witness :
  let states := [ {| AdminState.id := "AP"; AdminState.name := "Andhra Pradesh";
                     AdminState.code := "AP"; AdminState.isActive := true |} ] in
  let mandals := [ {| AdminMandal.id := "m1"; AdminMandal.districtId := "d1";
                      AdminMandal.name := "Tenali"; AdminMandal.code := None;
                      AdminMandal.isActive := true |} ] in
  let es := [LocationsVillagesPage.BulkUploadVillagesDialog.OpenChanged true;
             LocationsVillagesPage.BulkUploadVillagesDialog.StatePicked 0;
             LocationsVillagesPage.BulkUploadVillagesDialog.DistrictPicked 0;
             LocationsVillagesPage.BulkUploadVillagesDialog.MandalPicked 0;
             LocationsVillagesPage.BulkUploadVillagesDialog.ItemsTyped "Kothur, Angalakuduru"] in
  exists m,
    LocationsVillagesPage.clickUpload false
      (LocationsVillagesPage.BulkUploadVillagesDialog.run states [guntur; warangal] mandals es)
    = Some (LocationsVillagesPage.bulkUploadVillages "m1" "Kothur, Angalakuduru")
    /\ In m mandals /\ AdminMandal.districtId m = "d1".
Proof.
  intros states mandals es.
  destruct (bulk_upload_targets_chosen_mandal states [guntur; warangal] mandals es)
    as [Hclick _].
  destruct (Hclick false _ eq_refl) as (m & d & s & _ & Hm & _ & _ & Hmd & _ & Hd & _).
  exists m. split; [ reflexivity | split; [ exact Hm | ] ].
  rewrite Hmd, Hd. reflexivity.
Defined.

(** ** The tab of the IKP master page and the query string *)

Section SearchParams.

Variables name value : string.

Lemma named_refl : URLSearchParams.named name (name, value) = true.
Proof. unfold URLSearchParams.named, Js.strictEq. simpl. apply String.eqb_refl. Qed.

Lemma filter_others_none (sp : URLSearchParams.t) :
  List.filter (URLSearchParams.named name)
    (List.filter (fun q => negb (URLSearchParams.named name q)) sp) = [].
Proof.
  induction sp as [|p sp IH]; simpl; [ reflexivity | ].
  destruct (URLSearchParams.named name p) eqn:E; simpl; [ exact IH | ].
  now rewrite E.
Qed.

Lemma filter_others_idem (sp : URLSearchParams.t) :
  List.filter (fun q => negb (URLSearchParams.named name q))
    (List.filter (fun q => negb (URLSearchParams.named name q)) sp)
  = List.filter (fun q => negb (URLSearchParams.named name q)) sp.
Proof.
  induction sp as [|p sp IH]; simpl; [ reflexivity | ].
  destruct (URLSearchParams.named name p) eqn:E; simpl; [ exact IH | ].
  rewrite E. simpl. now rewrite IH.
Qed.

Lemma named_other (k : string) (p : string * string) :
  k <> name -> URLSearchParams.named name p = true -> URLSearchParams.named k p = false.
Proof.
  unfold URLSearchParams.named. intros Hk H. apply strictEq_true in H.
  destruct (Js.strictEq (fst p) k) eqn:E; [ | reflexivity ].
  apply strictEq_true in E. congruence.
Qed.

Lemma find_filter_others (k : string) (sp : URLSearchParams.t) :
  k <> name ->
  List.find (URLSearchParams.named k)
    (List.filter (fun q => negb (URLSearchParams.named name q)) sp)
  = List.find (URLSearchParams.named k) sp.
Proof.
  intros Hk. induction sp as [|p sp IH]; simpl; [ reflexivity | ].
  destruct (URLSearchParams.named name p) eqn:E; simpl.
  - rewrite (named_other k p Hk E). exact IH.
  - destruct (URLSearchParams.named k p); [ reflexivity | exact IH ].
Qed.

Lemma get_set_same (sp : URLSearchParams.t) :
  URLSearchParams.get name (URLSearchParams.set name value sp) = Some value.
Proof.
  unfold URLSearchParams.get.
  induction sp as [|p sp IH]; simpl.
  - now rewrite named_refl.
  - destruct (URLSearchParams.named name p) eqn:E; simpl.
    + now rewrite named_refl.
    + rewrite E. exact IH.
Qed.

Lemma get_set_other (k : string) (sp : URLSearchParams.t) :
  k <> name ->
  URLSearchParams.get k (URLSearchParams.set name value sp) = URLSearchParams.get k sp.
Proof.
  intros Hk. unfold URLSearchParams.get. f_equal.
  induction sp as [|p sp IH]; simpl.
  - now rewrite (named_other k (name, value) Hk named_refl).
  - destruct (URLSearchParams.named name p) eqn:E; simpl.
    + rewrite (named_other k (name, value) Hk named_refl), (named_other k p Hk E).
      now apply find_filter_others.
    + destruct (URLSearchParams.named k p); [ reflexivity | exact IH ].
Qed.

Lemma getAll_set (sp : URLSearchParams.t) :
  URLSearchParams.getAll name (URLSearchParams.set name value sp) = [value].
Proof.
  unfold URLSearchParams.getAll.
  induction sp as [|p sp IH]; simpl.
  - now rewrite named_refl.
  - destruct (URLSearchParams.named name p) eqn:E; simpl.
    + rewrite named_refl. simpl. now rewrite filter_others_none.
    + rewrite E. exact IH.
Qed.

Lemma set_set (sp : URLSearchParams.t) :
  URLSearchParams.set name value (URLSearchParams.set name value sp)
  = URLSearchParams.set name value sp.
Proof.
  induction sp as [|p sp IH]; simpl.
  - now rewrite named_refl.
  - destruct (URLSearchParams.named name p) eqn:E; simpl.
    + rewrite named_refl. now rewrite filter_others_idem.
    + rewrite E. now rewrite IH.
Qed.

End SearchParams.

(** X15.  A click on a tab of the IKP master page writes the tab into the
    query string and the page then shows that tab: the tab read back is the
    normalised value of the click, which for the four tab triggers is the
    clicked tab itself.  The query string afterwards holds exactly one
    [tab] entry, every other parameter reads as before, and clicking the
    same tab again changes nothing. *)
Theorem tab_click_round_trip (next : string) (searchParams : URLSearchParams.t) :
  let after := IkpMasterPage.onValueChange next searchParams in
  IkpMasterPage.tab after = IkpMasterPage.normalizeTab (Some next)
  /\ (In next IkpMasterPage.allowedTabs -> IkpMasterPage.tab after = next)
  /\ URLSearchParams.getAll "tab" after = [IkpMasterPage.normalizeTab (Some next)]
  /\ (forall k, k <> "tab" ->
        URLSearchParams.get k after = URLSearchParams.get k searchParams)
  /\ IkpMasterPage.onValueChange next after = after
  /\ (forall other,
        IkpMasterPage.tab (IkpMasterPage.onValueChange other after)
        = IkpMasterPage.normalizeTab (Some other)).
Proof.
  intros after.
  assert (Htab : forall n sp,
             IkpMasterPage.tab (IkpMasterPage.onValueChange n sp)
             = IkpMasterPage.normalizeTab (Some n)).
  { intros n sp. unfold IkpMasterPage.tab, IkpMasterPage.onValueChange.
    rewrite get_set_same. apply normalizeTab_fixes_allowed, normalizeTab_allowed. }
  split; [ apply Htab | ].
  split; [ intros Hin; unfold after; rewrite Htab; now apply normalizeTab_fixes_allowed | ].
  split; [ apply getAll_set | ].
  split; [ intros k Hk; now apply get_set_other | ].
  split; [ apply set_set | intros other; apply Htab ].
Qed.

Lemma tab_click_round_trip_witness :
  let searchParams := [("page", "2"); ("tab", "bogus"); ("tab", "villages")] in
  IkpMasterPage.tab searchParams = "states"
  /\ IkpMasterPage.tab (IkpMasterPage.onValueChange "mandals" searchParams) = "mandals"
  /\ IkpMasterPage.onValueChange "mandals" searchParams = [("page", "2"); ("tab", "mandals")].
Proof.
  intros searchParams.
  destruct (tab_click_round_trip "mandals" searchParams) as (_ & Hin & _).
  split; [ reflexivity | split; [ | reflexivity ] ].
  apply Hin. right. right. now left.
Defined.

(** ** The mandal dialog of the Locations mandals page *)

Lemma mandal_edit_initialValues_ok (districts : list AdminDistrict.t)
    (editing : AdminMandal.t) :
  districtOfState districts (LocationsMandalsPage.edit_initialValues districts editing).
Proof.
  unfold districtOfState, LocationsMandalsPage.edit_initialValues. simpl.
  destruct (findByKey AdminDistrict.id (AdminMandal.districtId editing) districts)
    as [d|] eqn:Hd; simpl.
  - apply findByKey_Some in Hd. destruct Hd as [Hd1 Hd2].
    rewrite orEmptyString_Some. intros _ _. now exists d.
  - intros H. exfalso. now apply H.
Qed.

Lemma mandal_step_ok
    (states : list AdminState.t) (districts : list AdminDistrict.t)
    (initialValues : LocationsMandalDialog.MandalFormData)
    (e : LocationsMandalDialog.event) (f : LocationsMandalDialog.form) :
  districtOfState districts initialValues ->
  districtOfState districts (LocationsMandalDialog.values f) ->
  districtOfState districts
    (LocationsMandalDialog.values
       (LocationsMandalDialog.step states districts initialValues e f)).
Proof.
  intros Hinit H1. unfold districtOfState.
  destruct e as [i | i | | | t | t | b | ]; simpl; try exact H1.
  - destruct (nth_error _ i); simpl; [ | exact H1 ].
    intros Ha Hb. exfalso. now apply Hb.
  - unfold LocationsMandalDialog.districtDisabled.
    destruct (Js.truthy (LocationsMandalDialog.selectedStateId f)) eqn:T; simpl;
      [ | exact H1 ].
    destruct (nth_error _ i) as [v|] eqn:Hn; simpl; [ | exact H1 ].
    intros _ _. apply nth_error_In in Hn.
    apply (offeredValues_one_group AdminDistrict.id AdminDistrict.name "Districts") in Hn.
    destruct Hn as (d & Hd & Hv).
    unfold LocationsMandalDialog.filteredDistricts in Hd. rewrite T in Hd. simpl in Hd.
    apply filter_In in Hd. destruct Hd as [Hd1 Hd2]. apply strictEq_true in Hd2.
    exists d. tauto.
  - intros Ha Hb. exfalso. now apply Hb.
  - destruct (LocationsMandalDialog.districtDisabled f); simpl; [ exact H1 | ].
    intros Ha Hb. exfalso. now apply Hb.
  - exact Hinit.
Qed.

Lemma mandal_run_ok
    (states : list AdminState.t) (districts : list AdminDistrict.t)
    (initialValues : LocationsMandalDialog.MandalFormData)
    (es : list LocationsMandalDialog.event) :
  districtOfState districts initialValues ->
  districtOfState districts
    (LocationsMandalDialog.values
       (LocationsMandalDialog.run states districts initialValues es)).
Proof.
  intros Hinit. unfold LocationsMandalDialog.run.
  assert (H0 : districtOfState districts
                 (LocationsMandalDialog.values (LocationsMandalDialog.reset initialValues)))
    by exact Hinit.
  revert H0. generalize (LocationsMandalDialog.reset initialValues) as f.
  induction es as [|e es IH]; intros f Hf; simpl; [ exact Hf | ].
  apply IH. now apply mandal_step_ok.
Qed.

Lemma mandal_submit_ok (districts : list AdminDistrict.t) (isSaving : bool)
    (f : LocationsMandalDialog.form) (data : LocationsMandalDialog.MandalFormData) :
  districtOfState districts (LocationsMandalDialog.values f) ->
  LocationsMandalDialog.submit isSaving f = Some data ->
  data = LocationsMandalDialog.values f
  /\ LocationsMandalDialog.name data <> ""
  /\ exists d, In d districts
               /\ AdminDistrict.id d = LocationsMandalDialog.districtId data
               /\ AdminDistrict.stateId d = LocationsMandalDialog.stateId data.
Proof.
  intros Hc Hsub.
  unfold LocationsMandalDialog.submit, LocationsMandalDialog.submitDisabled in Hsub.
  destruct isSaving; [ discriminate | ]. simpl in Hsub.
  destruct (LocationsMandalDialog.isValid f); [ | discriminate ]. simpl in Hsub.
  destruct (LocationsMandalDialog.mandalSchema (LocationsMandalDialog.values f)) eqn:Hv;
    [ | discriminate ].
  injection Hsub as <-.
  apply locations_mandalSchema_true in Hv. destruct Hv as (Hs & Hd & Hn).
  split; [ reflexivity | split; [ exact Hn | now apply Hc ] ].
Qed.

(** X16.  On the Locations mandals page, whatever the user does in the
    create or the edit dialog, the call sent by an enabled Save carries a
    district that is loaded and belongs to the state sent with it:
    [createAdminMandal] for a new mandal (the generated code does not touch
    them) and [updateAdminMandal] with the row's id for an edited one.  When
    the district of the edited row is not among the loaded districts, the
    dialog opens with an empty State and the row's district kept, Save and
    the District combobox are disabled, and picking any State empties the
    district. *)
Theorem mandal_saved_under_district_of_state
    (states : list AdminState.t) (districts : list AdminDistrict.t) :
  (forall es isSaving data rnd36,
      LocationsMandalDialog.submit isSaving
        (LocationsMandalDialog.run states districts
           LocationsMandalsPage.create_initialValues es) = Some data ->
      exists payload d,
        LocationsMandalsPage.create_onSave rnd36 data
        = LocationsMandalsPage.createAdminMandal payload
        /\ LocationsMandalDialog.name payload = LocationsMandalDialog.name data
        /\ LocationsMandalDialog.name payload <> ""
        /\ In d districts
        /\ AdminDistrict.id d = LocationsMandalDialog.districtId payload
        /\ AdminDistrict.stateId d = LocationsMandalDialog.stateId payload)
  /\ (forall editing es isSaving data,
        LocationsMandalDialog.submit isSaving
          (LocationsMandalDialog.run states districts
             (LocationsMandalsPage.edit_initialValues districts editing) es) = Some data ->
        exists d,
          LocationsMandalsPage.edit_onSave editing data
          = LocationsMandalsPage.updateAdminMandal (AdminMandal.id editing) data
          /\ In d districts
          /\ AdminDistrict.id d = LocationsMandalDialog.districtId data
          /\ AdminDistrict.stateId d = LocationsMandalDialog.stateId data)
  /\ (forall editing,
        (forall d, In d districts -> AdminDistrict.id d <> AdminMandal.districtId editing) ->
        let initialValues := LocationsMandalsPage.edit_initialValues districts editing in
        let f := LocationsMandalDialog.reset initialValues in
        LocationsMandalDialog.stateId (LocationsMandalDialog.values f) = ""
        /\ LocationsMandalDialog.districtId (LocationsMandalDialog.values f)
           = AdminMandal.districtId editing
        /\ LocationsMandalDialog.submit false f = None
        /\ LocationsMandalDialog.districtDisabled f = true
        /\ forall i v,
             nth_error (offeredValues (LocationsMandalDialog.stateGroups states)) i = Some v ->
             let f' := LocationsMandalDialog.step states districts initialValues
                         (LocationsMandalDialog.StatePicked i) f in
             LocationsMandalDialog.stateId (LocationsMandalDialog.values f') = v
             /\ LocationsMandalDialog.districtId (LocationsMandalDialog.values f') = "").
Proof.
  split; [ | split ].
  - intros es isSaving data rnd36 Hsub.
    apply (mandal_submit_ok districts) in Hsub.
    + destruct Hsub as (_ & Hn & d & Hd1 & Hd2 & Hd3).
      exists (LocationsMandalsPage.create_payload rnd36 data), d.
      split; [ reflexivity | ].
      unfold LocationsMandalsPage.create_payload.
      destruct (negb (Js.truthy_opt (LocationsMandalDialog.code data))); simpl;
        repeat split; assumption.
    + apply mandal_run_ok. intros H. exfalso. now apply H.
  - intros editing es isSaving data Hsub.
    apply (mandal_submit_ok districts) in Hsub.
    + destruct Hsub as (_ & _ & d & Hd). exists d. split; [ reflexivity | exact Hd ].
    + apply mandal_run_ok, mandal_edit_initialValues_ok.
  - intros editing Hno initialValues f.
    apply (findByKey_None AdminDistrict.id) in Hno.
    unfold f, initialValues, LocationsMandalsPage.edit_initialValues,
      LocationsMandalDialog.submit, LocationsMandalDialog.submitDisabled,
      LocationsMandalDialog.isValid, LocationsMandalDialog.mandalSchema,
      LocationsMandalDialog.districtDisabled, LocationsMandalDialog.selectedStateId,
      LocationsMandalDialog.step.
    rewrite Hno. simpl.
    split; [ reflexivity | ].
    split; [ reflexivity | ].
    split; [ reflexivity | ].
    split; [ reflexivity | ].
    intros i v Hi. rewrite Hi. now split.
Qed.

Lemma mandal_saved_under_district_of_state_witness :
  let states := [ {| AdminState.id := "AP"; AdminState.name := "Andhra Pradesh";
                     AdminState.code := "AP"; AdminState.isActive := true |} ] in
  let row := {| AdminMandal.id := "m9"; AdminMandal.districtId := "d7";
                AdminMandal.name := "Ponnur"; AdminMandal.code := None;
                AdminMandal.isActive := true |} in
  let opened := LocationsMandalDialog.reset
                  (LocationsMandalsPage.edit_initialValues [guntur; warangal] row) in
  let es := [LocationsMandalDialog.StatePicked 0; LocationsMandalDialog.DistrictPicked 0] in
  LocationsMandalDialog.submit false opened = None
  /\ exists d,
       LocationsMandalDialog.submit false
         (LocationsMandalDialog.run states [guntur; warangal]
            (LocationsMandalsPage.edit_initialValues [guntur; warangal] row) es)
       = Some {| LocationsMandalDialog.stateId := "AP";
                 LocationsMandalDialog.districtId := "d1";
                 LocationsMandalDialog.name := "Ponnur";
                 LocationsMandalDialog.code := Some "";
                 LocationsMandalDialog.isActive := true |}
       /\ In d [guntur; warangal] /\ AdminDistrict.id d = "d1".
Proof.
  intros states row opened es.
  destruct (mandal_saved_under_district_of_state states [guntur; warangal])
    as (_ & Hedit & Hmissing).
  split.
  - refine (proj1 (proj2 (proj2 (Hmissing row _)))).
    intros d [<- | [<- | []]]; discriminate.
  - destruct (Hedit row es false _ eq_refl) as (d & _ & Hd1 & Hd2 & _).
    exists d. split; [ reflexivity | split; [ exact Hd1 | exact Hd2 ] ].
Defined.
